(** * Quantum State Visualizer: circuit builder, application shell and
      processing core

    The development follows the layout of the repository.

    - [JS]: the fragment of JavaScript data the front end manipulates
      (numbers as IEEE-754 doubles, strings, arrays, objects, property
      reads, truthiness, strict equality, [JSON.stringify]/[JSON.parse]).
    - [CircuitBuilder]: the state and handlers of
      [frontend/src/components/CircuitBuilder.js].
    - [App]: the state and handlers of [frontend/src/App.js].
    - [Core]: the processing pipeline behind [POST /api/process-circuit];
      its Python sources are not part of the front-end tree, so it is
      modelled from the design document. *)

From Stdlib Require Import ZArith List String Ascii Bool Lia.
From Stdlib Require Import Floats.SpecFloat.
From Stdlib Require Import Reals Lra.
Import ListNotations.

Local Open Scope string_scope.
Local Open Scope list_scope.

(* ===================================================================== *)
(** * JavaScript values                                                    *)
(* ===================================================================== *)

Module JS.

(** ** Numbers

    A JavaScript number is an IEEE-754 binary64 value.  We use the
    specification floats of the standard library: signed zeros, signed
    infinities, NaN, and finite values [(-1)^s * m * 2^e]. *)

Definition number := spec_float.

Definition prec : Z := 53.
Definition emax : Z := 1024.

(** The double denoted by an integer literal. *)
Definition of_Z (z : Z) : number := binary_normalize prec emax z 0 false.

Definition NaN : number := S754_nan.
Definition Infinity : number := S754_infinity false.

(** [Number.isFinite]. *)
Definition isFinite (x : number) : bool :=
  match x with
  | S754_zero _ | S754_finite _ _ _ => true
  | S754_infinity _ | S754_nan => false
  end.

Definition isNaN (x : number) : bool :=
  match x with S754_nan => true | _ => false end.

Definition isZero (x : number) : bool :=
  match x with S754_zero _ => true | _ => false end.

Definition isNegZero (x : number) : bool :=
  match x with S754_zero true => true | _ => false end.

(** Finite and without a minus sign. *)
Definition nonnegative (x : number) : bool :=
  match x with
  | S754_zero s | S754_finite s _ _ => negb s
  | S754_infinity _ | S754_nan => false
  end.

(** A number that a JSON literal denotes and that prints as that
    literal: finite and not [-0]. *)
Definition safe_number (x : number) : bool :=
  isFinite x && negb (isNegZero x).

(** [Math.PI / 2], the double [0x3FF921FB54442D18]. *)
Definition Math_PI_2 : number :=
  S754_finite false 0x1921FB54442D18 (-52).

(** ** Values *)

#[local] Set Warnings "-register-all".

Inductive value : Type :=
| VUndefined
| VNull
| VBool (b : bool)
| VNum (n : number)
| VStr (s : string)
| VArr (items : list value)
| VObj (props : list (string * value)).

(** Own properties of an object, in enumeration order. *)
Fixpoint lookup {A} (k : string) (props : list (string * A)) : option A :=
  match props with
  | [] => None
  | (k', v) :: rest => if String.eqb k k' then Some v else lookup k rest
  end.

(** [obj.k = v]: overwrite in place when [k] is present, append when not. *)
Fixpoint set_prop {A} (k : string) (v : A) (props : list (string * A))
  : list (string * A) :=
  match props with
  | [] => [(k, v)]
  | (k', v') :: rest =>
      if String.eqb k k' then (k', v) :: rest
      else (k', v') :: set_prop k v rest
  end.

(** Reading [o.k] for a key [k] that is not an array index.  [None] is
    the [TypeError] raised on [undefined] and [null].  Besides own
    properties only [length] of arrays and strings is resolved: it is the
    one inherited property the application reads. *)
Definition get (o : value) (k : string) : option value :=
  match o with
  | VUndefined | VNull => None
  | VObj props =>
      Some match lookup k props with Some v => v | None => VUndefined end
  | VArr items =>
      Some (if String.eqb k "length"
            then VNum (of_Z (Z.of_nat (List.length items)))
            else VUndefined)
  | VStr s =>
      Some (if String.eqb k "length"
            then VNum (of_Z (Z.of_nat (String.length s)))
            else VUndefined)
  | VBool _ | VNum _ => Some VUndefined
  end.

(** The own property [k] of an object, if it has one. *)
Definition own (o : value) (k : string) : option value :=
  match o with
  | VObj props => lookup k props
  | _ => None
  end.

(** [ToLength] of a number: truncate, then clamp to [0, 2^53 - 1]. *)
Definition ToLength (x : number) : nat :=
  match x with
  | S754_nan | S754_zero _ | S754_infinity true => 0
  | S754_infinity false => Z.to_nat (2 ^ 53 - 1)
  | S754_finite s m e =>
      if s then 0%nat
      else Z.to_nat (Z.min (2 ^ 53 - 1) (Z.shiftl (Zpos m) e))
  end.

(** [Array.from({length: n}, (_, i) => i)]. *)
Definition indices (n : number) : list number :=
  map (fun i => of_Z (Z.of_nat i)) (seq 0 (ToLength n)).

(** [ToBoolean]. *)
Definition truthy (v : value) : bool :=
  match v with
  | VUndefined | VNull => false
  | VBool b => b
  | VNum n => negb (isZero n || isNaN n)
  | VStr s => negb (String.eqb s "")
  | VArr _ | VObj _ => true
  end.

(** [a === b] when [b] is a number: no coercion, IEEE equality. *)
Definition strict_eq_num (a : value) (b : number) : bool :=
  match a with
  | VNum n => SFeqb n b
  | _ => false
  end.

(** [a === b] on two numbers. *)
Definition num_eq (a b : number) : bool := SFeqb a b.

(** [ToString].  The digits of a number are produced by the engine
    ([Number::toString]); they are a parameter here. *)
Section ToString.

Variable numberToString : number -> string.

Fixpoint ToString (v : value) : string :=
  match v with
  | VUndefined => "undefined"
  | VNull => "null"
  | VBool true => "true"
  | VBool false => "false"
  | VNum n => numberToString n
  | VStr s => s
  | VArr items =>
      String.concat ","
        (map (fun x => match x with
                       | VUndefined | VNull => ""
                       | _ => ToString x
                       end) items)
  | VObj _ => "[object Object]"
  end.

End ToString.

(** ** JSON

    [JSON.stringify] and [JSON.parse] are engine built-ins.  They are
    modelled on the syntax tree of the JSON text: the concrete characters
    (indentation, escapes, digits) are left out, and a numeric literal is
    identified with the double it denotes, which is what [JSON.parse]
    returns for it and, for a finite double, what [JSON.stringify] prints
    (the shortest literal that reads back as the same double). *)

Inductive json : Type :=
| JNull
| JBool (b : bool)
| JNumber (n : number)
| JString (s : string)
| JArray (items : list json)
| JObject (members : list (string * json)).

(** [SerializeJSONProperty] for a number: non-finite numbers print as
    [null], and negative zero prints as [0]. *)
Definition stringify_number (n : number) : json :=
  if isFinite n
  then JNumber (if isZero n then S754_zero false else n)
  else JNull.

(** [JSON.stringify(v)].  [None] is the result [undefined].  Inside an
    array [undefined] prints as [null]; inside an object the property is
    omitted. *)
Fixpoint stringify (v : value) : option json :=
  match v with
  | VUndefined => None
  | VNull => Some JNull
  | VBool b => Some (JBool b)
  | VNum n => Some (stringify_number n)
  | VStr s => Some (JString s)
  | VArr items =>
      Some (JArray (map (fun x => match stringify x with
                                  | Some j => j
                                  | None => JNull
                                  end) items))
  | VObj props =>
      Some (JObject
        ((fix members (ps : list (string * value)) : list (string * json) :=
            match ps with
            | [] => []
            | (k, x) :: rest =>
                match stringify x with
                | Some j => (k, j) :: members rest
                | None => members rest
                end
            end) props))
  end.

(** Members are defined in textual order; a repeated name overwrites the
    earlier value. *)
Definition define_all {A} (members : list (string * A)) : list (string * A) :=
  fold_left (fun acc kv => set_prop (fst kv) (snd kv) acc) members [].

(** [JSON.parse] on the syntax tree of a well-formed text. *)
Fixpoint parse (j : json) : value :=
  match j with
  | JNull => VNull
  | JBool b => VBool b
  | JNumber n => VNum n
  | JString s => VStr s
  | JArray items => VArr (map parse items)
  | JObject members =>
      VObj (define_all (map (fun kv => (fst kv, parse (snd kv))) members))
  end.

(** Values that a JSON text can denote and that [JSON.stringify] prints
    without loss: no [undefined], only finite numbers other than [-0],
    and no repeated property name. *)
Fixpoint distinct (ks : list string) : bool :=
  match ks with
  | [] => true
  | k :: rest => negb (existsb (String.eqb k) rest) && distinct rest
  end.

Fixpoint json_safe (v : value) : bool :=
  match v with
  | VUndefined => false
  | VNull | VBool _ | VStr _ => true
  | VNum n => safe_number n
  | VArr items => forallb json_safe items
  | VObj props =>
      distinct (map fst props) &&
      forallb (fun kv => json_safe (snd kv)) props
  end.

End JS.

(* ===================================================================== *)
(** * The circuit builder ([components/CircuitBuilder.js])                 *)
(* ===================================================================== *)

Module CircuitBuilder.
Import JS.

(** An entry of the gate catalog.  [hasAngle] is [false] where the
    source omits the field (reading it gives [undefined], which is
    falsy). *)
Record GateInfo : Type := {
  name : string;
  symbol : string;
  type : string;
  hasAngle : bool
}.

Definition availableGates : list (string * GateInfo) :=
  [ ("h",  {| name := "Hadamard";     symbol := "H";  type := "single"; hasAngle := false |});
    ("x",  {| name := "Pauli-X";      symbol := "X";  type := "single"; hasAngle := false |});
    ("y",  {| name := "Pauli-Y";      symbol := "Y";  type := "single"; hasAngle := false |});
    ("z",  {| name := "Pauli-Z";      symbol := "Z";  type := "single"; hasAngle := false |});
    ("rx", {| name := "Rotation-X";   symbol := "Rx"; type := "single"; hasAngle := true |});
    ("ry", {| name := "Rotation-Y";   symbol := "Ry"; type := "single"; hasAngle := true |});
    ("rz", {| name := "Rotation-Z";   symbol := "Rz"; type := "single"; hasAngle := true |});
    ("cx", {| name := "CNOT";         symbol := "⊕";  type := "two";    hasAngle := false |});
    ("cz", {| name := "Controlled-Z"; symbol := "CZ"; type := "two";    hasAngle := false |}) ].

(** The component's [useState] cells. *)
Record state : Type := {
  numQubits : number;
  gates : list value;
  selectedGate : string;
  selectedQubit : number;
  selectedControl : number;
  selectedTarget : number;
  rotationAngle : number
}.

Definition initial : state := {|
  numQubits := of_Z 2;
  gates := [];
  selectedGate := "h";
  selectedQubit := of_Z 0;
  selectedControl := of_Z 0;
  selectedTarget := of_Z 1;
  rotationAngle := Math_PI_2
|}.

Definition setNumQubits (n : number) (s : state) : state :=
  {| numQubits := n; gates := gates s; selectedGate := selectedGate s;
     selectedQubit := selectedQubit s; selectedControl := selectedControl s;
     selectedTarget := selectedTarget s; rotationAngle := rotationAngle s |}.

Definition setGates (g : list value) (s : state) : state :=
  {| numQubits := numQubits s; gates := g; selectedGate := selectedGate s;
     selectedQubit := selectedQubit s; selectedControl := selectedControl s;
     selectedTarget := selectedTarget s; rotationAngle := rotationAngle s |}.

Definition setSelectedGate (k : string) (s : state) : state :=
  {| numQubits := numQubits s; gates := gates s; selectedGate := k;
     selectedQubit := selectedQubit s; selectedControl := selectedControl s;
     selectedTarget := selectedTarget s; rotationAngle := rotationAngle s |}.

Definition setSelectedQubit (n : number) (s : state) : state :=
  {| numQubits := numQubits s; gates := gates s; selectedGate := selectedGate s;
     selectedQubit := n; selectedControl := selectedControl s;
     selectedTarget := selectedTarget s; rotationAngle := rotationAngle s |}.

Definition setSelectedControl (n : number) (s : state) : state :=
  {| numQubits := numQubits s; gates := gates s; selectedGate := selectedGate s;
     selectedQubit := selectedQubit s; selectedControl := n;
     selectedTarget := selectedTarget s; rotationAngle := rotationAngle s |}.

Definition setSelectedTarget (n : number) (s : state) : state :=
  {| numQubits := numQubits s; gates := gates s; selectedGate := selectedGate s;
     selectedQubit := selectedQubit s; selectedControl := selectedControl s;
     selectedTarget := n; rotationAngle := rotationAngle s |}.

Definition setRotationAngle (x : number) (s : state) : state :=
  {| numQubits := numQubits s; gates := gates s; selectedGate := selectedGate s;
     selectedQubit := selectedQubit s; selectedControl := selectedControl s;
     selectedTarget := selectedTarget s; rotationAngle := x |}.

(** The object literal handed to [onCircuitChange]. *)
Record circuit : Type := {
  num_qubits : number;
  circuit_gates : list value
}.

Definition circuit_value (c : circuit) : value :=
  VObj [("num_qubits", VNum (num_qubits c)); ("gates", VArr (circuit_gates c))].

Definition currentCircuit (s : state) : circuit :=
  {| num_qubits := numQubits s; circuit_gates := gates s |}.

(** The effect that copies [initialCircuit] into the component.  The
    cells are typed: a [num_qubits] that is not a number, or a truthy
    [gates] that is not an array, has no counterpart in [state] and is
    reported as [None]. *)
Definition syncInitialCircuit (initialCircuit : value) (s : state)
  : option state :=
  if truthy initialCircuit then
    match get initialCircuit "num_qubits", get initialCircuit "gates" with
    | Some (VNum n), Some g =>
        if truthy g then
          match g with
          | VArr items => Some (setGates items (setNumQubits n s))
          | _ => None
          end
        else Some (setGates [] (setNumQubits n s))
    | _, _ => None
    end
  else Some s.

(** What a call of [addGate] leaves behind: the next state together with
    the text of the alert it raised, if any. *)
Definition addGate (s : state) : option (state * option string) :=
  match lookup (selectedGate s) availableGates with
  | None => None (* [gateInfo] is [undefined]: [gateInfo.type] throws *)
  | Some gateInfo =>
      if String.eqb (type gateInfo) "single" then
        let newGate :=
          [("type", VStr (selectedGate s)); ("qubit", VNum (selectedQubit s))] in
        let newGate :=
          if hasAngle gateInfo
          then set_prop "angle" (VNum (rotationAngle s)) newGate
          else newGate in
        Some (setGates (gates s ++ [VObj newGate]) s, None)
      else if String.eqb (type gateInfo) "two" then
        if num_eq (selectedControl s) (selectedTarget s) then
          Some (s, Some "Control and target qubits must be different!")
        else
          let newGate :=
            [("type", VStr (selectedGate s));
             ("control", VNum (selectedControl s));
             ("target", VNum (selectedTarget s))] in
          Some (setGates (gates s ++ [VObj newGate]) s, None)
      else
        Some (setGates (gates s ++ [VUndefined]) s, None)
  end.

(** [xs.filter((_, i) => keep(i))], counting positions from [from]. *)
Fixpoint filter_index {A} (keep : nat -> bool) (from : nat) (xs : list A)
  : list A :=
  match xs with
  | [] => []
  | x :: rest =>
      if keep from then x :: filter_index keep (S from) rest
      else filter_index keep (S from) rest
  end.

Definition removeGate (index : nat) (s : state) : state :=
  let newGates := filter_index (fun i => negb (Nat.eqb i index)) 0 (gates s) in
  setGates newGates s.

Definition clearCircuit (s : state) : state := setGates [] s.

Definition examples : list (string * circuit) :=
  [ ("bell",
     {| num_qubits := of_Z 2;
        circuit_gates :=
          [ VObj [("type", VStr "h"); ("qubit", VNum (of_Z 0))];
            VObj [("type", VStr "cx"); ("control", VNum (of_Z 0));
                  ("target", VNum (of_Z 1))] ] |});
    ("ghz",
     {| num_qubits := of_Z 3;
        circuit_gates :=
          [ VObj [("type", VStr "h"); ("qubit", VNum (of_Z 0))];
            VObj [("type", VStr "cx"); ("control", VNum (of_Z 0));
                  ("target", VNum (of_Z 1))];
            VObj [("type", VStr "cx"); ("control", VNum (of_Z 1));
                  ("target", VNum (of_Z 2))] ] |});
    ("superposition",
     {| num_qubits := of_Z 1;
        circuit_gates :=
          [ VObj [("type", VStr "h"); ("qubit", VNum (of_Z 0))] ] |}) ].

(** Only own properties of [examples] are looked up; the buttons pass
    the three names above. *)
Definition loadExampleCircuit (example : string) (s : state) : state :=
  match lookup example examples with
  | Some ex => setGates (circuit_gates ex) (setNumQubits (num_qubits ex) s)
  | None => s
  end.

(** ** User interface events

    Each event carries what its handler computes from [e.target.value]:
    [parseInt] of the chosen option for the three qubit selectors and the
    qubit-count selector, the option key for the gate selector,
    [parseFloat] of the slider position for the angle. *)

Inductive event : Type :=
| NumQubitsChanged (n : number)
| GateChanged (key : string)
| QubitChanged (n : number)
| ControlChanged (n : number)
| TargetChanged (n : number)
| AngleChanged (x : number)
| AddGateClicked
| ClearClicked
| ExampleClicked (example : string)
| GateClicked (index : nat)
| InitialCircuitChanged (initialCircuit : value).

Definition handle (e : event) (s : state) : option state :=
  match e with
  | NumQubitsChanged n => Some (setNumQubits n s)
  | GateChanged key => Some (setSelectedGate key s)
  | QubitChanged n => Some (setSelectedQubit n s)
  | ControlChanged n => Some (setSelectedControl n s)
  | TargetChanged n => Some (setSelectedTarget n s)
  | AngleChanged x => Some (setRotationAngle x s)
  | AddGateClicked => option_map fst (addGate s)
  | ClearClicked => Some (clearCircuit s)
  | ExampleClicked example => Some (loadExampleCircuit example s)
  | GateClicked index => Some (removeGate index s)
  | InitialCircuitChanged c => syncInitialCircuit c s
  end.

(** The options the qubit-count selector renders. *)
Definition numQubitOptions : list Z := [1; 2; 3; 4; 5]%Z.

(** The options each of the three qubit selectors renders. *)
Definition qubitOptions (s : state) : list number := indices (numQubits s).

(** What the page can deliver in state [s]: a selector reports one of
    the options it renders, the slider (which runs from 0 to 2 pi) a
    finite position without a minus sign, an example button one of the
    three names. *)
Definition deliverable (s : state) (e : event) : Prop :=
  match e with
  | NumQubitsChanged n => In n (map of_Z numQubitOptions)
  | GateChanged key => In key (map fst availableGates)
  | QubitChanged n | ControlChanged n | TargetChanged n =>
      In n (qubitOptions s)
  | AngleChanged x => nonnegative x = true
  | ExampleClicked example => In example (map fst examples)
  | AddGateClicked | ClearClicked | GateClicked _
  | InitialCircuitChanged _ => True
  end.

(** States the component reaches from its initial one, when every
    [initialCircuit] handed down by the parent satisfies [P]. *)
Inductive reachable (P : value -> Prop) : state -> Prop :=
| reach_initial : reachable P initial
| reach_step (s s' : state) (e : event) :
    reachable P s ->
    deliverable s e ->
    (forall c, e = InitialCircuitChanged c -> P c) ->
    handle e s = Some s' ->
    reachable P s'.

(** [n] is one of the integers 1..5. *)
Definition qubit_count (n : number) : Prop :=
  exists k : Z, (1 <= k <= 5)%Z /\ n = of_Z k.

(** The [num_qubits] of an [initialCircuit] is one of 1..5 (a falsy
    [initialCircuit] is ignored by the component). *)
Definition counted (c : value) : Prop :=
  truthy c = true ->
  exists n, get c "num_qubits" = Some (VNum n) /\ qubit_count n.

(** An [initialCircuit] with a count in 1..5 that JSON can denote. *)
Definition plain (c : value) : Prop :=
  counted c /\ json_safe c = true.

(** The cells of a state hold values that JSON can denote. *)
Definition storable (s : state) : Prop :=
  qubit_count (numQubits s) /\
  forallb json_safe (gates s) = true /\
  safe_number (selectedQubit s) = true /\
  safe_number (selectedControl s) = true /\
  safe_number (selectedTarget s) = true /\
  safe_number (rotationAngle s) = true.

End CircuitBuilder.

(* ===================================================================== *)
(** * The application shell ([App.js])                                     *)
(* ===================================================================== *)

Module App.
Import JS.

(** The [useState] cells of [App], and the timer slot held by the
    closure of [debounce]. *)
Record state : Type := {
  currentCircuit : value;
  quantumStates : value;
  isLoading : bool;
  error : value;
  isAnimated : bool;
  timeout : option value
}.

Definition initial : state := {|
  currentCircuit := VObj [("num_qubits", VNum (of_Z 2)); ("gates", VArr [])];
  quantumStates := VNull;
  isLoading := false;
  error := VNull;
  isAnimated := false;
  timeout := None
|}.

Definition setCurrentCircuit (c : value) (st : state) : state :=
  {| currentCircuit := c; quantumStates := quantumStates st;
     isLoading := isLoading st; error := error st;
     isAnimated := isAnimated st; timeout := timeout st |}.

Definition setQuantumStates (q : value) (st : state) : state :=
  {| currentCircuit := currentCircuit st; quantumStates := q;
     isLoading := isLoading st; error := error st;
     isAnimated := isAnimated st; timeout := timeout st |}.

Definition setIsLoading (b : bool) (st : state) : state :=
  {| currentCircuit := currentCircuit st; quantumStates := quantumStates st;
     isLoading := b; error := error st;
     isAnimated := isAnimated st; timeout := timeout st |}.

Definition setError (e : value) (st : state) : state :=
  {| currentCircuit := currentCircuit st; quantumStates := quantumStates st;
     isLoading := isLoading st; error := e;
     isAnimated := isAnimated st; timeout := timeout st |}.

Definition setTimeout (t : option value) (st : state) : state :=
  {| currentCircuit := currentCircuit st; quantumStates := quantumStates st;
     isLoading := isLoading st; error := error st;
     isAnimated := isAnimated st; timeout := t |}.

(** A request to the processing endpoint; [body] is
    [JSON.stringify(circuit)]. *)
Record request : Type := {
  path : string;
  method : string;
  body : option json
}.

(** What the network gives back for one [fetch]. *)
Inductive payload : Type :=
| Json (doc : json)               (* [response.json()] resolves *)
| Unreadable (message : string).  (* [response.json()] rejects *)

Inductive reply : Type :=
| NetworkFailure (message : string)  (* [fetch] rejects *)
| Response (ok : bool) (status : number) (content : payload).

(** The state after a handler has run to completion, the requests it
    issued, and whether its promise was rejected. *)
Record outcome : Type := {
  after : state;
  sent : list request;
  rejected : bool
}.

Definition quiet (st : state) : outcome :=
  {| after := st; sent := []; rejected := false |}.

(** Texts produced by the JavaScript engine rather than by the
    application: the digits of a number, and the message of the
    [TypeError] raised by reading a property of [null]. *)
Record engine : Type := {
  numberToString : number -> string;
  cannotRead : string -> string
}.

Section Engine.

Variable eng : engine.

(** The [catch] and [finally] blocks of [processCircuit]. *)
Definition caught (message : string) (st : state) : state :=
  setIsLoading false
    (setError (VStr ("Failed to process circuit: " ++ message)%string) st).

(** The [try] block of [processCircuit] after the request went out:
    either the message of the exception thrown, or the result stored. *)
Definition received (net : reply) : string + value :=
  match net with
  | NetworkFailure message => inl message
  | Response ok status content =>
      if negb ok
      then inl ("HTTP error! status: " ++ numberToString eng status)%string
      else
        match content with
        | Unreadable message => inl message
        | Json doc =>
            let result := parse doc in
            match get result "error" with
            | None => inl (cannotRead eng "error")
            | Some e =>
                if truthy e then inl (ToString (numberToString eng) e)
                else inr result
            end
        end
  end.

(** The parameter [circuit = currentCircuit]: the default applies when
    the argument is missing ([None]) or [undefined]. *)
Definition circuit_argument (arg : option value) (st : state) : value :=
  match arg with
  | None | Some VUndefined => currentCircuit st
  | Some c => c
  end.

(** [processCircuit(circuit = currentCircuit)]. *)
Definition processCircuit (arg : option value) (net : reply) (st : state)
  : outcome :=
  let circuit := circuit_argument arg st in
  match get circuit "gates" with
  | None => {| after := st; sent := []; rejected := true |}
  | Some g =>
      let empty :=
        negb (truthy g) ||
        match get g "length" with
        | Some len => strict_eq_num len (of_Z 0)
        | None => false
        end in
      if empty then quiet (setQuantumStates VNull st)
      else
        let st1 := setError VNull (setIsLoading true st) in
        let req := {| path := "/api/process-circuit"; method := "POST";
                      body := stringify circuit |} in
        let st2 :=
          match received net with
          | inl message => caught message st1
          | inr result => setIsLoading false (setQuantumStates result st1)
          end in
        {| after := st2; sent := [req]; rejected := false |}
  end.

(** [handleCircuitChange], called by the builder with the object literal
    [{num_qubits, gates}].  A non-empty gate list re-arms the debounce
    timer with the new circuit. *)
Definition handleCircuitChange (c : CircuitBuilder.circuit) (st : state)
  : outcome :=
  let st1 := setCurrentCircuit (CircuitBuilder.circuit_value c) st in
  if Nat.ltb 0 (List.length (CircuitBuilder.circuit_gates c)) then
    quiet (setTimeout (Some (CircuitBuilder.circuit_value c)) st1)
  else
    quiet (setQuantumStates VNull st1).

(** The debounce timer expires. *)
Definition timerFired (net : reply) (st : state) : outcome :=
  match timeout st with
  | Some c => processCircuit (Some c) net (setTimeout None st)
  | None => quiet st
  end.

(** The text of a file.  [JsonText] is a text of the JSON grammar, given
    by its syntax tree; [OtherText] is any text outside the grammar. *)
Inductive text : Type :=
| JsonText (doc : json)
| OtherText (raw : string).

(** [JSON.parse(text)]; [None] is the [SyntaxError]. *)
Definition JSON_parse (t : text) : option value :=
  match t with
  | JsonText doc => Some (parse doc)
  | OtherText _ => None
  end.

(** [exportCircuit]: the contents of the downloaded file.  When
    [JSON.stringify] gives [undefined], [encodeURIComponent] turns it
    into the text [undefined]. *)
Definition exportCircuit (st : state) : text :=
  match stringify (currentCircuit st) with
  | Some doc => JsonText doc
  | None => OtherText "undefined"
  end.

(** [importCircuit], with the [onload] callback run on the file's text.
    [file] is [None] when no file was chosen.  The promise returned by
    [processCircuit] is dropped, so only [JSON.parse] can reach the
    [catch]. *)
Definition importCircuit (file : option text) (net : reply) (st : state)
  : outcome :=
  match file with
  | None => quiet st
  | Some t =>
      match JSON_parse t with
      | Some circuit =>
          let r := processCircuit (Some circuit) net
                     (setCurrentCircuit circuit st) in
          {| after := after r; sent := sent r; rejected := false |}
      | None => quiet (setError (VStr "Invalid circuit file format") st)
      end
  end.

End Engine.

(** The [num_qubits] member of a request body. *)
Definition request_num_qubits (r : request) : option json :=
  match body r with
  | Some (JObject members) => lookup "num_qubits" members
  | _ => None
  end.

(** The response came back with a non-success status. *)
Definition non_success (net : reply) : bool :=
  match net with
  | Response ok _ _ => negb ok
  | NetworkFailure _ => false
  end.

(** The [error] field of the response body, when the body is an object
    that has one. *)
Definition error_field (net : reply) : option value :=
  match net with
  | Response _ _ (Json doc) => own (parse doc) "error"
  | _ => None
  end.

(** ** Sample inputs *)

(** An engine to run the statements on; the texts it gives are
    placeholders. *)
Definition sample_engine : engine :=
  {| numberToString := fun _ => "0"; cannotRead := fun k => k |}.

(** The Bell circuit as the builder hands it over. *)
Definition bell_value : value :=
  CircuitBuilder.circuit_value
    {| CircuitBuilder.num_qubits := of_Z 2;
       CircuitBuilder.circuit_gates :=
         [ VObj [("type", VStr "h"); ("qubit", VNum (of_Z 0))];
           VObj [("type", VStr "cx"); ("control", VNum (of_Z 0));
                 ("target", VNum (of_Z 1))] ] |}.

(** A file asking for nine qubits. *)
Definition nine_qubits_file : text :=
  JsonText
    (JObject [("num_qubits", JNumber (of_Z 9));
              ("gates",
               JArray [JObject [("type", JString "h");
                                ("qubit", JNumber (of_Z 0))]])]).

(** A file that spells a rotation angle [1e999], a literal beyond the
    range of doubles, which reads as [Infinity]. *)
Definition overflowing_angle_file : text :=
  JsonText
    (JObject [("num_qubits", JNumber (of_Z 1));
              ("gates",
               JArray [JObject [("type", JString "rx");
                                ("qubit", JNumber (of_Z 0));
                                ("angle", JNumber Infinity)]])]).

(** The circuit read from it. *)
Definition infinite_angle_circuit : value :=
  VObj [("num_qubits", VNum (of_Z 1));
        ("gates",
         VArr [ VObj [("type", VStr "rx"); ("qubit", VNum (of_Z 0));
                      ("angle", VNum Infinity)] ])].

End App.

(* ===================================================================== *)
(** * The processing core                                                  *)
(* ===================================================================== *)

Module Core.

(** The Python sources behind the endpoint ([backend/app.py],
    [backend/quantum_processor.py]) are not in the tree.  Every
    definition of this module follows the design document: amplitudes are
    exact complex numbers over the reals, and the tolerance checks are
    the ones the document prescribes. *)

Local Open Scope R_scope.

(** ** Complex amplitudes *)

Definition C : Type := (R * R)%type.

Definition Re (c : C) : R := fst c.
Definition Im (c : C) : R := snd c.
Definition RtoC (a : R) : C := (a, 0).
Definition C0 : C := RtoC 0.
Definition C1 : C := RtoC 1.
Definition Ci : C := (0, 1).
Definition Cplus (a b : C) : C := (Re a + Re b, Im a + Im b).
Definition Copp (a : C) : C := (- Re a, - Im a).
Definition Cmult (a b : C) : C :=
  (Re a * Re b - Im a * Im b, Re a * Im b + Im a * Re b).
Definition Cconj (a : C) : C := (Re a, - Im a).
Definition Csum (l : list C) : C := fold_right Cplus C0 l.

(** ** Data model *)

Inductive single_type : Type := Gh | Gx | Gy | Gz | Grx | Gry | Grz.
Inductive two_type : Type := Gcx | Gcz.

Inductive Gate : Type :=
| SingleQubitGate (type : single_type) (qubit_index : Z) (angle : option R)
| TwoQubitGate (type : two_type) (control_index target_index : Z).

Record Circuit : Type := {
  num_qubits : Z;
  gates : list Gate
}.

Definition StateVector : Type := list C.
Definition Matrix : Type := list (list C).

Definition entry (m : Matrix) (r c : nat) : C := nth c (nth r m []) C0.

Definition BlochVector : Type := (R * R * R)%type.

Inductive ValidationCause : Type :=
| NumQubitsOutOfRange
| DimensionError
| ControlEqualsTarget
| InvalidGateError.

Inductive Error : Type :=
| ValidationError (cause : ValidationCause)
| InternalConsistencyError.

Definition Result (A : Type) : Type := (Error + A)%type.
Definition ok {A} (a : A) : Result A := inr a.
Definition fail {A} (e : Error) : Result A := inl e.
Definition bind {A B} (r : Result A) (k : A -> Result B) : Result B :=
  match r with
  | inl e => inl e
  | inr a => k a
  end.

Notation "x <- r ;; k" := (bind r (fun x => k))
  (at level 61, r at next level, right associativity).

Definition tolerance : R := / 10 ^ 9.

(** ** Gate library *)

Definition mat2 (a b c d : C) : Matrix := [[a; b]; [c; d]].

Definition I2 : Matrix := mat2 C1 C0 C0 C1.
Definition sigma_x : Matrix := mat2 C0 C1 C1 C0.
Definition sigma_y : Matrix := mat2 C0 (Copp Ci) Ci C0.
Definition sigma_z : Matrix := mat2 C1 C0 C0 (Copp C1).
Definition hadamard : Matrix :=
  mat2 (RtoC (/ sqrt 2)) (RtoC (/ sqrt 2))
       (RtoC (/ sqrt 2)) (RtoC (- / sqrt 2)).

(** [cos(theta/2) I - i sin(theta/2) P]. *)
Definition rotation (P : Matrix) (theta : R) : Matrix :=
  let c := RtoC (cos (theta / 2)) in
  let s := Cmult (Copp Ci) (RtoC (sin (theta / 2))) in
  map (fun r =>
         map (fun k => Cplus (Cmult c (entry I2 r k)) (Cmult s (entry P r k)))
             [0; 1]%nat)
      [0; 1]%nat.

(** Modelled from the spec: the gate library for one-qubit gates, which
    fails when a rotation comes without its angle. *)
Definition single_unitary (t : single_type) (angle : option R)
  : Result Matrix :=
  match t with
  | Gh => ok hadamard
  | Gx => ok sigma_x
  | Gy => ok sigma_y
  | Gz => ok sigma_z
  | Grx | Gry | Grz =>
      match angle with
      | None => fail (ValidationError InvalidGateError)
      | Some theta =>
          ok (rotation match t with
                       | Grx => sigma_x
                       | Gry => sigma_y
                       | _ => sigma_z
                       end theta)
      end
  end.

(** Modelled from the spec: the gate library for two-qubit gates, over
    the basis |00>, |01>, |10>, |11> read as |control target>. *)
Definition two_unitary (t : two_type) : Matrix :=
  match t with
  | Gcx => [ [C1; C0; C0; C0];
             [C0; C1; C0; C0];
             [C0; C0; C0; C1];
             [C0; C0; C1; C0] ]
  | Gcz => [ [C1; C0; C0; C0];
             [C0; C1; C0; C0];
             [C0; C0; C1; C0];
             [C0; C0; C0; Copp C1] ]
  end.

(** ** Qubit ordering

    Which bit of a basis index a qubit number controls.  The design
    leaves the choice open; both choices are carried along. *)

Inductive Ordering : Type := LowBitFirst | HighBitFirst.

Definition bit_position (o : Ordering) (n q : nat) : nat :=
  match o with
  | LowBitFirst => q
  | HighBitFirst => n - 1 - q
  end.

Definition b2n (b : bool) : nat := if b then 1%nat else 0%nat.

(** The index [i] with bit [p] forced to [b]. *)
Definition with_bit (i p : nat) (b : bool) : nat :=
  match Nat.testbit i p, b with
  | true, true | false, false => i
  | false, true => (i + 2 ^ p)%nat
  | true, false => (i - 2 ^ p)%nat
  end.

(** ** State simulator *)

Definition amplitude (psi : StateVector) (i : nat) : C := nth i psi C0.

Definition initial_state (n : nat) : StateVector :=
  map (fun i => if Nat.eqb i 0 then C1 else C0) (seq 0 (2 ^ n)).

(** A one-qubit operator acts on the pair of amplitudes that differ in
    bit [p] only. *)
Definition apply_single (u : Matrix) (p : nat) (psi : StateVector)
  : StateVector :=
  map (fun i =>
         let r := b2n (Nat.testbit i p) in
         Cplus (Cmult (entry u r 0) (amplitude psi (with_bit i p false)))
               (Cmult (entry u r 1) (amplitude psi (with_bit i p true))))
      (seq 0 (List.length psi)).

(** A two-qubit operator acts on the quadruple of amplitudes that differ
    in bits [pc] and [pt] only. *)
Definition apply_two (u : Matrix) (pc pt : nat) (psi : StateVector)
  : StateVector :=
  map (fun i =>
         let r := (2 * b2n (Nat.testbit i pc) + b2n (Nat.testbit i pt))%nat in
         Csum
           (map (fun ct : bool * bool =>
                   let k := (2 * b2n (fst ct) + b2n (snd ct))%nat in
                   Cmult (entry u r k)
                         (amplitude psi
                            (with_bit (with_bit i pc (fst ct)) pt (snd ct))))
                [(false, false); (false, true); (true, false); (true, true)]))
      (seq 0 (List.length psi)).

Definition in_range (n : nat) (q : Z) : bool :=
  (0 <=? q)%Z && (q <? Z.of_nat n)%Z.

Definition apply_gate (o : Ordering) (n : nat) (g : Gate) (psi : StateVector)
  : Result StateVector :=
  match g with
  | SingleQubitGate t q angle =>
      u <- single_unitary t angle ;;
      if in_range n q
      then ok (apply_single u (bit_position o n (Z.to_nat q)) psi)
      else fail (ValidationError DimensionError)
  | TwoQubitGate t c tg =>
      if negb (in_range n c && in_range n tg)
      then fail (ValidationError DimensionError)
      else if (c =? tg)%Z
      then fail (ValidationError ControlEqualsTarget)
      else ok (apply_two (two_unitary t)
                 (bit_position o n (Z.to_nat c))
                 (bit_position o n (Z.to_nat tg)) psi)
  end.

(** Modelled from the spec: the state simulator, which applies the
    gates in circuit order. *)
Fixpoint simulate (o : Ordering) (n : nat) (gs : list Gate) (psi : StateVector)
  : Result StateVector :=
  match gs with
  | [] => ok psi
  | g :: rest =>
      psi' <- apply_gate o n g psi ;;
      simulate o n rest psi'
  end.

(** ** Density matrix builder *)

(** Modelled from the spec: the density matrix builder, the outer
    product of the state vector with its conjugate. *)
Definition density_matrix (psi : StateVector) : Matrix :=
  map (fun a => map (fun b => Cmult a (Cconj b)) psi) psi.

(** ** Partial trace engine *)

(** The basis index whose bit [p] is [a] and whose other bits, in
    order, are those of [s]. *)
Definition idx (p : nat) (a : bool) (s : nat) : nat :=
  ((s / 2 ^ p) * 2 ^ (p + 1) + b2n a * 2 ^ p + s mod 2 ^ p)%nat.

Definition reduced_entry (rho : Matrix) (n p : nat) (a b : bool) : C :=
  Csum (map (fun s => entry rho (idx p a s) (idx p b s))
            (seq 0 (2 ^ (n - 1)))).

(** Modelled from the spec: the partial trace engine, summing over the
    assignments of the spectator qubits. *)
Definition partial_trace (rho : Matrix) (n p : nat) : Matrix :=
  mat2 (reduced_entry rho n p false false) (reduced_entry rho n p false true)
       (reduced_entry rho n p true false) (reduced_entry rho n p true true).

Definition close (a b : R) : Prop := Rabs (a - b) <= tolerance.

Definition close_dec (a b : R) : {close a b} + {~ close a b} :=
  Rle_dec (Rabs (a - b)) tolerance.

Definition Cclose_dec (a b : C)
  : {close (Re a) (Re b) /\ close (Im a) (Im b)} +
    {~ (close (Re a) (Re b) /\ close (Im a) (Im b))} :=
  match close_dec (Re a) (Re b), close_dec (Im a) (Im b) with
  | left h1, left h2 => left (conj h1 h2)
  | right h, _ => right (fun x => h (proj1 x))
  | _, right h => right (fun x => h (proj2 x))
  end.

Definition trace2 (m : Matrix) : C := Cplus (entry m 0 0) (entry m 1 1).

(** Trace 1 and Hermitian, within tolerance. *)
Definition check_reduced (m : Matrix) : Result Matrix :=
  if Cclose_dec (trace2 m) C1 then
    if Cclose_dec (entry m 0 1) (Cconj (entry m 1 0)) then
      if close_dec (Im (entry m 0 0)) 0 then
        if close_dec (Im (entry m 1 1)) 0 then ok m
        else fail InternalConsistencyError
      else fail InternalConsistencyError
    else fail InternalConsistencyError
  else fail InternalConsistencyError.

(** ** Bloch projector *)

Definition mmul2 (a b : Matrix) : Matrix :=
  map (fun r =>
         map (fun c => Cplus (Cmult (entry a r 0) (entry b 0 c))
                             (Cmult (entry a r 1) (entry b 1 c)))
             [0; 1]%nat)
      [0; 1]%nat.

Definition expectation (rho sigma : Matrix) : Result R :=
  let t := trace2 (mmul2 rho sigma) in
  if close_dec (Im t) 0 then ok (Re t) else fail InternalConsistencyError.

(** Modelled from the spec: the Bloch projector, the traces of the
    reduced matrix against the Pauli matrices. *)
Definition bloch_vector (rho : Matrix) : Result BlochVector :=
  x <- expectation rho sigma_x ;;
  y <- expectation rho sigma_y ;;
  z <- expectation rho sigma_z ;;
  ok (x, y, z).

(** ** Result assembler *)

Record QubitResult : Type := {
  index : nat;
  bloch_coordinates : BlochVector;
  reduced_density_matrix : Matrix
}.

Record Output : Type := {
  out_num_qubits : Z;
  qubits : list QubitResult
}.

Definition qubit_result (o : Ordering) (rho : Matrix) (n q : nat)
  : Result QubitResult :=
  m <- check_reduced (partial_trace rho n (bit_position o n q)) ;;
  v <- bloch_vector m ;;
  ok {| index := q; bloch_coordinates := v; reduced_density_matrix := m |}.

Fixpoint collect {A} (rs : list (Result A)) : Result (list A) :=
  match rs with
  | [] => ok []
  | r :: rest =>
      a <- r ;;
      l <- collect rest ;;
      ok (a :: l)
  end.

(** Modelled from the spec: the whole processing pipeline (gate library,
    state simulator, density matrix builder, partial trace engine, Bloch
    projector, result assembler), whose Python sources are absent. *)
Definition process (o : Ordering) (c : Circuit) : Result Output :=
  if ((1 <=? num_qubits c)%Z && (num_qubits c <=? 5)%Z)%bool then
    let n := Z.to_nat (num_qubits c) in
    psi <- simulate o n (gates c) (initial_state n) ;;
    let rho := density_matrix psi in
    qs <- collect (map (qubit_result o rho n) (seq 0 n)) ;;
    ok {| out_num_qubits := num_qubits c; qubits := qs |}
  else fail (ValidationError NumQubitsOutOfRange).

(** The amplitudes (1/sqrt 2, 0, 0, 1/sqrt 2) and the maximally mixed
    one-qubit state. *)
Definition bell_vector : StateVector :=
  [RtoC (/ sqrt 2); C0; C0; RtoC (/ sqrt 2)].

Definition maximally_mixed : Matrix :=
  mat2 (RtoC (/ 2)) C0 C0 (RtoC (/ 2)).

(** The Bell-state circuit. *)
Definition bell : Circuit := {|
  num_qubits := 2;
  gates := [ SingleQubitGate Gh 0 None; TwoQubitGate Gcx 0 1 ]
|}.

(** The other worked circuits of the design document. *)
Definition superposition : Circuit := {|
  num_qubits := 1;
  gates := [ SingleQubitGate Gh 0 None ]
|}.

Definition ghz : Circuit := {|
  num_qubits := 3;
  gates := [ SingleQubitGate Gh 0 None; TwoQubitGate Gcx 0 1;
             TwoQubitGate Gcx 1 2 ]
|}.

Definition z_rotation (theta : R) : Circuit := {|
  num_qubits := 1;
  gates := [ SingleQubitGate Grz 0 (Some theta) ]
|}.

Definition plus_vector : StateVector :=
  [RtoC (/ sqrt 2); RtoC (/ sqrt 2)].

Definition plus_density : Matrix :=
  mat2 (RtoC (/ 2)) (RtoC (/ 2)) (RtoC (/ 2)) (RtoC (/ 2)).

Definition ghz_vector : StateVector :=
  [RtoC (/ sqrt 2); C0; C0; C0; C0; C0; C0; RtoC (/ sqrt 2)].

Definition zero_density : Matrix := mat2 C1 C0 C0 C0.

Definition near (v w : BlochVector) : Prop :=
  close (fst (fst v)) (fst (fst w)) /\
  close (snd (fst v)) (snd (fst w)) /\
  close (snd v) (snd w).

End Core.

(* ===================================================================== *)
(** * Auxiliary notions                                                    *)
(* ===================================================================== *)

Module Aux.
Import JS.

(** The request [processCircuit] issues for [circuit]. *)
Definition post (circuit : value) : App.request :=
  {| App.path := "/api/process-circuit"; App.method := "POST";
     App.body := stringify circuit |}.

(** No object inside [v] lists a property name twice. *)
Fixpoint well_formed (v : value) : bool :=
  match v with
  | VArr items => forallb well_formed items
  | VObj props =>
      distinct (map fst props) &&
      forallb (fun kv => well_formed (snd kv)) props
  | _ => true
  end.

(** A gate object whose [control] and [target], when both are numbers,
    are not [===]. *)
Definition ends_differ (g : value) : bool :=
  match own g "control", own g "target" with
  | Some (VNum c), Some (VNum t) => negb (num_eq c t)
  | _, _ => true
  end.

(** An [initialCircuit] none of whose gates has equal ends. *)
Definition ends_differ_in (c : value) : Prop :=
  forall items,
    get c "gates" = Some (VArr items) -> forallb ends_differ items = true.

End Aux.

(* ===================================================================== *)
(** * The example loader of the application shell ([App.js])               *)
(* ===================================================================== *)

Module Loader.
Import JS App.

(** The names the four example buttons pass. *)
Inductive example : Type := bell_state | ghz_state | superposition | mixed_state.

Definition example_key (name : example) : string :=
  match name with
  | bell_state => "bell_state"
  | ghz_state => "ghz_state"
  | superposition => "superposition"
  | mixed_state => "mixed_state"
  end.

(** The request for the example listing. *)
Definition listing_request : request :=
  {| path := "/api/example-circuits"; method := "GET"; body := None |}.

Section Engine.

Variable eng : engine.

(** The message of the [TypeError] raised by reading a property of
    [undefined]. *)
Variable cannotReadUndefined : string -> string.

(** The [catch] block of [loadExampleCircuit]. *)
Definition load_failed (message : string) (st : state) : state :=
  setError (VStr ("Failed to load example: " ++ message)%string) st.

(** The message with which [processCircuit] rejects when [circuit.gates]
    cannot be read. *)
Definition gates_unreadable (circuit : value) : string :=
  match circuit with
  | VNull => cannotRead eng "gates"
  | _ => cannotReadUndefined "gates"
  end.

(** [loadExampleCircuit(exampleName)].  [listing] is the reply to the
    request for the examples, [net] the reply to the processing request.
    The status of [listing] is not looked at.  [processCircuit] is the
    closure of the render in which the button was drawn: when it is
    called with [undefined], its default is the current circuit of the
    state [st] in which the click happened, not the one just set. *)
Definition loadExampleCircuit (exampleName : example) (listing net : reply)
           (st : state) : outcome :=
  let failed message s :=
    {| after := load_failed message s; sent := [listing_request];
       rejected := false |} in
  match listing with
  | NetworkFailure message => failed message st
  | Response _ _ (Unreadable message) => failed message st
  | Response _ _ (Json doc) =>
      let examples := parse doc in
      match get examples (example_key exampleName) with
      | None => failed (cannotRead eng (example_key exampleName)) st
      | Some entry =>
          if truthy entry then
            match get entry "circuit" with
            | None => failed (cannotRead eng "circuit") st
            | Some circuit =>
                let st1 := setCurrentCircuit circuit st in
                let called := circuit_argument (Some circuit) st in
                let r := processCircuit eng (Some called) net st1 in
                if rejected r
                then failed (gates_unreadable called) (after r)
                else {| after := after r;
                        sent := listing_request :: sent r;
                        rejected := false |}
            end
          else {| after := st; sent := [listing_request]; rejected := false |}
      end
  end.

End Engine.

End Loader.

(* ===================================================================== *)
(** * What the application shell displays ([App.js], [BlochSphere.js])     *)
(* ===================================================================== *)

Module Display.
Import JS.

(** ** Arithmetic on numbers

    The operators and [Math] functions of the source, as the IEEE-754
    binary64 operations. *)

Definition mul (a b : number) : number := SFmul prec emax a b.
Definition add (a b : number) : number := SFadd prec emax a b.
Definition sub (a b : number) : number := SFsub prec emax a b.
Definition div (a b : number) : number := SFdiv prec emax a b.
Definition Math_sqrt (a : number) : number := SFsqrt prec emax a.
Definition Math_abs (a : number) : number := SFabs a.
Definition lt (a b : number) : bool := SFltb a b.

(** The literals [0.01] and [0.99]. *)
Definition literal_0_01 : number := S754_finite false 0x147AE147AE147B (-59).
Definition literal_0_99 : number := S754_finite false 0x1FAE147AE147AE (-53).

(** The outcome of rendering: the thing shown, or a [TypeError] (or an
    invalid React child) that ends the render.  [Outside] marks inputs
    whose display depends on a library this development does not
    model. *)
Inductive shown (A : Type) : Type :=
| Shown (a : A)
| Throws
| Outside.

Arguments Shown {A} a.
Arguments Throws {A}.
Arguments Outside {A}.

Definition and_then {A B} (r : shown A) (k : A -> shown B) : shown B :=
  match r with
  | Shown a => k a
  | Throws => Throws
  | Outside => Outside
  end.

(** Two parts of one render: a throw in either ends it. *)
Definition both {A B} (r1 : shown A) (r2 : shown B) : shown (A * B) :=
  match r1, r2 with
  | Throws, _ | _, Throws => Throws
  | Outside, _ | _, Outside => Outside
  | Shown a, Shown b => Shown (a, b)
  end.

(** All of [rs], in order; a throw anywhere ends the render. *)
Fixpoint all_shown {A} (rs : list (shown A)) : shown (list A) :=
  match rs with
  | [] => Shown []
  | r :: rest =>
      match r, all_shown rest with
      | Throws, _ | _, Throws => Throws
      | Outside, _ | _, Outside => Outside
      | Shown a, Shown l => Shown (a :: l)
      end
  end.

Section Formatting.

(** [n.toFixed(digits)], produced by the engine. *)
Variable toFixed : number -> nat -> string.

(** [getStateDescription].  Its one caller has just called [toFixed] on
    [x], [y] and [z], so they are numbers. *)
Definition getStateDescription (x y z : number) : string :=
  let magnitude := Math_sqrt (add (add (mul x x) (mul y y)) (mul z z)) in
  if lt magnitude literal_0_01 then
    "Maximally mixed state (center of sphere)"
  else if lt literal_0_99 magnitude then
    if lt (Math_abs (sub z (of_Z 1))) literal_0_01 then "Pure |0⟩ state"
    else if lt (Math_abs (add z (of_Z 1))) literal_0_01 then "Pure |1⟩ state"
    else if lt (Math_abs (sub x (of_Z 1))) literal_0_01 then "Pure |+⟩ state"
    else if lt (Math_abs (add x (of_Z 1))) literal_0_01 then "Pure |-⟩ state"
    else if lt (Math_abs (sub y (of_Z 1))) literal_0_01 then "Pure |+i⟩ state"
    else if lt (Math_abs (add y (of_Z 1))) literal_0_01 then "Pure |-i⟩ state"
    else "Pure quantum state"
  else
    ("Mixed state (purity: " ++ toFixed magnitude 3 ++ ")")%string.

(** [c.k.toFixed(...)]: reading [k] throws on [null] and [undefined],
    and only a number has [toFixed]. *)
Definition coordinate (c : value) (k : string) : shown number :=
  match get c k with
  | Some (VNum n) => Shown n
  | _ => Throws
  end.

(** What React accepts among the children of an element: anything but
    a plain object. *)
Fixpoint valid_child (v : value) : bool :=
  match v with
  | VObj _ => false
  | VArr items => forallb valid_child items
  | _ => true
  end.

Definition child (v : value) : shown value :=
  if valid_child v then Shown v else Throws.

(** ** The Bloch spheres ([BlochSphere.js]) *)

(** One sphere: its key and label, its place in the scene, and the tip
    of its state vector, which is [(x, z, y)] because the scene has Y
    up. *)
Record sphere : Type := {
  sphere_key : value;
  position : number * number * number;
  tip : value * value * value;
  qubitIndex : value
}.

(** One row of the information panel. *)
Record panel_row : Type := {
  panel_index : value;
  panel_x : string;
  panel_y : string;
  panel_z : string
}.

Inductive sphere_view : Type :=
| NoStates                      (* "No quantum states to display" *)
| Scene (numQubits : value) (spheres : list sphere) (rows : list panel_row).

Definition sphereSpacing : number := of_Z 3.

(** [(index - (numQubits - 1) / 2) * sphereSpacing]. *)
Definition sphere_x (index numQubits : number) : number :=
  mul (sub index (div (sub numQubits (of_Z 1)) (of_Z 2))) sphereSpacing.

(** The group and [BlochSphereGeometry] of one qubit.  The label is a
    child of a text component of the scene library; other than a number
    or a string it is outside this development. *)
Definition draw_sphere (numQubits : number) (index : nat) (qubit : value)
  : shown sphere :=
  match get qubit "index", get qubit "bloch_coordinates" with
  | Some key, Some coords =>
      match get coords "x", get coords "y", get coords "z" with
      | Some x, Some y, Some z =>
          match key with
          | VNum _ | VStr _ =>
              Shown {| sphere_key := key;
                       position :=
                         (sphere_x (of_Z (Z.of_nat index)) numQubits,
                          of_Z 0, of_Z 0);
                       tip := (x, z, y);
                       qubitIndex := key |}
          | _ => Outside
          end
      | _, _, _ => Throws
      end
  | _, _ => Throws
  end.

Definition draw_row (qubit : value) : shown panel_row :=
  match get qubit "index", get qubit "bloch_coordinates" with
  | Some index, Some coords =>
      and_then (child index) (fun index =>
      and_then (coordinate coords "x") (fun x =>
      and_then (coordinate coords "y") (fun y =>
      and_then (coordinate coords "z") (fun z =>
      Shown {| panel_index := index;
               panel_x := toFixed x 3;
               panel_y := toFixed y 3;
               panel_z := toFixed z 3 |}))))
  | _, _ => Throws
  end.

(** With positions counted from [from]. *)
Fixpoint map_index {A B} (f : nat -> A -> B) (from : nat) (xs : list A)
  : list B :=
  match xs with
  | [] => []
  | x :: rest => f from x :: map_index f (S from) rest
  end.

(** The [BlochSphere] component. *)
Definition BlochSphere (quantumStates : value) : shown sphere_view :=
  if negb (truthy quantumStates) then Shown NoStates
  else
    match get quantumStates "qubits" with
    | None => Shown NoStates (* not reached: [quantumStates] is truthy *)
    | Some qubits =>
        if negb (truthy qubits) then Shown NoStates
        else
          match qubits with
          | VArr items =>
              let numQubits := of_Z (Z.of_nat (List.length items)) in
              and_then
                (both (all_shown (map_index (draw_sphere numQubits) 0 items))
                      (all_shown (map draw_row items)))
                (fun drawn =>
                   Shown (Scene (VNum numQubits) (fst drawn) (snd drawn)))
          | _ => Throws (* no [map] to call *)
          end
    end.

(** ** The visualization section of [App] *)

(** One entry of the state information. *)
Record qubit_info : Type := {
  heading : value;
  info_x : string;
  info_y : string;
  info_z : string;
  description : string
}.

Inductive visualization : Type :=
| Placeholder                   (* "Build a quantum circuit above ..." *)
| StateInfo (spheres : sphere_view) (num_qubits : value)
            (qubits : list qubit_info).

Definition state_info (qubit : value) : shown qubit_info :=
  match get qubit "index", get qubit "bloch_coordinates" with
  | Some index, Some coords =>
      and_then (child index) (fun index =>
      and_then (coordinate coords "x") (fun x =>
      and_then (coordinate coords "y") (fun y =>
      and_then (coordinate coords "z") (fun z =>
      Shown {| heading := index;
               info_x := toFixed x 4;
               info_y := toFixed y 4;
               info_z := toFixed z 4;
               description := getStateDescription x y z |}))))
  | _, _ => Throws
  end.

(** The section under "Quantum State Visualization": [App] builds the
    state information itself, next to the [BlochSphere] component. *)
Definition visualization_section (quantumStates : value)
  : shown visualization :=
  if truthy quantumStates then
    match get quantumStates "num_qubits", get quantumStates "qubits" with
    | Some n, Some (VArr items) =>
        and_then
          (both (both (child n) (all_shown (map state_info items)))
                (BlochSphere quantumStates))
          (fun parts =>
             Shown (StateInfo (snd parts) (fst (fst parts)) (snd (fst parts))))
    | _, _ => Throws (* no [map] to call *)
    end
  else Shown Placeholder.

End Formatting.

(** An entry of [qubits] as the endpoint documents it: a numeric index
    and numeric Bloch coordinates. *)
Definition plottable (qubit : value) (index x y z : number) : Prop :=
  get qubit "index" = Some (VNum index) /\
  exists coords,
    get qubit "bloch_coordinates" = Some coords /\
    get coords "x" = Some (VNum x) /\
    get coords "y" = Some (VNum y) /\
    get coords "z" = Some (VNum z).

(** An entry that is plottable, for some index and coordinates. *)
Definition plotted (q : value) : Prop :=
  exists i x y z, plottable q i x y z.

End Display.

(* ===================================================================== *)
(** * What the circuit builder displays ([CircuitBuilder.js])              *)
(* ===================================================================== *)

Module Diagram.
Import JS CircuitBuilder Display.

Definition Math_PI : number := S754_finite false 0x1921FB54442D18 (-51).

(** The names every object inherits from [Object.prototype].  Looking one
    of them up in the catalog finds a built-in rather than a catalog
    entry; what is drawn then is outside this development. *)
Definition inherited : list string :=
  [ "constructor"; "hasOwnProperty"; "isPrototypeOf";
    "propertyIsEnumerable"; "toLocaleString"; "toString"; "valueOf";
    "__proto__"; "__defineGetter__"; "__defineSetter__";
    "__lookupGetter__"; "__lookupSetter__" ].

(** [ToNumber], where it needs no parsing of text. *)
Definition ToNumber (v : value) : option number :=
  match v with
  | VNum n => Some n
  | VUndefined => Some NaN
  | VNull => Some (of_Z 0)
  | VBool true => Some (of_Z 1)
  | VBool false => Some (of_Z 0)
  | VStr _ | VArr _ | VObj _ => None
  end.

(** [Math.min] and [Math.max] of two numbers: NaN if either is NaN, and
    the negative zero is the smaller of the two zeros. *)
Definition Math_min (a b : number) : number :=
  if isNaN a || isNaN b then NaN
  else if lt a b then a
  else if lt b a then b
  else match a with S754_zero true => a | _ => b end.

Definition Math_max (a b : number) : number :=
  if isNaN a || isNaN b then NaN
  else if lt a b then b
  else if lt b a then a
  else match a with S754_zero false => a | _ => b end.

(** What follows the gate symbol of a one-qubit gate: the value of
    [gate.angle] itself when it is falsy, the label with the angle in
    units of pi when it is not. *)
Inductive angle_part : Type :=
| Bare (angle : value)
| AngleLabel (digits : string).

(** The content of one position of a wire.  [Child v] is the falsy
    [gate] the expression [gate && ...] evaluates to; [remove] is the
    index the click handler passes to [removeGate]. *)
Inductive cell : Type :=
| Child (v : value)
| Nothing
| SingleGate (title symbol : string) (angle : angle_part) (remove : nat)
| ControlGate (title : string) (remove : nat)
| TargetGate (title symbol : string) (remove : nat)
| ConnectionLine.

Record wire_row : Type := {
  qubit_label : number;
  wire : list cell
}.

(** One tag of the gate list: the name, and the two optional suffixes
    ([None] where the source renders [false]). *)
Record gate_tag : Type := {
  tag_name : string;
  tag_qubit : option string;
  tag_ends : option string
}.

(** The parts of the control panel that depend on the state: the
    options of the qubit selector (shown for a one-qubit gate), of the
    control and target selectors (shown for a two-qubit gate), and the
    text beside the angle slider (shown for a rotation). *)
Record control_panel : Type := {
  qubit_selector : option (list number);
  pair_selectors : option (list number);
  angle_slider : option string
}.

Record view : Type := {
  panel : control_panel;
  diagram : list wire_row;
  gate_count : nat;
  gate_list : list gate_tag
}.

Section Rendering.

Variable numberToString : number -> string.
Variable toFixed : number -> nat -> string.

(** [availableGates[key]] for a key that is any value. *)
Definition catalog_entry (key : value) : shown GateInfo :=
  let name := ToString numberToString key in
  match lookup name availableGates with
  | Some gateInfo => Shown gateInfo
  | None =>
      if existsb (String.eqb name) inherited then Outside
      else Throws (* [undefined]: reading a property of it throws *)
  end.

Definition angle_of (angle : value) : shown angle_part :=
  if truthy angle then
    match ToNumber angle with
    | Some a => Shown (AngleLabel (toFixed (div a Math_PI) 2))
    | None => Outside
    end
  else Shown (Bare angle).

(** [gate.k] for a [gate] that is not nullish. *)
Definition field (gate : value) (k : string) : value :=
  match get gate k with
  | Some v => v
  | None => VUndefined
  end.

Definition renderGateAtPosition (gate : value) (qubitIndex : number)
           (gateIndex : nat) : shown cell :=
  match get gate "type" with
  | None => Throws (* [gate] is nullish *)
  | Some type_ =>
      and_then (catalog_entry type_) (fun gateInfo =>
      if String.eqb (type gateInfo) "single" &&
         strict_eq_num (field gate "qubit") qubitIndex
      then
        and_then (angle_of (field gate "angle")) (fun label =>
        Shown (SingleGate
                 (name gateInfo ++ " on qubit " ++
                  ToString numberToString (field gate "qubit"))%string
                 (symbol gateInfo) label gateIndex))
      else if String.eqb (type gateInfo) "two" then
        if strict_eq_num (field gate "control") qubitIndex then
          Shown (ControlGate ("Control qubit for " ++ name gateInfo)%string
                             gateIndex)
        else if strict_eq_num (field gate "target") qubitIndex then
          Shown (TargetGate ("Target qubit for " ++ name gateInfo)%string
                            (symbol gateInfo) gateIndex)
        else
          match ToNumber (field gate "control"),
                ToNumber (field gate "target") with
          | Some c, Some t =>
              let minQubit := Math_min c t in
              let maxQubit := Math_max c t in
              if lt minQubit qubitIndex && lt qubitIndex maxQubit
              then Shown ConnectionLine
              else Shown Nothing
          | _, _ => Outside
          end
      else Shown Nothing)
  end.

(** [gates[gateIndex]]. *)
Definition gate_at (gates : list value) (gateIndex : nat) : value :=
  nth gateIndex gates VUndefined.

Definition wire_position (gates : list value) (qubitIndex : number)
           (gateIndex : nat) : shown cell :=
  let gate := gate_at gates gateIndex in
  if truthy gate then renderGateAtPosition gate qubitIndex gateIndex
  else Shown (Child gate).

(** The lengths of arrays are integers below 2^32, on which the
    arithmetic of numbers is exact: they are counted in [nat]. *)
Definition renderCircuitDiagram (s : state) : shown (list wire_row) :=
  let qubitLines := indices (numQubits s) in
  let maxGates := Nat.max (List.length (gates s)) 1 in
  all_shown
    (map (fun qubitIndex =>
            and_then
              (all_shown (map (wire_position (gates s) qubitIndex)
                              (seq 0 (maxGates + 1))))
              (fun cells =>
                 Shown {| qubit_label := qubitIndex; wire := cells |}))
         qubitLines).

(** One [gate-tag] of the list under the diagram. *)
Definition tag (gate : value) : shown gate_tag :=
  match get gate "type" with
  | None => Throws (* [gate] is nullish *)
  | Some type_ =>
      and_then (catalog_entry type_) (fun gateInfo =>
      Shown {| tag_name := name gateInfo;
               tag_qubit :=
                 match field gate "qubit" with
                 | VUndefined => None
                 | qubit =>
                     Some (" (q" ++ ToString numberToString qubit ++ ")")%string
                 end;
               tag_ends :=
                 match field gate "control" with
                 | VUndefined => None
                 | control =>
                     Some (" (c" ++ ToString numberToString control ++
                           "→t" ++
                           ToString numberToString (field gate "target") ++
                           ")")%string
                 end |})
  end.

(** The gates the catalog has no entry for, under any name. *)
Definition unknown (g : value) : Prop :=
  get g "type" = None \/
  exists type_,
    get g "type" = Some type_ /\
    lookup (ToString numberToString type_) availableGates = None /\
    existsb (String.eqb (ToString numberToString type_)) inherited = false.

Definition controls (s : state) : shown control_panel :=
  and_then (catalog_entry (VStr (selectedGate s))) (fun gateInfo =>
  Shown {| qubit_selector :=
             if String.eqb (type gateInfo) "single"
             then Some (qubitOptions s) else None;
           pair_selectors :=
             if String.eqb (type gateInfo) "two"
             then Some (qubitOptions s) else None;
           angle_slider :=
             if hasAngle gateInfo
             then Some (toFixed (div (rotationAngle s) Math_PI) 2)
             else None |}).

(** The render of the component. *)
Definition render (s : state) : shown view :=
  and_then
    (both (controls s)
          (both (renderCircuitDiagram s) (all_shown (map tag (gates s)))))
    (fun parts =>
       Shown {| panel := fst parts;
                diagram := fst (snd parts);
                gate_count := List.length (gates s);
                gate_list := snd (snd parts) |}).

End Rendering.



End Diagram.

(* ===================================================================== *)
(** * Properties of the processing core                                    *)
(* ===================================================================== *)

Section CoreFacts.
Import Core.
Local Open Scope R_scope.

Ltac crunch :=
  cbv -[Rplus Rmult Rminus Ropp Rinv sqrt IZR Rdiv Rabs Rle cos sin].

Lemma tolerance_pos : 0 < tolerance.
Proof. unfold tolerance. apply Rinv_0_lt_compat, pow_lt. lra. Qed.

Lemma close_eq a b : a = b -> close a b.
Proof.
  intros ->. unfold close. rewrite Rminus_diag, Rabs_R0.
  apply Rlt_le, tolerance_pos.
Qed.

Lemma inv_sqrt2_sq : / sqrt 2 * / sqrt 2 = / 2.
Proof. rewrite <- Rinv_mult, sqrt_sqrt by lra. reflexivity. Qed.

(** The simulator turns |00> into the Bell vector under either qubit
    ordering. *)
Lemma bell_state o :
  simulate o 2 (gates bell) (initial_state 2) = ok bell_vector.
Proof.
  destruct o; crunch; unfold bell_vector, RtoC, C0;
    repeat (f_equal; try ring).
Qed.

(** Tracing either qubit out of the Bell density matrix leaves I/2. *)
Lemma bell_reduced p :
  (p < 2)%nat ->
  partial_trace (density_matrix bell_vector) 2 p = maximally_mixed.
Proof.
  intros Hp. pose proof inv_sqrt2_sq as Hs.
  assert (p = 0 \/ p = 1)%nat as [-> | ->] by lia;
    crunch; unfold maximally_mixed, mat2, RtoC, C0;
    repeat (f_equal; try nra).
Qed.

Lemma check_reduced_ok m :
  trace2 m = C1 ->
  entry m 0 1 = Cconj (entry m 1 0) ->
  Im (entry m 0 0) = 0 ->
  Im (entry m 1 1) = 0 ->
  check_reduced m = ok m.
Proof.
  intros Ht Hh H0 H1. unfold check_reduced.
  destruct (Cclose_dec _ _) as [_ | n].
  2:{ exfalso. apply n. rewrite Ht. split; now apply close_eq. }
  destruct (Cclose_dec _ _) as [_ | n].
  2:{ exfalso. apply n. rewrite Hh. split; now apply close_eq. }
  destruct (close_dec _ _) as [_ | n].
  2:{ exfalso. apply n. now apply close_eq. }
  destruct (close_dec _ _) as [_ | n].
  2:{ exfalso. apply n. now apply close_eq. }
  reflexivity.
Qed.

Lemma expectation_real rho sigma :
  Im (trace2 (mmul2 rho sigma)) = 0 ->
  expectation rho sigma = ok (Re (trace2 (mmul2 rho sigma))).
Proof.
  intros H. unfold expectation.
  destruct (close_dec _ _) as [_ | n]; [reflexivity |].
  exfalso. apply n. now apply close_eq.
Qed.

(** A qubit's entry of the result, from its reduced matrix and Bloch
    vector. *)
Lemma qubit_result_from o rho n q m v :
  partial_trace rho n (bit_position o n q) = m ->
  check_reduced m = ok m ->
  bloch_vector m = ok v ->
  qubit_result o rho n q =
  ok {| index := q; bloch_coordinates := v; reduced_density_matrix := m |}.
Proof.
  intros Hp Hc Hb. unfold qubit_result. rewrite Hp, Hc. simpl.
  now rewrite Hb.
Qed.

Lemma maximally_mixed_checked :
  check_reduced maximally_mixed = ok maximally_mixed.
Proof.
  apply check_reduced_ok; crunch; try ring.
  - f_equal; lra.
  - f_equal; ring.
Qed.

Lemma maximally_mixed_bloch : bloch_vector maximally_mixed = ok (0, 0, 0).
Proof.
  unfold bloch_vector.
  rewrite !expectation_real by (crunch; ring).
  crunch. repeat (f_equal; try ring).
Qed.

Lemma bell_qubit o q :
  (q < 2)%nat ->
  qubit_result o (density_matrix bell_vector) 2 q =
  ok {| index := q; bloch_coordinates := (0, 0, 0);
        reduced_density_matrix := maximally_mixed |}.
Proof.
  intros Hq. apply qubit_result_from.
  - apply bell_reduced. destruct o; unfold bit_position; lia.
  - exact maximally_mixed_checked.
  - exact maximally_mixed_bloch.
Qed.

Lemma bell_output o :
  process o bell =
  ok {| out_num_qubits := 2;
        qubits :=
          [ {| index := 0; bloch_coordinates := (0, 0, 0);
               reduced_density_matrix := maximally_mixed |};
            {| index := 1; bloch_coordinates := (0, 0, 0);
               reduced_density_matrix := maximally_mixed |} ] |}.
Proof.
  unfold process. simpl Z.leb. simpl andb. cbv iota.
  change (Z.to_nat (num_qubits bell)) with 2%nat.
  rewrite bell_state. simpl bind. simpl seq. simpl map.
  unfold collect. rewrite !bell_qubit by lia. reflexivity.
Qed.

(** The model agrees with the other worked scenarios of the design
    document. *)

(** One Hadamard gate puts the qubit at (1,0,0). *)
Lemma superposition_output o :
  process o superposition =
  ok {| out_num_qubits := 1;
        qubits := [ {| index := 0; bloch_coordinates := (1, 0, 0);
                       reduced_density_matrix := plus_density |} ] |}.
Proof.
  pose proof inv_sqrt2_sq as Hs.
  assert (Hsim : simulate o 1 (gates superposition) (initial_state 1)
                 = ok plus_vector).
  { destruct o; crunch; unfold plus_vector, RtoC; repeat (f_equal; try ring). }
  unfold process. simpl Z.leb. simpl andb. cbv iota.
  change (Z.to_nat (num_qubits superposition)) with 1%nat.
  rewrite Hsim. simpl bind. simpl seq. simpl map. unfold collect.
  rewrite (qubit_result_from o _ 1 0 plus_density (1, 0, 0)); [reflexivity | | |].
  - destruct o; crunch; unfold plus_density, mat2, RtoC;
      repeat (f_equal; try nra).
  - apply check_reduced_ok; crunch; try ring; f_equal; lra.
  - unfold bloch_vector. rewrite !expectation_real by (crunch; ring).
    crunch. repeat (f_equal; try lra).
Qed.

(** A rotation about Z leaves |0> at (0,0,1), whatever the angle. *)
Lemma z_rotation_output o theta :
  process o (z_rotation theta) =
  ok {| out_num_qubits := 1;
        qubits := [ {| index := 0; bloch_coordinates := (0, 0, 1);
                       reduced_density_matrix := zero_density |} ] |}.
Proof.
  pose proof (sin2_cos2 (theta / 2)) as Hsc. unfold Rsqr in Hsc.
  assert (Hsim : simulate o 1 (gates (z_rotation theta)) (initial_state 1)
                 = ok [(cos (theta / 2), - sin (theta / 2)); C0]).
  { destruct o; crunch; unfold C0, RtoC; repeat (f_equal; try ring). }
  unfold process. simpl Z.leb. simpl andb. cbv iota.
  change (Z.to_nat (num_qubits (z_rotation theta))) with 1%nat.
  rewrite Hsim. simpl bind. simpl seq. simpl map. unfold collect.
  rewrite (qubit_result_from o _ 1 0 zero_density (0, 0, 1)); [reflexivity | | |].
  - destruct o; crunch; unfold zero_density, mat2, C1, C0, RtoC;
      repeat (f_equal; try nra).
  - apply check_reduced_ok; crunch; try ring; f_equal; lra.
  - unfold bloch_vector. rewrite !expectation_real by (crunch; ring).
    crunch. repeat (f_equal; try lra).
Qed.

(** Every qubit of the GHZ state sits at the origin. *)
Lemma ghz_state o :
  simulate o 3 (gates ghz) (initial_state 3) = ok ghz_vector.
Proof.
  destruct o; crunch; unfold ghz_vector, RtoC, C0;
    repeat (f_equal; try ring).
Qed.

Lemma ghz_reduced p :
  (p < 3)%nat ->
  partial_trace (density_matrix ghz_vector) 3 p = maximally_mixed.
Proof.
  intros Hp. pose proof inv_sqrt2_sq as Hs.
  assert (p = 0 \/ p = 1 \/ p = 2)%nat as [-> | [-> | ->]] by lia;
    crunch; unfold maximally_mixed, mat2, RtoC, C0;
    repeat (f_equal; try nra).
Qed.

Lemma ghz_output o :
  exists out,
    process o ghz = ok out /\
    map index (qubits out) = [0; 1; 2]%nat /\
    map bloch_coordinates (qubits out) = [(0, 0, 0); (0, 0, 0); (0, 0, 0)].
Proof.
  assert (Hq : forall q, (q < 3)%nat ->
             qubit_result o (density_matrix ghz_vector) 3 q =
             ok {| index := q; bloch_coordinates := (0, 0, 0);
                   reduced_density_matrix := maximally_mixed |}).
  { intros q Hlt. apply qubit_result_from.
    - apply ghz_reduced. destruct o; unfold bit_position; lia.
    - exact maximally_mixed_checked.
    - exact maximally_mixed_bloch. }
  unfold process. simpl Z.leb. simpl andb. cbv iota.
  change (Z.to_nat (num_qubits ghz)) with 3%nat.
  rewrite ghz_state. simpl bind. simpl seq. simpl map.
  unfold collect. rewrite !Hq by lia. simpl.
  eexists. repeat split.
Qed.

(** Circuits outside the contract are refused. *)
Lemma process_rejects o :
  process o {| num_qubits := 6; gates := [] |}
    = fail (ValidationError NumQubitsOutOfRange) /\
  process o {| num_qubits := 2; gates := [TwoQubitGate Gcz 1 1] |}
    = fail (ValidationError ControlEqualsTarget) /\
  process o {| num_qubits := 2; gates := [SingleQubitGate Gx 2 None] |}
    = fail (ValidationError DimensionError) /\
  process o {| num_qubits := 1; gates := [SingleQubitGate Gry 0 None] |}
    = fail (ValidationError InvalidGateError).
Proof.
  repeat split.
Qed.

(** C1.  Processing the Bell circuit (h on qubit 0, then cx with control
    0 and target 1, on two qubits) succeeds and reports, for qubit 0 and
    for qubit 1, a Bloch vector within tolerance of (0,0,0); this holds
    under either qubit-ordering convention. *)
Theorem bell_marginals_at_origin :
  forall o : Ordering,
  exists out : Output,
    process o bell = ok out /\
    map index (qubits out) = [0; 1]%nat /\
    Forall (fun q => near (bloch_coordinates q) (0, 0, 0)) (qubits out).
Proof.
  intros o. eexists. split; [apply bell_output |]. split; [reflexivity |].
  simpl. repeat apply Forall_cons; try apply Forall_nil;
    unfold near; simpl; repeat split; now apply close_eq.
Qed.

End CoreFacts.

(* ===================================================================== *)
(** * Properties of the circuit builder                                    *)
(* ===================================================================== *)

Section BuilderFacts.
Import JS CircuitBuilder.

(** [x === x] holds for every number but NaN. *)
Lemma num_eq_refl (x : number) : isNaN x = false -> num_eq x x = true.
Proof.
  unfold num_eq, SFeqb.
  destruct x as [s | s | | s m e]; simpl; try discriminate; intros _.
  - reflexivity.
  - now destruct s.
  - rewrite Z.compare_refl, Pos.compare_cont_refl. now destruct s.
Qed.

(** Every key of the catalog is a one-qubit or a two-qubit gate. *)
Lemma catalog_types key info :
  lookup key availableGates = Some info ->
  type info = "single" \/ type info = "two".
Proof.
  simpl.
  repeat match goal with
         | |- context [String.eqb ?a ?b] => destruct (String.eqb a b)
         end; intros [= <-]; simpl; auto.
Qed.

(** The one-qubit entries of the catalog. *)
Lemma catalog_single key info :
  lookup key availableGates = Some info ->
  type info = "single" ->
  In key ["h"; "x"; "y"; "z"; "rx"; "ry"; "rz"].
Proof.
  simpl.
  repeat match goal with
         | |- context [String.eqb key ?b] =>
             let E := fresh "E" in
             destruct (String.eqb key b) eqn:E;
             [apply String.eqb_eq in E | clear E]
         end; intros [= <-]; simpl; intros Hty; try discriminate;
    subst; auto 10.
Qed.

(** The rotation gates are the entries marked [hasAngle]. *)
Lemma catalog_hasAngle key info :
  lookup key availableGates = Some info ->
  (hasAngle info = true <-> In key ["rx"; "ry"; "rz"]).
Proof.
  simpl.
  repeat match goal with
         | |- context [String.eqb key ?b] =>
             let E := fresh "E" in
             destruct (String.eqb key b) eqn:E;
             [apply String.eqb_eq in E | apply String.eqb_neq in E]
         end; intros [= <-]; subst; simpl; split;
    try discriminate; try tauto;
    intros [H | [H | [H | []]]]; congruence.
Qed.

(** The three ways a call of [addGate] can end. *)
Lemma addGate_cases s r :
  addGate s = Some r ->
  (exists info, lookup (selectedGate s) availableGates = Some info /\
     type info = "single" /\
     r = (setGates (gates s ++
            [VObj (if hasAngle info
                   then [("type", VStr (selectedGate s));
                         ("qubit", VNum (selectedQubit s));
                         ("angle", VNum (rotationAngle s))]
                   else [("type", VStr (selectedGate s));
                         ("qubit", VNum (selectedQubit s))])]) s, None)) \/
  (exists info, lookup (selectedGate s) availableGates = Some info /\
     type info = "two" /\
     num_eq (selectedControl s) (selectedTarget s) = true /\
     r = (s, Some "Control and target qubits must be different!")) \/
  (exists info, lookup (selectedGate s) availableGates = Some info /\
     type info = "two" /\
     num_eq (selectedControl s) (selectedTarget s) = false /\
     r = (setGates (gates s ++
            [VObj [("type", VStr (selectedGate s));
                   ("control", VNum (selectedControl s));
                   ("target", VNum (selectedTarget s))]]) s, None)).
Proof.
  unfold addGate.
  destruct (lookup (selectedGate s) availableGates) as [info |] eqn:L;
    [| discriminate].
  destruct (catalog_types _ _ L) as [Hty | Hty]; rewrite Hty; simpl.
  - intros [= <-]. left. exists info. repeat split; auto.
  - destruct (num_eq _ _) eqn:E; intros [= <-].
    + right; left. exists info. auto.
    + right; right. exists info. auto.
Qed.

(** C4.  With cx or cz selected and the same qubit chosen as control and
    as target, [addGate] raises the alert and returns the state as it
    was, so the gate list is unchanged; and whatever gate a call of
    [addGate] does append, its control and target are different. *)
Theorem addGate_rejects_equal_control_target :
  forall s : state,
    (selectedGate s = "cx" \/ selectedGate s = "cz") ->
    selectedControl s = selectedTarget s ->
    isNaN (selectedControl s) = false ->
    addGate s = Some (s, Some "Control and target qubits must be different!")
    /\
    forall (s0 s' : state) (a : option string) (g : value) (c t : number),
      addGate s0 = Some (s', a) ->
      gates s' = gates s0 ++ [g] ->
      own g "control" = Some (VNum c) ->
      own g "target" = Some (VNum t) ->
      num_eq c t = false /\ (isNaN c = false -> c <> t).
Proof.
  intros s Hsel Heq Hnan. split.
  - unfold addGate.
    assert (E : num_eq (selectedControl s) (selectedTarget s) = true)
      by (rewrite <- Heq; now apply num_eq_refl).
    destruct Hsel as [-> | ->]; simpl; now rewrite E.
  - intros s0 s' a g c t Hadd Hg Hc Ht.
    assert (Hne : num_eq c t = false).
    { destruct (addGate_cases _ _ Hadd)
        as [(info & _ & _ & [= -> ->]) | [(info & _ & _ & _ & [= -> ->])
                                          | (info & _ & _ & E & [= -> ->])]];
        simpl in Hg.
      - apply app_inv_head in Hg. injection Hg as <-.
        destruct (hasAngle info); discriminate.
      - exfalso. apply (f_equal (@List.length value)) in Hg.
        rewrite length_app in Hg. simpl in Hg. lia.
      - apply app_inv_head in Hg. injection Hg as <-.
        simpl in Hc, Ht. injection Hc as <-. injection Ht as <-. exact E. }
    split; [exact Hne |].
    intros Hn ->. rewrite num_eq_refl in Hne; [discriminate |].
    exact Hn.
Qed.

Lemma addGate_rejects_equal_control_target_witness :
  let s := setSelectedTarget (of_Z 0) (setSelectedGate "cx" initial) in
  (selectedGate s = "cx" \/ selectedGate s = "cz") /\
  selectedControl s = selectedTarget s /\
  isNaN (selectedControl s) = false /\
  addGate s = Some (s, Some "Control and target qubits must be different!").
Proof.
  intros s.
  assert (H1 : selectedGate s = "cx" \/ selectedGate s = "cz")
    by (left; reflexivity).
  assert (H2 : selectedControl s = selectedTarget s) by reflexivity.
  assert (H3 : isNaN (selectedControl s) = false) by reflexivity.
  exact (conj H1 (conj H2 (conj H3
           (proj1 (addGate_rejects_equal_control_target s H1 H2 H3))))).
Defined.

(** The setters touch one cell each; the angle is written by the slider
    only. *)
Lemma handle_rotationAngle s e s' :
  handle e s = Some s' ->
  rotationAngle s' = match e with
                     | AngleChanged x => x
                     | _ => rotationAngle s
                     end.
Proof.
  destruct e; simpl; try (intros [= <-]; reflexivity).
  - destruct (addGate s) as [[s1 a] |] eqn:E; [| discriminate].
    simpl. intros [= <-].
    destruct (addGate_cases _ _ E)
      as [(? & _ & _ & [= -> _]) | [(? & _ & _ & _ & [= -> _])
                                   | (? & _ & _ & _ & [= -> _])]];
      reflexivity.
  - unfold loadExampleCircuit.
    destruct (lookup example examples); intros [= <-]; reflexivity.
  - unfold syncInitialCircuit.
    destruct (truthy initialCircuit); [| intros [= <-]; reflexivity].
    destruct (get initialCircuit "num_qubits") as [[] |]; try discriminate.
    destruct (get initialCircuit "gates") as [g |]; try discriminate.
    destruct (truthy g); [destruct g; try discriminate |];
      intros [= <-]; reflexivity.
Qed.

(** The slider angle is finite in every reachable state, whatever the
    parent hands down. *)
Lemma reachable_angle_finite P s :
  reachable P s -> isFinite (rotationAngle s) = true.
Proof.
  induction 1 as [| s s' e _ IH Hd _ Hh]; [reflexivity |].
  rewrite (handle_rotationAngle _ _ _ Hh).
  destruct e; auto.
  simpl in Hd. now destruct x as [[] | | | [] ? ?].
Qed.

(** C5.  In every reachable state, with a one-qubit gate selected (one
    of h, x, y, z, rx, ry, rz), [addGate] appends one gate object carrying
    the selected type; the catalog marks exactly rx, ry and rz with
    [hasAngle]; for these the object has an [angle] property, equal to the
    slider angle, which is a finite number; for h, x, y and z it has no
    [angle] property. *)
Theorem addGate_angle_iff_rotation :
  forall (P : value -> Prop) (s : state) (info : GateInfo),
    reachable P s ->
    lookup (selectedGate s) availableGates = Some info ->
    type info = "single" ->
    In (selectedGate s) ["h"; "x"; "y"; "z"; "rx"; "ry"; "rz"] /\
    exists g : value,
      addGate s = Some (setGates (gates s ++ [g]) s, None) /\
      own g "type" = Some (VStr (selectedGate s)) /\
      (hasAngle info = true <-> In (selectedGate s) ["rx"; "ry"; "rz"]) /\
      (In (selectedGate s) ["rx"; "ry"; "rz"] ->
         own g "angle" = Some (VNum (rotationAngle s)) /\
         isFinite (rotationAngle s) = true) /\
      (In (selectedGate s) ["h"; "x"; "y"; "z"] -> own g "angle" = None).
Proof.
  intros P s info Hr Hl Hty.
  split; [exact (catalog_single _ _ Hl Hty) |].
  pose proof (catalog_hasAngle _ _ Hl) as Hrot.
  unfold addGate. rewrite Hl, Hty. simpl.
  eexists. split; [reflexivity |].
  destruct (hasAngle info) eqn:Ha; simpl.
  - split; [reflexivity |]. split; [exact Hrot |]. split.
    + intros _. split; [reflexivity |].
      exact (reachable_angle_finite _ _ Hr).
    + intros Hin. exfalso.
      assert (Hk : In (selectedGate s) ["rx"; "ry"; "rz"])
        by (apply Hrot; reflexivity).
      simpl in Hin, Hk.
      destruct Hin as [E | [E | [E | [E | []]]]]; rewrite <- E in Hk;
        destruct Hk as [K | [K | [K | []]]]; discriminate.
  - split; [reflexivity |]. split; [exact Hrot |]. split.
    + intros Hin. apply Hrot in Hin. discriminate.
    + reflexivity.
Qed.

Lemma addGate_angle_iff_rotation_witness :
  let s := setRotationAngle (of_Z 3) (setSelectedGate "ry" initial) in
  let info := {| name := "Rotation-Y"; symbol := "Ry"; type := "single";
                 hasAngle := true |} in
  reachable (fun _ => True) s /\
  lookup (selectedGate s) availableGates = Some info /\
  type info = "single" /\
  In (selectedGate s) ["h"; "x"; "y"; "z"; "rx"; "ry"; "rz"] /\
  exists g : value,
    addGate s = Some (setGates (gates s ++ [g]) s, None) /\
    own g "type" = Some (VStr (selectedGate s)) /\
    (hasAngle info = true <-> In (selectedGate s) ["rx"; "ry"; "rz"]) /\
    (In (selectedGate s) ["rx"; "ry"; "rz"] ->
       own g "angle" = Some (VNum (rotationAngle s)) /\
       isFinite (rotationAngle s) = true) /\
    (In (selectedGate s) ["h"; "x"; "y"; "z"] -> own g "angle" = None).
Proof.
  intros s info.
  assert (Hr : reachable (fun _ => True) s).
  { apply (reach_step _ (setSelectedGate "ry" initial) s (AngleChanged (of_Z 3))).
    - apply (reach_step _ initial _ (GateChanged "ry")).
      + apply reach_initial.
      + simpl. tauto.
      + intros c H. exact I.
      + reflexivity.
    - reflexivity.
    - intros c H. exact I.
    - reflexivity. }
  assert (Hl : lookup (selectedGate s) availableGates = Some info)
    by reflexivity.
  assert (Hty : type info = "single") by reflexivity.
  exact (conj Hr (conj Hl (conj Hty
           (addGate_angle_iff_rotation _ s info Hr Hl Hty)))).
Defined.

(** C6.  The three local examples are the worked circuits: [bell] is two
    qubits with h on 0 then cx 0->1, [ghz] is three qubits with h on 0,
    cx 0->1, cx 1->2, and [superposition] is one qubit with h on 0.
    Loading one writes that qubit count and that gate list and leaves the
    other cells as they were. *)
Theorem loadExampleCircuit_worked_scenarios :
  forall s : state,
    loadExampleCircuit "bell" s =
      {| numQubits := of_Z 2;
         gates :=
           [ VObj [("type", VStr "h"); ("qubit", VNum (of_Z 0))];
             VObj [("type", VStr "cx"); ("control", VNum (of_Z 0));
                   ("target", VNum (of_Z 1))] ];
         selectedGate := selectedGate s;
         selectedQubit := selectedQubit s;
         selectedControl := selectedControl s;
         selectedTarget := selectedTarget s;
         rotationAngle := rotationAngle s |} /\
    loadExampleCircuit "ghz" s =
      {| numQubits := of_Z 3;
         gates :=
           [ VObj [("type", VStr "h"); ("qubit", VNum (of_Z 0))];
             VObj [("type", VStr "cx"); ("control", VNum (of_Z 0));
                   ("target", VNum (of_Z 1))];
             VObj [("type", VStr "cx"); ("control", VNum (of_Z 1));
                   ("target", VNum (of_Z 2))] ];
         selectedGate := selectedGate s;
         selectedQubit := selectedQubit s;
         selectedControl := selectedControl s;
         selectedTarget := selectedTarget s;
         rotationAngle := rotationAngle s |} /\
    loadExampleCircuit "superposition" s =
      {| numQubits := of_Z 1;
         gates := [ VObj [("type", VStr "h"); ("qubit", VNum (of_Z 0))] ];
         selectedGate := selectedGate s;
         selectedQubit := selectedQubit s;
         selectedControl := selectedControl s;
         selectedTarget := selectedTarget s;
         rotationAngle := rotationAngle s |}.
Proof.
  intros s. repeat split.
Qed.

(** A filter that keeps every position from [from] on keeps the list. *)
Lemma filter_index_keep_all {A} (keep : nat -> bool) (xs : list A) :
  forall from : nat,
    (forall i, from <= i -> keep i = true) ->
    filter_index keep from xs = xs.
Proof.
  induction xs as [| x xs IH]; intros from H; [reflexivity |].
  cbn [filter_index]. rewrite H by lia. f_equal.
  apply IH. intros i Hi. apply H. lia.
Qed.

(** Dropping position [index] with [filter] keeps what is before it and
    what is after it, in order. *)
Lemma filter_index_drop {A} (xs : list A) :
  forall from index : nat,
    filter_index (fun i => negb (Nat.eqb i (from + index))) from xs =
    firstn index xs ++ skipn (S index) xs.
Proof.
  induction xs as [| x xs IH]; intros from index.
  - now destruct index.
  - destruct index as [| index]; cbn [filter_index firstn skipn app].
    + rewrite Nat.add_0_r, Nat.eqb_refl. cbn [negb].
      apply filter_index_keep_all. intros i Hi.
      apply negb_true_iff, Nat.eqb_neq. lia.
    + replace (Nat.eqb from (from + S index)) with false
        by (symmetry; apply Nat.eqb_neq; lia).
      cbn [negb]. f_equal.
      replace (from + S index) with (S from + index) by lia.
      apply IH.
Qed.

(** C7.  [addGate] either returns the state as it was (with the alert) or
    appends one gate after the existing ones; [removeGate index] keeps
    the gates before [index] and the gates after it, in their order, and
    drops the one at [index]. *)
Theorem gate_edits_preserve_order :
  forall (s : state) (index : nat),
    (forall (s' : state) (a : option string),
       addGate s = Some (s', a) ->
       (s' = s /\ a <> None) \/
       (exists g : value, s' = setGates (gates s ++ [g]) s /\ a = None)) /\
    removeGate index s =
      setGates (firstn index (gates s) ++ skipn (S index) (gates s)) s.
Proof.
  intros s index. split.
  - intros s' a Hadd.
    destruct (addGate_cases _ _ Hadd)
      as [(info & _ & _ & [= -> ->]) | [(info & _ & _ & _ & [= -> ->])
                                        | (info & _ & _ & _ & [= -> ->])]].
    + right. eexists. split; reflexivity.
    + left. split; [reflexivity | discriminate].
    + right. eexists. split; reflexivity.
  - unfold removeGate. f_equal. exact (filter_index_drop (gates s) 0 index).
Qed.

Lemma gate_edits_preserve_order_witness :
  let s := loadExampleCircuit "ghz" initial in
  let s' :=
    setGates (gates s ++
      [VObj [("type", VStr "h"); ("qubit", VNum (of_Z 0))]]) s in
  addGate s = Some (s', None) /\
  ((s' = s /\ @None string <> None) \/
   (exists g : value, s' = setGates (gates s ++ [g]) s /\ @None string = None))
  /\
  removeGate 1 s =
    setGates (firstn 1 (gates s) ++ skipn 2 (gates s)) s.
Proof.
  intros s s'.
  assert (H : addGate s = Some (s', None)) by reflexivity.
  exact (conj H (conj (proj1 (gate_edits_preserve_order s 1) s' None H)
                      (proj2 (gate_edits_preserve_order s 1)))).
Defined.

(** The qubit count of a reachable state is one of 1..5 when every
    circuit handed down by the parent has such a count. *)
Lemma reachable_qubit_count s :
  reachable counted s -> qubit_count (numQubits s).
Proof.
  induction 1 as [| s s' e _ IH Hd HP Hh].
  - exists 2%Z. split; [lia | reflexivity].
  - destruct e; simpl in Hh, Hd;
      try (injection Hh as <-; exact IH).
    + injection Hh as <-. simpl.
      destruct Hd as [<- | [<- | [<- | [<- | [<- | []]]]]];
        [exists 1%Z | exists 2%Z | exists 3%Z | exists 4%Z | exists 5%Z];
        (split; [lia | reflexivity]).
    + destruct (addGate s) as [[s1 a] |] eqn:E; [| discriminate].
      simpl in Hh. injection Hh as <-.
      destruct (addGate_cases _ _ E)
        as [(? & _ & _ & [= -> _]) | [(? & _ & _ & _ & [= -> _])
                                     | (? & _ & _ & _ & [= -> _])]];
        exact IH.
    + injection Hh as <-.
      destruct Hd as [<- | [<- | [<- | []]]];
        [exists 2%Z | exists 3%Z | exists 1%Z];
        (split; [lia | reflexivity]).
    + specialize (HP _ eq_refl). unfold counted in HP.
      unfold syncInitialCircuit in Hh.
      destruct (truthy initialCircuit); [| injection Hh as <-; exact IH].
      destruct (HP eq_refl) as (n & Hn & Hq). rewrite Hn in Hh.
      destruct (get initialCircuit "gates") as [g |]; [| discriminate].
      destruct (truthy g); [destruct g; try discriminate |];
        injection Hh as <-; exact Hq.
Qed.

(** The counts 1..5 and the qubit indices offered for them are plain
    non-negative integers. *)
Lemma qubit_count_safe n : qubit_count n -> safe_number n = true.
Proof.
  intros (k & Hk & ->).
  assert (k = 1 \/ k = 2 \/ k = 3 \/ k = 4 \/ k = 5)%Z
    as [-> | [-> | [-> | [-> | ->]]]] by lia; reflexivity.
Qed.

Lemma offered_safe k n :
  qubit_count k -> In n (indices k) -> safe_number n = true.
Proof.
  intros (j & Hj & ->) Hin.
  assert (j = 1 \/ j = 2 \/ j = 3 \/ j = 4 \/ j = 5)%Z
    as [-> | [-> | [-> | [-> | ->]]]] by lia;
    vm_compute in Hin; intuition (subst; reflexivity).
Qed.

(** A property of an object that JSON can denote is such a value. *)
Lemma lookup_safe k (props : list (string * value)) v :
  lookup k props = Some v ->
  forallb (fun kv => json_safe (snd kv)) props = true ->
  json_safe v = true.
Proof.
  induction props as [| [k' v'] ps IH]; simpl; [discriminate |].
  intros Hl Hs. apply andb_true_iff in Hs as [H1 H2].
  destruct (String.eqb k k'); [now injection Hl as <- | auto].
Qed.

(** Filtering keeps a property that holds of every element. *)
Lemma filter_index_forallb {A} (f : A -> bool) keep (xs : list A) :
  forall from, forallb f xs = true ->
               forallb f (filter_index keep from xs) = true.
Proof.
  induction xs as [| x xs IH]; intros from; simpl; [reflexivity |].
  intros H. apply andb_true_iff in H as [H1 H2].
  destruct (keep from); simpl; [rewrite H1; simpl |]; apply IH; exact H2.
Qed.

(** Given plain initial circuits, every cell of a reachable state holds a
    value that JSON can denote: the count, the selected qubits and angle,
    and every gate appended so far. *)
Lemma reachable_storable s : reachable plain s -> storable s.
Proof.
  induction 1 as [| s s' e Hr IH Hd HP Hh].
  - repeat split. exists 2%Z. split; [lia | reflexivity].
  - destruct IH as (Hq & Hg & H1 & H2 & H3 & H4).
    destruct e; simpl in Hh, Hd.
    + injection Hh as <-. repeat split; auto. simpl.
      destruct Hd as [<- | [<- | [<- | [<- | [<- | []]]]]];
        [exists 1%Z | exists 2%Z | exists 3%Z | exists 4%Z | exists 5%Z];
        (split; [lia | reflexivity]).
    + injection Hh as <-. repeat split; auto.
    + injection Hh as <-. repeat split; auto. simpl.
      exact (offered_safe _ _ Hq Hd).
    + injection Hh as <-. repeat split; auto. simpl.
      exact (offered_safe _ _ Hq Hd).
    + injection Hh as <-. repeat split; auto. simpl.
      exact (offered_safe _ _ Hq Hd).
    + injection Hh as <-. repeat split; auto. simpl.
      now destruct x as [[] | | | [] ? ?].
    + destruct (addGate s) as [[s1 a] |] eqn:E; [| discriminate].
      simpl in Hh. injection Hh as <-.
      destruct (addGate_cases _ _ E)
        as [(info & _ & _ & [= -> _]) | [(info & _ & _ & _ & [= -> _])
                                        | (info & _ & _ & _ & [= -> _])]];
        repeat split; auto; simpl; rewrite forallb_app, Hg; simpl.
      * destruct (hasAngle info); simpl; now rewrite H1, ?H4.
      * now rewrite H2, H3.
    + injection Hh as <-. repeat split; auto.
    + injection Hh as <-.
      destruct Hd as [<- | [<- | [<- | []]]]; repeat split; auto;
        [exists 2%Z | exists 3%Z | exists 1%Z];
        (split; [lia | reflexivity]).
    + injection Hh as <-. repeat split; auto. simpl.
      now apply filter_index_forallb.
    + destruct (HP _ eq_refl) as [Hc Hs]. unfold counted in Hc.
      unfold syncInitialCircuit in Hh.
      destruct (truthy initialCircuit) eqn:Ht;
        [| injection Hh as <-; repeat split; auto].
      destruct (Hc eq_refl) as (n & Hn & Hqn). rewrite Hn in Hh.
      destruct initialCircuit as [| | | | | | props]; try discriminate.
      simpl in Hs. apply andb_true_iff in Hs as [_ Hs].
      simpl in Hh.
      destruct (lookup "gates" props) as [g |] eqn:Hl.
      * pose proof (lookup_safe _ _ _ Hl Hs) as Hgs.
        destruct (truthy g); [destruct g; try discriminate |];
          injection Hh as <-; repeat split; auto.
      * simpl in Hh. injection Hh as <-. repeat split; auto.
Qed.

(** The circuit reported from a reachable state is one JSON can denote. *)
Lemma builder_circuit_json_safe s :
  reachable plain s -> json_safe (circuit_value (currentCircuit s)) = true.
Proof.
  intros Hr. destruct (reachable_storable s Hr) as (Hq & Hg & _).
  simpl. now rewrite (qubit_count_safe _ Hq), Hg.
Qed.

End BuilderFacts.

(* ===================================================================== *)
(** * Properties of the JSON round trip                                    *)
(* ===================================================================== *)

Section JsonFacts.
Import JS.

(** Induction on values that reaches inside arrays and objects. *)
Lemma value_rect_deep (P : value -> Prop) :
  P VUndefined -> P VNull ->
  (forall b, P (VBool b)) -> (forall n, P (VNum n)) -> (forall s, P (VStr s)) ->
  (forall items, Forall P items -> P (VArr items)) ->
  (forall props, Forall (fun kv => P (snd kv)) props -> P (VObj props)) ->
  forall v, P v.
Proof.
  intros Hu Hn Hb Hnum Hs Ha Ho.
  fix IH 1. intros [| | b | n | s | items | props].
  - exact Hu.
  - exact Hn.
  - apply Hb.
  - apply Hnum.
  - apply Hs.
  - apply Ha. induction items as [| x xs IHxs]; constructor.
    + apply IH.
    + exact IHxs.
  - apply Ho. induction props as [| [k x] ps IHps]; constructor.
    + apply IH.
    + exact IHps.
Qed.

Lemma existsb_eqb_In (k : string) (ks : list string) :
  existsb (String.eqb k) ks = false -> ~ In k ks.
Proof.
  induction ks as [| k' ks IH]; simpl; [tauto |].
  intros H [E | Hin]; apply orb_false_iff in H as [H1 H2].
  - subst. now rewrite String.eqb_refl in H1.
  - now apply IH.
Qed.

(** Writing a fresh name appends it. *)
Lemma set_prop_fresh {A} (k : string) (v : A) (acc : list (string * A)) :
  ~ In k (map fst acc) -> set_prop k v acc = acc ++ [(k, v)].
Proof.
  induction acc as [| [k' v'] acc IH]; simpl; [reflexivity |].
  intros H. destruct (String.eqb k k') eqn:E.
  - apply String.eqb_eq in E. subst. exfalso. apply H. now left.
  - f_equal. apply IH. intros Hin. apply H. now right.
Qed.

Lemma define_from {A} (ps acc : list (string * A)) :
  distinct (map fst ps) = true ->
  (forall k, In k (map fst ps) -> ~ In k (map fst acc)) ->
  fold_left (fun a kv => set_prop (fst kv) (snd kv) a) ps acc = acc ++ ps.
Proof.
  revert acc. induction ps as [| [k v] ps IH]; intros acc Hd Hf; simpl.
  - now rewrite app_nil_r.
  - simpl in Hd. apply andb_true_iff in Hd as [Hk Hd].
    apply negb_true_iff, existsb_eqb_In in Hk.
    rewrite set_prop_fresh by (apply Hf; now left).
    rewrite IH; [now rewrite <- app_assoc | exact Hd |].
    intros k' Hin. rewrite map_app, in_app_iff. simpl.
    intros [H | [<- | []]]; [| contradiction].
    exact (Hf k' (or_intror Hin) H).
Qed.

(** Defining members with distinct names yields them as listed. *)
Lemma define_all_distinct {A} (ps : list (string * A)) :
  distinct (map fst ps) = true -> define_all ps = ps.
Proof.
  intros Hd. unfold define_all. now rewrite define_from.
Qed.

(** [JSON.parse] never returns [undefined]. *)
Lemma parse_defined (doc : json) : parse doc <> VUndefined.
Proof. destruct doc; discriminate. Qed.

(** Printing and reading back a value that JSON can denote gives the
    same value. *)
Lemma parse_stringify (v : value) :
  json_safe v = true ->
  exists doc, stringify v = Some doc /\ parse doc = v.
Proof.
  induction v as [| | b | n | s | items IH | props IH] using value_rect_deep;
    simpl; intros Hs; try discriminate; try (eexists; split; reflexivity).
  - unfold safe_number in Hs.
    apply andb_true_iff in Hs as [Hf Hz]. unfold stringify_number.
    rewrite Hf. eexists. split; [reflexivity |].
    destruct n as [[] | | |]; try discriminate; reflexivity.
  - eexists. split; [reflexivity |]. simpl. f_equal.
    rewrite map_map.
    induction IH as [| x xs Hx _ IHxs]; [reflexivity |].
    simpl in Hs. apply andb_true_iff in Hs as [Hsx Hsxs].
    simpl. destruct (Hx Hsx) as (d & -> & ->). f_equal. now apply IHxs.
  - apply andb_true_iff in Hs as [Hd Hs].
    eexists. split; [reflexivity |]. simpl. f_equal.
    match goal with
    | |- define_all (map _ (?f props)) = _ =>
        assert (E : map (fun kv => (fst kv, parse (snd kv))) (f props) = props)
    end.
    { clear Hd. induction IH as [| [k x] ps Hx _ IHps]; [reflexivity |].
      simpl in Hs. apply andb_true_iff in Hs as [Hsx Hsps].
      simpl in Hx. destruct (Hx Hsx) as (d & -> & <-).
      simpl. f_equal. now apply IHps. }
    rewrite E. now apply define_all_distinct.
Qed.

End JsonFacts.

(* ===================================================================== *)
(** * Properties of the application shell                                  *)
(* ===================================================================== *)

Section AppFacts.
Import JS App.

(** [processCircuit] never writes [currentCircuit]. *)
Lemma processCircuit_currentCircuit eng arg net st :
  currentCircuit (after (processCircuit eng arg net st)) = currentCircuit st.
Proof.
  unfold App.processCircuit.
  destruct (get (circuit_argument arg st) "gates") as [g |]; [| reflexivity].
  destruct (_ || _); [reflexivity |]. simpl.
  destruct (received eng net); reflexivity.
Qed.

(** A request that goes out carries the circuit it was called with. *)
Lemma processCircuit_sent eng arg net st req :
  In req (sent (processCircuit eng arg net st)) ->
  body req = stringify (circuit_argument arg st).
Proof.
  unfold App.processCircuit.
  destruct (get (circuit_argument arg st) "gates") as [g |]; [| intros []].
  destruct (_ || _); [intros [] |]. simpl.
  intros [<- | []]. reflexivity.
Qed.

(** When a request went out and the [try] block threw, the message is
    recorded and [quantumStates] is as before. *)
Lemma processCircuit_caught eng arg net st message :
  sent (processCircuit eng arg net st) <> [] ->
  received eng net = inl message ->
  after (processCircuit eng arg net st) =
    caught message (setError VNull (setIsLoading true st)).
Proof.
  unfold App.processCircuit.
  destruct (get (circuit_argument arg st) "gates") as [g |];
    [| intros H; now contradiction H].
  destruct (_ || _); [intros H; now contradiction H |].
  intros _ ->. reflexivity.
Qed.

(** C2 (as amended).  For every processing call that issues its request
    and fails, because the response has a non-success status or because
    its body has a truthy [error] field, [processCircuit] records a
    message starting with [Failed to process circuit: ] in [error], clears
    [isLoading], and leaves [quantumStates] as it was. *)
Theorem processCircuit_failure_keeps_quantumStates :
  forall (eng : engine) (arg : option value) (net : reply) (st : state),
    sent (processCircuit eng arg net st) <> [] ->
    (non_success net = true \/
     exists e, error_field net = Some e /\ truthy e = true) ->
    exists message : string,
      error (after (processCircuit eng arg net st)) =
        VStr ("Failed to process circuit: " ++ message)%string /\
      quantumStates (after (processCircuit eng arg net st)) = quantumStates st /\
      isLoading (after (processCircuit eng arg net st)) = false.
Proof.
  intros eng arg net st Hsent Hfail.
  assert (Hthrown : exists message, received eng net = inl message).
  { destruct Hfail as [Hns | (e & He & Ht)].
    - destruct net as [m | ok status content]; [discriminate |].
      simpl in Hns. apply negb_true_iff in Hns. subst ok.
      eexists. reflexivity.
    - destruct net as [m | ok status [doc | m]]; try discriminate.
      simpl in He. unfold App.received.
      destruct (negb ok); [eexists; reflexivity |].
      destruct (parse doc) as [| | | | | | props]; try discriminate.
      simpl in He. simpl. rewrite He, Ht. eexists. reflexivity. }
  destruct Hthrown as (message & Hm).
  exists message. rewrite (processCircuit_caught _ _ _ _ _ Hsent Hm).
  repeat split.
Qed.

Lemma processCircuit_failure_keeps_quantumStates_witness :
  let net := Response false (of_Z 400)
               (Json (JObject [("error", JString "bad gate")])) in
  let r := processCircuit sample_engine (Some bell_value) net initial in
  sent r <> [] /\
  (non_success net = true \/
   exists e, error_field net = Some e /\ truthy e = true) /\
  exists message : string,
    error (after r) = VStr ("Failed to process circuit: " ++ message)%string /\
    quantumStates (after r) = quantumStates initial /\
    isLoading (after r) = false.
Proof.
  intros net r.
  assert (H1 : sent r <> []) by discriminate.
  assert (H2 : non_success net = true \/
               exists e, error_field net = Some e /\ truthy e = true)
    by (left; reflexivity).
  exact (conj H1 (conj H2
    (processCircuit_failure_keeps_quantumStates
       sample_engine (Some bell_value) net initial H1 H2))).
Defined.

(** C2 as stated fails: a response with success status whose body has an
    [error] field holding the empty string is stored as the result, and
    no error message is recorded. *)
Lemma processCircuit_stores_body_with_empty_error :
  let net := Response true (of_Z 200)
               (Json (JObject [("error", JString "")])) in
  let r := processCircuit sample_engine (Some bell_value) net initial in
  sent r <> [] /\
  error_field net = Some (VStr "") /\
  error (after r) = VNull /\
  quantumStates (after r) = VObj [("error", VStr "")] /\
  quantumStates (after r) <> quantumStates initial.
Proof.
  intros net r. repeat split; discriminate.
Qed.

(** C9.  When the text of the chosen file is not valid JSON,
    [importCircuit] sets [error] to [Invalid circuit file format] and
    changes nothing else: [currentCircuit] and [quantumStates] are as they
    were, and no request is issued. *)
Theorem importCircuit_invalid_json_atomic :
  forall (eng : engine) (t : text) (net : reply) (st : state),
    JSON_parse t = None ->
    importCircuit eng (Some t) net st =
      quiet (setError (VStr "Invalid circuit file format") st) /\
    error (after (importCircuit eng (Some t) net st)) =
      VStr "Invalid circuit file format" /\
    currentCircuit (after (importCircuit eng (Some t) net st)) =
      currentCircuit st /\
    quantumStates (after (importCircuit eng (Some t) net st)) =
      quantumStates st /\
    sent (importCircuit eng (Some t) net st) = [].
Proof.
  intros eng t net st H. unfold App.importCircuit. rewrite H.
  repeat split.
Qed.

Lemma importCircuit_invalid_json_atomic_witness :
  let t := OtherText "{num_qubits: 2" in
  let net := NetworkFailure "offline" in
  let st := setQuantumStates (VObj [("num_qubits", VNum (of_Z 2))]) initial in
  JSON_parse t = None /\
  importCircuit sample_engine (Some t) net st =
    quiet (setError (VStr "Invalid circuit file format") st) /\
  error (after (importCircuit sample_engine (Some t) net st)) =
    VStr "Invalid circuit file format" /\
  currentCircuit (after (importCircuit sample_engine (Some t) net st)) =
    currentCircuit st /\
  quantumStates (after (importCircuit sample_engine (Some t) net st)) =
    quantumStates st /\
  sent (importCircuit sample_engine (Some t) net st) = [].
Proof.
  intros t net st.
  assert (H : JSON_parse t = None) by reflexivity.
  exact (conj H (importCircuit_invalid_json_atomic sample_engine t net st H)).
Defined.

(** C10.  For a circuit whose gate list is empty, the circuit-change
    handler stores the circuit, sets [quantumStates] to [null], arms no
    timer and issues no request; and [processCircuit] called on a circuit
    whose [gates] is the empty array sets [quantumStates] to [null] and
    returns before issuing a request or touching [isLoading] and
    [error]. *)
Theorem empty_circuit_clears_without_request :
  forall (eng : engine) (c : CircuitBuilder.circuit) (arg : option value)
         (net : reply) (st : state),
    CircuitBuilder.circuit_gates c = [] ->
    get (circuit_argument arg st) "gates" = Some (VArr []) ->
    handleCircuitChange c st =
      quiet (setQuantumStates VNull
               (setCurrentCircuit (CircuitBuilder.circuit_value c) st)) /\
    processCircuit eng arg net st = quiet (setQuantumStates VNull st) /\
    processCircuit eng (Some (CircuitBuilder.circuit_value c)) net st =
      quiet (setQuantumStates VNull st).
Proof.
  intros eng c arg net st Hc Hg. split; [| split].
  - unfold handleCircuitChange. now rewrite Hc.
  - unfold App.processCircuit. now rewrite Hg.
  - unfold App.processCircuit. simpl. now rewrite Hc.
Qed.

Lemma empty_circuit_clears_without_request_witness :
  let c := {| CircuitBuilder.num_qubits := of_Z 3;
              CircuitBuilder.circuit_gates := [] |} in
  let net := Response true (of_Z 200) (Json (JObject [])) in
  let st := setQuantumStates (VObj [("num_qubits", VNum (of_Z 2))]) initial in
  CircuitBuilder.circuit_gates c = [] /\
  get (circuit_argument None st) "gates" = Some (VArr []) /\
  handleCircuitChange c st =
    quiet (setQuantumStates VNull
             (setCurrentCircuit (CircuitBuilder.circuit_value c) st)) /\
  processCircuit sample_engine None net st =
    quiet (setQuantumStates VNull st) /\
  processCircuit sample_engine (Some (CircuitBuilder.circuit_value c)) net st =
    quiet (setQuantumStates VNull st).
Proof.
  intros c net st.
  assert (H1 : CircuitBuilder.circuit_gates c = []) by reflexivity.
  assert (H2 : get (circuit_argument None st) "gates" = Some (VArr []))
    by reflexivity.
  exact (conj H1 (conj H2
    (empty_circuit_clears_without_request sample_engine c None net st H1 H2))).
Defined.

(** The request body of a builder circuit spells its qubit count. *)
Lemma builder_request_num_qubits (c : CircuitBuilder.circuit) (req : request) :
  CircuitBuilder.qubit_count (CircuitBuilder.num_qubits c) ->
  body req = stringify (CircuitBuilder.circuit_value c) ->
  exists k : Z,
    (1 <= k <= 5)%Z /\ request_num_qubits req = Some (JNumber (of_Z k)).
Proof.
  intros (k & Hk & Hn) Hb. exists k. split; [exact Hk |].
  unfold request_num_qubits. rewrite Hb. simpl. rewrite Hn.
  assert (k = 1 \/ k = 2 \/ k = 3 \/ k = 4 \/ k = 5)%Z
    as [-> | [-> | [-> | [-> | ->]]]] by lia; reflexivity.
Qed.

(** C3 (as amended).  In every state the builder reaches through its own
    controls (qubit-count selector, gate controls, local examples), given
    that each circuit handed down by the parent has a qubit count in 1..5,
    the circuit it reports has [num_qubits] one of the integers 1..5; the
    handler stores it and arms the timer with it or leaves the timer
    alone; and every request issued for it, by the debounced call or by
    the refresh button, carries that [num_qubits]. *)
Theorem builder_circuits_have_1_to_5_qubits :
  forall (eng : engine) (s : CircuitBuilder.state) (st st0 : state)
         (net : reply) (req : request),
    CircuitBuilder.reachable CircuitBuilder.counted s ->
    let c := CircuitBuilder.currentCircuit s in
    let st' := after (handleCircuitChange c st) in
    CircuitBuilder.qubit_count (CircuitBuilder.num_qubits c) /\
    currentCircuit st' = CircuitBuilder.circuit_value c /\
    (timeout st' = Some (CircuitBuilder.circuit_value c) \/
     timeout st' = timeout st) /\
    (In req (sent (processCircuit eng
                     (Some (CircuitBuilder.circuit_value c)) net st0)) \/
     In req (sent (processCircuit eng None net st')) ->
     exists k : Z,
       (1 <= k <= 5)%Z /\ request_num_qubits req = Some (JNumber (of_Z k))).
Proof.
  intros eng s st st0 net req Hr c st'.
  pose proof (reachable_qubit_count s Hr) as Hq.
  assert (Hcur : currentCircuit st' = CircuitBuilder.circuit_value c).
  { unfold st', handleCircuitChange. destruct (Nat.ltb _ _); reflexivity. }
  split; [exact Hq |]. split; [exact Hcur |]. split.
  - unfold st', handleCircuitChange. destruct (Nat.ltb _ _); simpl; auto.
  - intros [Hin | Hin]; apply processCircuit_sent in Hin;
      apply (builder_request_num_qubits c req Hq).
    + exact Hin.
    + rewrite Hin. simpl. now rewrite Hcur.
Qed.

Lemma builder_circuits_have_1_to_5_qubits_witness :
  let s := CircuitBuilder.loadExampleCircuit "ghz" CircuitBuilder.initial in
  let c := CircuitBuilder.currentCircuit s in
  let net := Response true (of_Z 200) (Json (JObject [])) in
  let st' := after (handleCircuitChange c initial) in
  let req := {| path := "/api/process-circuit"; method := "POST";
                body := stringify (CircuitBuilder.circuit_value c) |} in
  CircuitBuilder.reachable CircuitBuilder.counted s /\
  CircuitBuilder.qubit_count (CircuitBuilder.num_qubits c) /\
  currentCircuit st' = CircuitBuilder.circuit_value c /\
  (timeout st' = Some (CircuitBuilder.circuit_value c) \/
   timeout st' = timeout initial) /\
  (In req (sent (processCircuit sample_engine
                   (Some (CircuitBuilder.circuit_value c)) net initial)) \/
   In req (sent (processCircuit sample_engine None net st')) ->
   exists k : Z,
     (1 <= k <= 5)%Z /\ request_num_qubits req = Some (JNumber (of_Z k))).
Proof.
  intros s c net st' req.
  assert (Hr : CircuitBuilder.reachable CircuitBuilder.counted s).
  { apply (CircuitBuilder.reach_step _ CircuitBuilder.initial s
             (CircuitBuilder.ExampleClicked "ghz")).
    - apply CircuitBuilder.reach_initial.
    - simpl. tauto.
    - intros v H. discriminate H.
    - reflexivity. }
  exact (conj Hr
    (builder_circuits_have_1_to_5_qubits
       sample_engine s initial initial net req Hr)).
Defined.

(** C3 as stated fails for imported circuits: a file asking for nine
    qubits is parsed, stored and submitted as it is. *)
Lemma importCircuit_submits_nine_qubits :
  let net := Response true (of_Z 200) (Json (JObject [])) in
  let r := importCircuit sample_engine (Some nine_qubits_file) net initial in
  exists req : request,
    sent r = [req] /\
    request_num_qubits req = Some (JNumber (of_Z 9)) /\
    ~ (exists k : Z,
         (1 <= k <= 5)%Z /\
         request_num_qubits req = Some (JNumber (of_Z k))).
Proof.
  intros net r. eexists. split; [reflexivity |]. split; [reflexivity |].
  intros (k & Hk & E).
  assert (k = 1 \/ k = 2 \/ k = 3 \/ k = 4 \/ k = 5)%Z
    as [-> | [-> | [-> | [-> | ->]]]] by lia; discriminate E.
Qed.

(** What [exportCircuit] writes for a circuit that JSON can denote reads
    back as that circuit, and importing it makes it the current one. *)
Lemma import_of_export eng st st2 net :
  json_safe (currentCircuit st) = true ->
  (exists doc, exportCircuit st = JsonText doc) /\
  JSON_parse (exportCircuit st) = Some (currentCircuit st) /\
  currentCircuit (after (importCircuit eng (Some (exportCircuit st)) net st2))
    = currentCircuit st.
Proof.
  intros Hs.
  destruct (parse_stringify _ Hs) as (doc & Hd & Hp).
  assert (Hparse : JSON_parse (exportCircuit st) = Some (currentCircuit st)).
  { unfold exportCircuit. rewrite Hd. simpl. now rewrite Hp. }
  split; [| split].
  - exists doc. unfold exportCircuit. now rewrite Hd.
  - exact Hparse.
  - unfold App.importCircuit. rewrite Hparse. simpl.
    now rewrite processCircuit_currentCircuit.
Qed.

(** C8 (as amended).  For every current circuit that JSON can denote (no
    [undefined], no NaN or infinite number, no negative zero), the file
    written by [exportCircuit] is a JSON text that [JSON.parse] reads back
    as the same circuit, and importing that file, into any state, makes
    it the current circuit. *)
Theorem export_import_round_trip :
  forall (eng : engine) (st st2 : state) (net : reply),
    json_safe (currentCircuit st) = true ->
    (exists doc, exportCircuit st = JsonText doc) /\
    JSON_parse (exportCircuit st) = Some (currentCircuit st) /\
    currentCircuit (after (importCircuit eng (Some (exportCircuit st)) net st2))
      = currentCircuit st.
Proof.
  intros eng st st2 net Hs. now apply import_of_export.
Qed.

Lemma export_import_round_trip_witness :
  let st := setCurrentCircuit bell_value initial in
  let net := Response true (of_Z 200) (Json (JObject [])) in
  json_safe (currentCircuit st) = true /\
  (exists doc, exportCircuit st = JsonText doc) /\
  JSON_parse (exportCircuit st) = Some (currentCircuit st) /\
  currentCircuit
    (after (importCircuit sample_engine (Some (exportCircuit st)) net initial))
    = currentCircuit st.
Proof.
  intros st net.
  assert (H : json_safe (currentCircuit st) = true) by reflexivity.
  exact (conj H (export_import_round_trip sample_engine st initial net H)).
Defined.

(** C8 as stated fails: after a file with an overflowing angle has been
    imported, the current circuit holds the angle [Infinity]; it is
    exported with [null] in its place, so the circuit read back is a
    different one. *)
Lemma export_import_loses_infinite_angle :
  let net := Response true (of_Z 200) (Json (JObject [])) in
  let st :=
    after (importCircuit sample_engine (Some overflowing_angle_file) net
             initial) in
  let r := importCircuit sample_engine (Some (exportCircuit st)) net st in
  currentCircuit st = infinite_angle_circuit /\
  currentCircuit (after r) =
    VObj [("num_qubits", VNum (of_Z 1));
          ("gates",
           VArr [ VObj [("type", VStr "rx"); ("qubit", VNum (of_Z 0));
                        ("angle", VNull)] ])] /\
  currentCircuit (after r) <> currentCircuit st.
Proof.
  intros net st r. split; [reflexivity |].
  split; [reflexivity | discriminate].
Qed.

(** Circuits made with the builder survive export and import. *)
Lemma builder_circuit_round_trip eng s st st2 net :
  CircuitBuilder.reachable CircuitBuilder.plain s ->
  let c := CircuitBuilder.circuit_value (CircuitBuilder.currentCircuit s) in
  let st' := after (handleCircuitChange (CircuitBuilder.currentCircuit s) st) in
  currentCircuit (after (importCircuit eng (Some (exportCircuit st')) net st2))
    = c.
Proof.
  intros Hr c st'.
  assert (Hcur : currentCircuit st' = c).
  { unfold st', handleCircuitChange. destruct (Nat.ltb _ _); reflexivity. }
  rewrite <- Hcur.
  apply import_of_export.
  rewrite Hcur. now apply builder_circuit_json_safe.
Qed.

(** The handler does not cancel a timer armed earlier: after the gate
    list has been cleared, the request for the previous circuit still
    goes out and its result is stored. *)
Lemma stale_timer_survives_clear :
  let full := {| CircuitBuilder.num_qubits := of_Z 1;
                 CircuitBuilder.circuit_gates :=
                   [VObj [("type", VStr "h"); ("qubit", VNum (of_Z 0))]] |} in
  let cleared := {| CircuitBuilder.num_qubits := of_Z 1;
                    CircuitBuilder.circuit_gates := [] |} in
  let result := JObject [("num_qubits", JNumber (of_Z 1)); ("qubits", JArray [])] in
  let st1 := after (handleCircuitChange full initial) in
  let st2 := after (handleCircuitChange cleared st1) in
  let r := timerFired sample_engine (Response true (of_Z 200) (Json result)) st2 in
  quantumStates st2 = VNull /\
  List.length (sent r) = 1 /\
  quantumStates (after r) = parse result.
Proof.
  repeat split.
Qed.

End AppFacts.

(* ===================================================================== *)
(** * Integers as doubles                                                  *)
(* ===================================================================== *)

Section NumberFacts.
Import JS.

Lemma digits2_iter (m k : positive) :
  digits2_pos (Pos.iter xO m k) = (digits2_pos m + k)%positive.
Proof.
  induction k as [| k IH] using Pos.peano_ind.
  - simpl. now rewrite Pos.add_1_r.
  - rewrite Pos.iter_succ. simpl. rewrite IH. lia.
Qed.

(** A positive integer below [2^k] has at most [k] binary digits. *)
Lemma digits2_bound (m : positive) :
  forall k : Z, (Zpos m < 2 ^ k)%Z -> (0 <= k)%Z ->
                (Zpos (digits2_pos m) <= k)%Z.
Proof.
  induction m as [p IH | p IH |]; intros k Hlt Hk; simpl.
  - assert (k <> 0)%Z by (intros ->; simpl in Hlt; lia).
    replace k with (Z.succ (k - 1))%Z in Hlt by lia.
    rewrite Z.pow_succ_r in Hlt by lia.
    specialize (IH (k - 1)%Z). lia.
  - assert (k <> 0)%Z by (intros ->; simpl in Hlt; lia).
    replace k with (Z.succ (k - 1))%Z in Hlt by lia.
    rewrite Z.pow_succ_r in Hlt by lia.
    specialize (IH (k - 1)%Z). lia.
  - assert (k <> 0)%Z by (intros ->; simpl in Hlt; lia). lia.
Qed.

(** The double of an integer of at most 53 bits: the integer itself,
    shifted so that its mantissa has 53 bits. *)
Lemma of_Z_small (m : positive) :
  (Zpos (digits2_pos m) <= 53)%Z ->
  of_Z (Zpos m) =
  S754_finite false
    (match (Zpos (digits2_pos m) - 53)%Z with
     | Zneg k => Pos.iter xO m k
     | _ => m
     end)
    (Zpos (digits2_pos m) - 53).
Proof.
  intros Hd. unfold of_Z, binary_normalize, binary_round.
  set (d := digits2_pos m) in *.
  assert (Hf : forall e, (-52 <= e <= 0)%Z -> fexp prec emax (53 + e) = e).
  { intros e He. unfold fexp, emin, prec, emax. lia. }
  assert (Hfd : fexp prec emax (Zpos d + 0) = (Zpos d - 53)%Z).
  { unfold fexp, emin, prec, emax. lia. }
  rewrite Hfd. unfold shl_align. rewrite Z.sub_0_r.
  destruct (Zpos d - 53)%Z as [| q | q] eqn:E; try lia.
  - unfold binary_round_aux, shr_fexp. cbn [Zdigits2]. fold d.
    replace (Zpos d + 0)%Z with (53 + 0)%Z by lia.
    rewrite Hf by lia. rewrite Z.sub_diag.
    cbn -[fexp Z.add Z.sub]. fold d.
    replace (Zpos d + 0)%Z with (53 + 0)%Z by lia.
    rewrite Hf by lia. reflexivity.
  - unfold binary_round_aux, shr_fexp. cbn [Zdigits2].
    rewrite digits2_iter. fold d.
    replace (Zpos (d + q) + Zneg q)%Z with (53 + Zneg q)%Z by lia.
    rewrite Hf by lia. rewrite Z.sub_diag.
    cbn -[fexp Z.add Z.sub].
    rewrite digits2_iter. fold d.
    replace (Zpos (d + q) + Zneg q)%Z with (53 + Zneg q)%Z by lia.
    rewrite Hf by lia. rewrite Z.sub_diag.
    cbn -[fexp Z.add Z.sub]. unfold emax, prec.
    destruct (Zneg q <=? 1024 - 53)%Z eqn:L; [reflexivity |].
    apply Z.leb_gt in L. lia.
Qed.

(** A positive integer below [2^53] is a positive finite double. *)
Lemma of_Z_positive (z : Z) :
  (0 < z < 2 ^ 53)%Z ->
  exists m e, of_Z z = S754_finite false m e.
Proof.
  intros [H0 H1]. destruct z as [| m | m]; try lia.
  rewrite of_Z_small by (apply digits2_bound; lia).
  eauto.
Qed.

(** The length of a non-empty array is not [=== 0]. *)
Lemma length_not_zero (n : nat) :
  (0 < n)%nat -> (Z.of_nat n < 2 ^ 53)%Z ->
  strict_eq_num (VNum (of_Z (Z.of_nat n))) (of_Z 0) = false.
Proof.
  intros H0 H1.
  destruct (of_Z_positive (Z.of_nat n)) as (m & e & ->); [lia |].
  reflexivity.
Qed.

(** [ToLength] reads an integer below [2^53] back from its double. *)
Lemma ToLength_of_nat (n : nat) :
  (Z.of_nat n < 2 ^ 53)%Z -> ToLength (of_Z (Z.of_nat n)) = n.
Proof.
  intros H. destruct n as [| n]; [reflexivity |].
  remember (Z.of_nat (S n)) as z eqn:Ez.
  destruct z as [| m | m]; try lia.
  assert (Hd : (Zpos (digits2_pos m) <= 53)%Z) by (apply digits2_bound; lia).
  rewrite of_Z_small by exact Hd.
  unfold ToLength.
  assert (Hs : Z.shiftl
                 (Zpos match (Zpos (digits2_pos m) - 53)%Z with
                       | Zneg k => Pos.iter xO m k
                       | _ => m
                       end)
                 (Zpos (digits2_pos m) - 53) = Zpos m).
  { destruct (Zpos (digits2_pos m) - 53)%Z as [| q | q] eqn:E; try lia.
    - reflexivity.
    - rewrite Z.shiftl_div_pow2 by lia.
      assert (Hi : Zpos (Pos.iter xO m q) = (Zpos m * 2 ^ Zpos q)%Z).
      { clear. induction q as [| q IH] using Pos.peano_ind.
        - simpl. lia.
        - rewrite Pos.iter_succ, Pos2Z.inj_succ, Z.pow_succ_r by lia.
          change (Zpos (Pos.iter xO m q)~0) with (2 * Zpos (Pos.iter xO m q))%Z.
          rewrite IH. lia. }
      rewrite Hi. change (- Zneg q)%Z with (Zpos q).
      apply Z.div_mul. apply Z.pow_nonzero; lia. }
  rewrite Hs. rewrite Z.min_r by lia. lia.
Qed.

(** The options a selector renders for [n] qubits are [0 .. n-1]. *)
Lemma indices_of_nat (n : nat) :
  (Z.of_nat n < 2 ^ 53)%Z ->
  indices (of_Z (Z.of_nat n)) = map (fun i => of_Z (Z.of_nat i)) (seq 0 n).
Proof.
  intros H. unfold indices. now rewrite ToLength_of_nat.
Qed.

End NumberFacts.

(* ===================================================================== *)
(** * Further properties of the application shell                          *)
(* ===================================================================== *)

Section AppMore.
Import JS App Aux.

(** The two ways a call of [processCircuit] that does not reject can
    go: it returns early, or it issues its one request and runs the
    [try] block to the end. *)
Lemma processCircuit_paths eng arg net st :
  rejected (processCircuit eng arg net st) = false ->
  processCircuit eng arg net st = quiet (setQuantumStates VNull st) \/
  processCircuit eng arg net st =
    {| after :=
         match received eng net with
         | inl message =>
             caught message (setError VNull (setIsLoading true st))
         | inr result =>
             setIsLoading false
               (setQuantumStates result
                  (setError VNull (setIsLoading true st)))
         end;
       sent := [post (circuit_argument arg st)];
       rejected := false |}.
Proof.
  unfold App.processCircuit.
  destruct (get (circuit_argument arg st) "gates") as [g |];
    [| discriminate].
  destruct (_ || _); intros _; [left | right]; reflexivity.
Qed.

(** A call issues no request and leaves [isLoading] and [error] alone,
    or issues its one request and ends with [isLoading] false. *)
Lemma processCircuit_request eng arg net st :
  (sent (processCircuit eng arg net st) = [] /\
   isLoading (after (processCircuit eng arg net st)) = isLoading st /\
   error (after (processCircuit eng arg net st)) = error st) \/
  (sent (processCircuit eng arg net st) = [post (circuit_argument arg st)] /\
   isLoading (after (processCircuit eng arg net st)) = false).
Proof.
  destruct (rejected (processCircuit eng arg net st)) eqn:Hr.
  - left. revert Hr. unfold App.processCircuit.
    destruct (get (circuit_argument arg st) "gates") as [g |];
      [| intros _; repeat split].
    destruct (_ || _); discriminate.
  - destruct (processCircuit_paths eng arg net st Hr) as [-> | ->].
    + left. repeat split.
    + right. split; [reflexivity |]. simpl.
      destruct (received eng net); reflexivity.
Qed.

(** X: a call issues at most one request, a POST to the processing
    endpoint whose body is the circuit it was called with; once the
    request is out, the call ends with [isLoading] false, whether the
    [try] block succeeded or threw; a call that issues no request leaves
    [isLoading] and [error] as they were. *)
Theorem processCircuit_one_request_spinner_cleared :
  forall (eng : engine) (arg : option value) (net : reply) (st : state),
    let r := processCircuit eng arg net st in
    (sent r = [] /\
     isLoading (after r) = isLoading st /\
     error (after r) = error st) \/
    (sent r = [post (circuit_argument arg st)] /\
     isLoading (after r) = false).
Proof.
  intros eng arg net st r. subst r. apply processCircuit_request.
Qed.

(** The cells [processCircuit] has no setter call for. *)
Lemma processCircuit_untouched eng arg net st :
  currentCircuit (after (processCircuit eng arg net st)) = currentCircuit st /\
  isAnimated (after (processCircuit eng arg net st)) = isAnimated st /\
  timeout (after (processCircuit eng arg net st)) = timeout st.
Proof.
  unfold App.processCircuit.
  destruct (get (circuit_argument arg st) "gates") as [g |];
    [| repeat split].
  destruct (_ || _); [repeat split |]. simpl.
  destruct (received eng net); repeat split.
Qed.

(** X: [processCircuit] never writes [currentCircuit], the animation
    flag or the debounce timer, whatever the reply. *)
Theorem processCircuit_frame :
  forall (eng : engine) (arg : option value) (net : reply) (st : state),
    let r := processCircuit eng arg net st in
    currentCircuit (after r) = currentCircuit st /\
    isAnimated (after r) = isAnimated st /\
    timeout (after r) = timeout st.
Proof.
  intros eng arg net st r. subst r. apply processCircuit_untouched.
Qed.

(** X: when the request went out and the response has a success status
    and a JSON body that is not [null] and has no truthy [error], the
    parsed body becomes [quantumStates], an error left by an earlier call
    is cleared, and [isLoading] is false. *)
Theorem processCircuit_success_stores_result :
  forall (eng : engine) (arg : option value) (status : number) (doc : json)
         (e : value) (st : state),
    let r := processCircuit eng arg (Response true status (Json doc)) st in
    sent r <> [] ->
    get (parse doc) "error" = Some e ->
    truthy e = false ->
    quantumStates (after r) = parse doc /\
    error (after r) = VNull /\
    isLoading (after r) = false.
Proof.
  intros eng arg status doc e st r Hsent He Ht. subst r.
  destruct (rejected (processCircuit eng arg (Response true status (Json doc)) st))
    eqn:Hr.
  - exfalso. apply Hsent. revert Hr. unfold App.processCircuit.
    destruct (get (circuit_argument arg st) "gates") as [g |];
      [| reflexivity].
    destruct (_ || _); discriminate.
  - destruct (processCircuit_paths _ _ _ _ Hr) as [E | E];
      rewrite E in Hsent |- *.
    + now contradiction Hsent.
    + simpl. rewrite He, Ht. repeat split.
Qed.

Lemma processCircuit_success_stores_result_witness :
  let doc := JObject [("num_qubits", JNumber (of_Z 2)); ("qubits", JArray [])] in
  let st := setError (VStr "Failed to process circuit: offline") initial in
  let r := processCircuit sample_engine (Some bell_value)
             (Response true (of_Z 200) (Json doc)) st in
  sent r <> [] /\
  get (parse doc) "error" = Some VUndefined /\
  truthy VUndefined = false /\
  quantumStates (after r) = parse doc /\
  error (after r) = VNull /\
  isLoading (after r) = false.
Proof.
  intros doc st r.
  assert (H1 : sent r <> []) by discriminate.
  assert (H2 : get (parse doc) "error" = Some VUndefined) by reflexivity.
  assert (H3 : truthy VUndefined = false) by reflexivity.
  exact (conj H1 (conj H2 (conj H3
    (processCircuit_success_stores_result sample_engine (Some bell_value)
       (of_Z 200) doc VUndefined st H1 H2 H3)))).
Defined.

End AppMore.

Section AppFlow.
Import JS App Aux.

(** A builder circuit with at least one gate is not taken for empty:
    [processCircuit] issues its request. *)
Lemma processCircuit_builder eng (c : CircuitBuilder.circuit) net st :
  CircuitBuilder.circuit_gates c <> [] ->
  (Z.of_nat (List.length (CircuitBuilder.circuit_gates c)) < 2 ^ 53)%Z ->
  processCircuit eng (Some (CircuitBuilder.circuit_value c)) net st =
    {| after :=
         match received eng net with
         | inl message =>
             caught message (setError VNull (setIsLoading true st))
         | inr result =>
             setIsLoading false
               (setQuantumStates result
                  (setError VNull (setIsLoading true st)))
         end;
       sent := [post (CircuitBuilder.circuit_value c)];
       rejected := false |}.
Proof.
  intros Hne Hlen. unfold App.processCircuit.
  assert (Hg : get (circuit_argument (Some (CircuitBuilder.circuit_value c)) st)
                 "gates" = Some (VArr (CircuitBuilder.circuit_gates c)))
    by reflexivity.
  assert (Hl : get (VArr (CircuitBuilder.circuit_gates c)) "length" =
               Some (VNum (of_Z (Z.of_nat
                        (List.length (CircuitBuilder.circuit_gates c))))))
    by reflexivity.
  cbv zeta. rewrite Hg, Hl. cbn [truthy negb orb].
  rewrite length_not_zero; [reflexivity | | exact Hlen].
  destruct (CircuitBuilder.circuit_gates c); [contradiction | simpl; lia].
Qed.

(** X: debouncing.  When two circuit changes arrive before the timer
    expires and the second circuit has gates, the timer issues exactly one
    request, for the second circuit; the first is never sent; the timer is
    then disarmed, so that a further expiry does nothing. *)
Theorem debounce_last_change_wins :
  forall (eng : engine) (c1 c2 : CircuitBuilder.circuit)
         (net net' : reply) (st : state),
    CircuitBuilder.circuit_gates c2 <> [] ->
    (Z.of_nat (List.length (CircuitBuilder.circuit_gates c2)) < 2 ^ 53)%Z ->
    let st2 := after (handleCircuitChange c2
                        (after (handleCircuitChange c1 st))) in
    let r := timerFired eng net st2 in
    sent (handleCircuitChange c1 st) = [] /\
    sent (handleCircuitChange c2 (after (handleCircuitChange c1 st))) = [] /\
    sent r = [post (CircuitBuilder.circuit_value c2)] /\
    currentCircuit (after r) = CircuitBuilder.circuit_value c2 /\
    timeout (after r) = None /\
    timerFired eng net' (after r) = quiet (after r).
Proof.
  intros eng c1 c2 net net' st Hne Hlen st2 r.
  assert (Ht : timeout st2 = Some (CircuitBuilder.circuit_value c2)).
  { unfold st2, handleCircuitChange at 1.
    destruct (CircuitBuilder.circuit_gates c2); [contradiction |].
    reflexivity. }
  assert (Hc : currentCircuit st2 = CircuitBuilder.circuit_value c2).
  { unfold st2, handleCircuitChange at 1.
    destruct (Nat.ltb _ _); reflexivity. }
  assert (Hr : r = processCircuit eng (Some (CircuitBuilder.circuit_value c2))
                     net (setTimeout None st2)).
  { unfold r, App.timerFired. now rewrite Ht. }
  assert (Hq : forall c s, sent (handleCircuitChange c s) = []).
  { intros c s. unfold handleCircuitChange.
    destruct (Nat.ltb _ _); reflexivity. }
  pose proof (processCircuit_untouched eng
                (Some (CircuitBuilder.circuit_value c2)) net
                (setTimeout None st2)) as (F1 & _ & F3).
  rewrite <- Hr in F1, F3.
  split; [apply Hq |]. split; [apply Hq |]. split; [| split; [| split]].
  - rewrite Hr, processCircuit_builder by assumption. reflexivity.
  - rewrite F1. exact Hc.
  - rewrite F3. reflexivity.
  - unfold App.timerFired. rewrite F3. reflexivity.
Qed.

Lemma debounce_last_change_wins_witness :
  let c1 := CircuitBuilder.currentCircuit
              (CircuitBuilder.loadExampleCircuit "bell" CircuitBuilder.initial) in
  let c2 := CircuitBuilder.currentCircuit
              (CircuitBuilder.loadExampleCircuit "ghz" CircuitBuilder.initial) in
  let net := Response true (of_Z 200) (Json (JObject [])) in
  let st2 := after (handleCircuitChange c2
                      (after (handleCircuitChange c1 initial))) in
  let r := timerFired sample_engine net st2 in
  CircuitBuilder.circuit_gates c2 <> [] /\
  (Z.of_nat (List.length (CircuitBuilder.circuit_gates c2)) < 2 ^ 53)%Z /\
  sent (handleCircuitChange c1 initial) = [] /\
  sent (handleCircuitChange c2 (after (handleCircuitChange c1 initial))) = [] /\
  sent r = [post (CircuitBuilder.circuit_value c2)] /\
  currentCircuit (after r) = CircuitBuilder.circuit_value c2 /\
  timeout (after r) = None /\
  timerFired sample_engine net (after r) = quiet (after r).
Proof.
  intros c1 c2 net st2 r.
  assert (H1 : CircuitBuilder.circuit_gates c2 <> []) by discriminate.
  assert (H2 : (Z.of_nat (List.length (CircuitBuilder.circuit_gates c2))
                < 2 ^ 53)%Z) by reflexivity.
  exact (conj H1 (conj H2
    (debounce_last_change_wins sample_engine c1 c2 net net initial H1 H2))).
Defined.

(** X: clearing does not disarm.  When a circuit with gates is followed,
    before the timer expires, by a circuit without gates, the handler
    clears [quantumStates] but leaves the timer armed: the request for
    the earlier circuit still goes out, and on success its result is
    stored although the current circuit has no gates. *)
Theorem cleared_circuit_still_processed :
  forall (eng : engine) (c1 c2 : CircuitBuilder.circuit)
         (net : reply) (st : state),
    CircuitBuilder.circuit_gates c1 <> [] ->
    (Z.of_nat (List.length (CircuitBuilder.circuit_gates c1)) < 2 ^ 53)%Z ->
    CircuitBuilder.circuit_gates c2 = [] ->
    let st2 := after (handleCircuitChange c2
                        (after (handleCircuitChange c1 st))) in
    let r := timerFired eng net st2 in
    quantumStates st2 = VNull /\
    currentCircuit st2 = CircuitBuilder.circuit_value c2 /\
    sent r = [post (CircuitBuilder.circuit_value c1)] /\
    currentCircuit (after r) = CircuitBuilder.circuit_value c2 /\
    (forall result, received eng net = inr result ->
                    quantumStates (after r) = result).
Proof.
  intros eng c1 c2 net st Hne Hlen Hempty st2 r.
  assert (Hst2 : st2 =
            setQuantumStates VNull
              (setCurrentCircuit (CircuitBuilder.circuit_value c2)
                 (setTimeout (Some (CircuitBuilder.circuit_value c1))
                    (setCurrentCircuit (CircuitBuilder.circuit_value c1) st)))).
  { unfold st2, handleCircuitChange. rewrite Hempty.
    destruct (CircuitBuilder.circuit_gates c1); [contradiction |].
    reflexivity. }
  assert (Hr : r = processCircuit eng (Some (CircuitBuilder.circuit_value c1))
                     net (setTimeout None st2)).
  { unfold r, App.timerFired. rewrite Hst2. reflexivity. }
  split; [now rewrite Hst2 |]. split; [now rewrite Hst2 |].
  rewrite Hr, processCircuit_builder by assumption.
  split; [reflexivity |]. split.
  - simpl. destruct (received eng net); rewrite Hst2; reflexivity.
  - intros result ->. reflexivity.
Qed.

Lemma cleared_circuit_still_processed_witness :
  let c1 := CircuitBuilder.currentCircuit
              (CircuitBuilder.loadExampleCircuit "bell" CircuitBuilder.initial) in
  let c2 := CircuitBuilder.currentCircuit
              (CircuitBuilder.clearCircuit
                 (CircuitBuilder.loadExampleCircuit "bell"
                    CircuitBuilder.initial)) in
  let net := Response true (of_Z 200)
               (Json (JObject [("num_qubits", JNumber (of_Z 2));
                               ("qubits", JArray [])])) in
  let st2 := after (handleCircuitChange c2
                      (after (handleCircuitChange c1 initial))) in
  let r := timerFired sample_engine net st2 in
  CircuitBuilder.circuit_gates c1 <> [] /\
  (Z.of_nat (List.length (CircuitBuilder.circuit_gates c1)) < 2 ^ 53)%Z /\
  CircuitBuilder.circuit_gates c2 = [] /\
  quantumStates st2 = VNull /\
  currentCircuit st2 = CircuitBuilder.circuit_value c2 /\
  sent r = [post (CircuitBuilder.circuit_value c1)] /\
  currentCircuit (after r) = CircuitBuilder.circuit_value c2 /\
  (forall result, received sample_engine net = inr result ->
                  quantumStates (after r) = result).
Proof.
  intros c1 c2 net st2 r.
  assert (H1 : CircuitBuilder.circuit_gates c1 <> []) by discriminate.
  assert (H2 : (Z.of_nat (List.length (CircuitBuilder.circuit_gates c1))
                < 2 ^ 53)%Z) by reflexivity.
  assert (H3 : CircuitBuilder.circuit_gates c2 = []) by reflexivity.
  exact (conj H1 (conj H2 (conj H3
    (cleared_circuit_still_processed sample_engine c1 c2 net initial
       H1 H2 H3)))).
Defined.

(** X: [importCircuit] performs no check on what it read.  Whatever
    value the JSON text denotes becomes the current circuit; a request,
    if one is issued, carries that value; and when the value has no
    [gates] to read (the text [null]), the rejection of [processCircuit]
    is dropped: nothing is sent and no error is recorded.  Without a file
    nothing happens. *)
Theorem importCircuit_stores_any_json :
  forall (eng : engine) (doc : json) (net : reply) (st : state),
    let r := importCircuit eng (Some (JsonText doc)) net st in
    currentCircuit (after r) = parse doc /\
    rejected r = false /\
    (forall req, In req (sent r) -> req = post (parse doc)) /\
    (get (parse doc) "gates" = None ->
     r = quiet (setCurrentCircuit (parse doc) st)) /\
    importCircuit eng None net st = quiet st.
Proof.
  intros eng doc net st r. subst r. unfold App.importCircuit. simpl.
  assert (Harg : forall s, circuit_argument (Some (parse doc)) s = parse doc).
  { intros s. unfold circuit_argument.
    pose proof (parse_defined doc). now destruct (parse doc). }
  split; [now rewrite processCircuit_currentCircuit |].
  split; [reflexivity |]. split; [| split; [| reflexivity]].
  - intros req Hin.
    pose proof (processCircuit_request eng
                  (Some (parse doc)) net (setCurrentCircuit (parse doc) st))
      as [(E & _) | (E & _)]; rewrite E in Hin.
    + contradiction.
    + destruct Hin as [<- | []]. now rewrite Harg.
  - intros Hg. unfold App.processCircuit. rewrite Harg, Hg. reflexivity.
Qed.

Lemma importCircuit_stores_any_json_witness :
  let r := importCircuit sample_engine (Some (JsonText JNull))
             (NetworkFailure "offline") initial in
  get (parse JNull) "gates" = None /\
  currentCircuit (after r) = parse JNull /\
  rejected r = false /\
  (forall req, In req (sent r) -> req = post (parse JNull)) /\
  (get (parse JNull) "gates" = None ->
   r = quiet (setCurrentCircuit (parse JNull) initial)) /\
  importCircuit sample_engine None (NetworkFailure "offline") initial
    = quiet initial.
Proof.
  intros r.
  assert (H : get (parse JNull) "gates" = None) by reflexivity.
  exact (conj H (importCircuit_stores_any_json sample_engine JNull
                   (NetworkFailure "offline") initial)).
Defined.

End AppFlow.

Section ExportFacts.
Import JS App Aux.

(** Only [undefined] prints as nothing. *)
Lemma stringify_none (v : value) : stringify v = None -> v = VUndefined.
Proof. destruct v; simpl; congruence. Qed.

(** What [JSON.stringify] prints reads back as a value that JSON can
    denote and that prints the same again. *)
Lemma stringify_stable (v : value) :
  well_formed v = true ->
  forall doc, stringify v = Some doc ->
              json_safe (parse doc) = true /\ stringify (parse doc) = Some doc.
Proof.
  induction v as [| | b | n | s | items IH | props IH] using value_rect_deep;
    simpl; intros Hw doc Hd; try discriminate;
    try (injection Hd as <-; split; reflexivity).
  - injection Hd as <-. unfold stringify_number.
    destruct n as [[] | [] | | [] ? ?]; split; reflexivity.
  - injection Hd as <-. simpl. rewrite !map_map.
    induction IH as [| x xs Hx _ IHxs]; [split; reflexivity |].
    simpl in Hw. apply andb_true_iff in Hw as [Hwx Hwxs].
    destruct (IHxs Hwxs) as [S1 S2]. simpl in S2. injection S2 as S2.
    simpl.
    destruct (stringify x) as [j |] eqn:Ex.
    + destruct (Hx Hwx j eq_refl) as [Sx1 Sx2].
      rewrite Sx1, Sx2, S1, S2. split; reflexivity.
    + simpl. rewrite S1, S2. split; reflexivity.
  - apply andb_true_iff in Hw as [Hk Hw]. injection Hd as <-.
    set (members := fix members (ps : list (string * value)) :=
           match ps with
           | [] => []
           | (k, x) :: rest =>
               match stringify x with
               | Some j => (k, j) :: members rest
               | None => members rest
               end
           end).
    assert (Hsub : forall ps k, In k (map fst (members ps)) -> In k (map fst ps)).
    { induction ps as [| [k x] ps IHps]; intros k' Hin; [exact Hin |].
      simpl in Hin |- *. destruct (stringify x); simpl in Hin; intuition. }
    assert (Hdist : forall ps, distinct (map fst ps) = true ->
                               distinct (map fst (members ps)) = true).
    { induction ps as [| [k x] ps IHps]; intros Hd; [reflexivity |].
      simpl in Hd |- *. apply andb_true_iff in Hd as [Hk1 Hd2].
      destruct (stringify x); [| now apply IHps].
      simpl. rewrite IHps by exact Hd2. rewrite andb_true_r.
      apply negb_true_iff. apply negb_true_iff in Hk1.
      destruct (existsb (String.eqb k) (map fst (members ps))) eqn:Ee;
        [| reflexivity].
      apply existsb_exists in Ee as (k' & Hin & Heq).
      apply String.eqb_eq in Heq. subst k'.
      apply Hsub in Hin.
      assert (existsb (String.eqb k) (map fst ps) = true).
      { apply existsb_exists. exists k. split; [exact Hin |].
        apply String.eqb_refl. }
      congruence. }
    assert (Hmem : forall ps,
               Forall (fun kv =>
                         well_formed (snd kv) = true ->
                         forall doc, stringify (snd kv) = Some doc ->
                           json_safe (parse doc) = true /\
                           stringify (parse doc) = Some doc) ps ->
               forallb (fun kv => well_formed (snd kv)) ps = true ->
               forallb (fun kv => json_safe (snd kv))
                 (map (fun kv => (fst kv, parse (snd kv))) (members ps)) = true /\
               members (map (fun kv => (fst kv, parse (snd kv))) (members ps))
                 = members ps).
    { induction 1 as [| [k x] ps Hx _ IHps]; intros Hws; [split; reflexivity |].
      simpl in Hws. apply andb_true_iff in Hws as [Hwx Hwps].
      destruct (IHps Hwps) as [S1 S2]. simpl.
      destruct (stringify x) as [j |] eqn:Ex; [| split; assumption].
      destruct (Hx Hwx j Ex) as [Sx1 Sx2]. simpl.
      rewrite Sx1, Sx2, S1, S2. split; reflexivity. }
    destruct (Hmem props IH Hw) as [M1 M2].
    assert (Hkeys : map fst (map (fun kv : string * json =>
                                    (fst kv, parse (snd kv))) (members props))
                    = map fst (members props)).
    { rewrite map_map. reflexivity. }
    simpl. fold members.
    rewrite define_all_distinct by (rewrite Hkeys; now apply Hdist).
    simpl. fold members. rewrite Hkeys, (Hdist props Hk), M1, M2.
    split; reflexivity.
Qed.

(** One trip through a file normalises the circuit: what is read back
    can be denoted by JSON and is exported as the same file. *)
Lemma export_after_import eng st st2 net :
  well_formed (currentCircuit st) = true ->
  currentCircuit st <> VUndefined ->
  json_safe (currentCircuit
               (after (importCircuit eng (Some (exportCircuit st)) net st2)))
    = true /\
  exportCircuit (after (importCircuit eng (Some (exportCircuit st)) net st2))
    = exportCircuit st.
Proof.
  intros Hw Hu.
  destruct (stringify (currentCircuit st)) as [doc |] eqn:Hd;
    [| apply stringify_none in Hd; contradiction].
  destruct (stringify_stable _ Hw doc Hd) as [S1 S2].
  assert (He : exportCircuit st = JsonText doc)
    by (unfold exportCircuit; now rewrite Hd).
  assert (Hc : currentCircuit
                 (after (importCircuit eng (Some (JsonText doc)) net st2))
               = parse doc).
  { unfold App.importCircuit. simpl. now rewrite processCircuit_currentCircuit. }
  rewrite He. split.
  - now rewrite Hc.
  - unfold exportCircuit at 1. now rewrite Hc, S2.
Qed.

(** X: exporting is stable after one trip.  For every current circuit
    other than [undefined] (with no property listed twice), importing the
    exported file leaves a current circuit that JSON can denote and whose
    export is the very same file, even when the original circuit held
    values that the file cannot carry. *)
Theorem export_stable_after_one_trip :
  forall (eng : engine) (st st2 : state) (net : reply),
    well_formed (currentCircuit st) = true ->
    currentCircuit st <> VUndefined ->
    let st' := after (importCircuit eng (Some (exportCircuit st)) net st2) in
    json_safe (currentCircuit st') = true /\
    exportCircuit st' = exportCircuit st.
Proof.
  intros eng st st2 net Hw Hu st'. now apply export_after_import.
Qed.

Lemma export_stable_after_one_trip_witness :
  let st := setCurrentCircuit infinite_angle_circuit initial in
  let net := Response true (of_Z 200) (Json (JObject [])) in
  let st' := after (importCircuit sample_engine (Some (exportCircuit st))
                      net initial) in
  well_formed (currentCircuit st) = true /\
  currentCircuit st <> VUndefined /\
  json_safe (currentCircuit st') = true /\
  exportCircuit st' = exportCircuit st.
Proof.
  intros st net st'.
  assert (H1 : well_formed (currentCircuit st) = true) by reflexivity.
  assert (H2 : currentCircuit st <> VUndefined) by discriminate.
  exact (conj H1 (conj H2
    (export_stable_after_one_trip sample_engine st initial net H1 H2))).
Defined.

End ExportFacts.

(* ===================================================================== *)
(** * Further properties of the circuit builder                            *)
(* ===================================================================== *)

Section BuilderMore.
Import JS CircuitBuilder Aux.

(** [removeGate] in terms of the list before and after [index]. *)
Lemma removeGate_split (s : state) (index : nat) :
  removeGate index s =
  setGates (firstn index (gates s) ++ skipn (S index) (gates s)) s.
Proof.
  unfold removeGate. f_equal. exact (filter_index_drop (gates s) 0 index).
Qed.

(** X: [removeGate] at or past the end of the list changes nothing;
    inside the list it shortens the list by one, keeps the gates before
    [index] where they were and moves each later gate one place down. *)
Theorem removeGate_bounds :
  forall (s : state) (index : nat),
    (List.length (gates s) <= index -> removeGate index s = s) /\
    (index < List.length (gates s) ->
     List.length (gates (removeGate index s)) = List.length (gates s) - 1 /\
     (forall j, j < index ->
                nth_error (gates (removeGate index s)) j = nth_error (gates s) j) /\
     (forall j, index <= j ->
                nth_error (gates (removeGate index s)) j =
                nth_error (gates s) (S j))).
Proof.
  intros s index. rewrite removeGate_split. split.
  - intros Hle.
    rewrite firstn_all2, skipn_all2, app_nil_r by lia.
    now destruct s.
  - intros Hlt. cbn [gates setGates]. split; [| split].
    + rewrite length_app, length_firstn, length_skipn. lia.
    + intros j Hj. rewrite nth_error_app1 by (rewrite length_firstn; lia).
      rewrite nth_error_firstn.
      now replace (Nat.ltb j index) with true
        by (symmetry; apply Nat.ltb_lt; lia).
    + intros j Hj. rewrite nth_error_app2 by (rewrite length_firstn; lia).
      rewrite length_firstn, Nat.min_l by lia.
      rewrite nth_error_skipn. f_equal. lia.
Qed.

Lemma removeGate_bounds_witness :
  let s := loadExampleCircuit "ghz" initial in
  (List.length (gates s) <= 3 -> removeGate 3 s = s) /\
  (1 < List.length (gates s) ->
   List.length (gates (removeGate 1 s)) = List.length (gates s) - 1 /\
   (forall j, j < 1 ->
              nth_error (gates (removeGate 1 s)) j = nth_error (gates s) j) /\
   (forall j, 1 <= j ->
              nth_error (gates (removeGate 1 s)) j =
              nth_error (gates s) (S j))).
Proof.
  intros s.
  exact (conj (proj1 (removeGate_bounds s 3)) (proj2 (removeGate_bounds s 1))).
Defined.

(** X: adding a gate and then clicking it away restores the state: when
    [addGate] appended a gate, [removeGate] at the position it was given
    (the old length of the list) gives back the state before the call. *)
Theorem addGate_then_removeGate :
  forall (s s' : state),
    addGate s = Some (s', None) ->
    removeGate (List.length (gates s)) s' = s.
Proof.
  intros s s' Hadd.
  assert (Happ : exists g, s' = setGates (gates s ++ [g]) s).
  { destruct (addGate_cases _ _ Hadd)
      as [(info & _ & _ & [= -> ]) | [(info & _ & _ & _ & [= _ E])
                                     | (info & _ & _ & _ & [= ->])]];
      try discriminate; eexists; reflexivity. }
  destruct Happ as (g & ->).
  rewrite removeGate_split. cbn [gates setGates].
  assert (F : firstn (List.length (gates s)) (gates s ++ [g]) = gates s).
  { rewrite firstn_app, Nat.sub_diag, firstn_all. apply app_nil_r. }
  assert (K : skipn (S (List.length (gates s))) (gates s ++ [g]) = []).
  { apply skipn_all2. rewrite length_app. simpl. lia. }
  rewrite F, K, app_nil_r. now destruct s.
Qed.

Lemma addGate_then_removeGate_witness :
  let s := setSelectedGate "cz" (loadExampleCircuit "bell" initial) in
  let s' :=
    setGates (gates s ++
      [VObj [("type", VStr "cz"); ("control", VNum (of_Z 0));
             ("target", VNum (of_Z 1))]]) s in
  addGate s = Some (s', None) /\
  removeGate (List.length (gates s)) s' = s.
Proof.
  intros s s'.
  assert (H : addGate s = Some (s', None)) by reflexivity.
  exact (conj H (addGate_then_removeGate s s' H)).
Defined.

(** The gate selected is always a key of the catalog. *)
Lemma reachable_selectedGate P s :
  reachable P s -> In (selectedGate s) (map fst availableGates).
Proof.
  induction 1 as [| s s' e _ IH Hd _ Hh]; [simpl; tauto |].
  destruct e; simpl in Hh;
    try (injection Hh as <-; exact IH).
  - injection Hh as <-. exact Hd.
  - destruct (addGate s) as [[s1 a] |] eqn:E; [| discriminate].
    simpl in Hh. injection Hh as <-.
    destruct (addGate_cases _ _ E)
      as [(? & _ & _ & [= -> _]) | [(? & _ & _ & _ & [= -> _])
                                   | (? & _ & _ & _ & [= -> _])]];
      exact IH.
  - injection Hh as <-. unfold loadExampleCircuit.
    destruct (lookup example examples); exact IH.
  - unfold syncInitialCircuit in Hh.
    destruct (truthy initialCircuit); [| injection Hh as <-; exact IH].
    destruct (get initialCircuit "num_qubits") as [[] |]; try discriminate.
    destruct (get initialCircuit "gates") as [g |]; try discriminate.
    destruct (truthy g); [destruct g; try discriminate |];
      injection Hh as <-; exact IH.
Qed.

Lemma lookup_In {A} (k : string) (ps : list (string * A)) :
  In k (map fst ps) -> exists v, lookup k ps = Some v.
Proof.
  induction ps as [| [k' v'] ps IH]; simpl; [tauto |].
  intros [-> | Hin].
  - rewrite String.eqb_refl. eauto.
  - destruct (String.eqb k k'); eauto.
Qed.


(** X: in every state the builder can reach, whatever circuits the
    parent hands down, [addGate] runs without a [TypeError], and so does
    the handler of every event the page can deliver other than a new
    initial circuit. *)
Theorem builder_events_never_throw :
  forall (P : value -> Prop) (s : state) (e : event),
    reachable P s ->
    deliverable s e ->
    (forall c, e <> InitialCircuitChanged c) ->
    (exists r, addGate s = Some r) /\
    (exists s', handle e s = Some s').
Proof.
  intros P s e Hr Hd Hne.
  assert (Ha : exists r, addGate s = Some r).
  { destruct (lookup_In _ _ (reachable_selectedGate P s Hr)) as (info & Hl).
    unfold addGate. rewrite Hl.
    destruct (String.eqb (type info) "single"); [eauto |].
    destruct (String.eqb (type info) "two"); [| eauto].
    destruct (num_eq _ _); eauto. }
  split; [exact Ha |].
  destruct e; simpl; eauto.
  - destruct Ha as (r & ->). simpl. eauto.
  - now contradiction (Hne initialCircuit).
Qed.

Lemma builder_events_never_throw_witness :
  let s := setSelectedGate "cx" initial in
  reachable (fun _ => True) s /\
  deliverable s AddGateClicked /\
  (forall c, AddGateClicked <> InitialCircuitChanged c) /\
  (exists r, addGate s = Some r) /\
  (exists s', handle AddGateClicked s = Some s').
Proof.
  intros s.
  assert (Hr : reachable (fun _ => True) s).
  { apply (reach_step _ initial s (GateChanged "cx")).
    - apply reach_initial.
    - simpl. tauto.
    - intros c H. exact I.
    - reflexivity. }
  assert (Hd : deliverable s AddGateClicked) by exact I.
  assert (Hne : forall c, AddGateClicked <> InitialCircuitChanged c)
    by (intros c; discriminate).
  exact (conj Hr (conj Hd (conj Hne
           (builder_events_never_throw _ s AddGateClicked Hr Hd Hne)))).
Defined.

End BuilderMore.

Section BuilderInvariants.
Import JS CircuitBuilder Aux.

(** In every state the builder reaches, no gate of the list has a
    control [===] its target, provided the circuits handed down by the
    parent have none. *)
Lemma reachable_ends s :
  reachable ends_differ_in s -> forallb ends_differ (gates s) = true.
Proof.
  induction 1 as [| s s' e _ IH Hd HP Hh]; [reflexivity |].
  destruct e; simpl in Hh, Hd;
    try (injection Hh as <-; exact IH).
  - destruct (addGate s) as [[s1 a] |] eqn:E; [| discriminate].
    simpl in Hh. injection Hh as <-.
    destruct (addGate_cases _ _ E)
      as [(info & _ & _ & [= -> _]) | [(info & _ & _ & _ & [= -> _])
                                      | (info & _ & _ & Hne & [= -> _])]];
      try exact IH; simpl; rewrite forallb_app, IH; simpl.
    + now destruct (hasAngle info).
    + unfold ends_differ. simpl. now rewrite Hne.
  - injection Hh as <-. reflexivity.
  - injection Hh as <-.
    destruct Hd as [<- | [<- | [<- | []]]]; reflexivity.
  - injection Hh as <-. simpl. now apply filter_index_forallb.
  - specialize (HP _ eq_refl). unfold ends_differ_in in HP.
    unfold syncInitialCircuit in Hh.
    destruct (truthy initialCircuit); [| injection Hh as <-; exact IH].
    destruct (get initialCircuit "num_qubits") as [[] |]; try discriminate.
    destruct (get initialCircuit "gates") as [g |]; try discriminate.
    destruct (truthy g); [destruct g; try discriminate |];
      injection Hh as <-; simpl; auto.
Qed.

(** X: the rule of [addGate] holds of the whole list.  In every state
    reached through the builder's controls (adding, removing, clearing,
    loading an example), from initial circuits that have no such gate, no
    gate of the list has a control [===] its target. *)
Theorem no_gate_with_equal_ends :
  forall (s : state) (g : value) (c t : number),
    reachable ends_differ_in s ->
    In g (gates s) ->
    own g "control" = Some (VNum c) ->
    own g "target" = Some (VNum t) ->
    num_eq c t = false.
Proof.
  intros s g c t Hr Hin Hc Ht.
  pose proof (reachable_ends s Hr) as Hall.
  rewrite forallb_forall in Hall. specialize (Hall g Hin).
  unfold ends_differ in Hall. rewrite Hc, Ht in Hall.
  now apply negb_true_iff.
Qed.

Lemma no_gate_with_equal_ends_witness :
  let s := removeGate 0 (loadExampleCircuit "ghz" initial) in
  let g := VObj [("type", VStr "cx"); ("control", VNum (of_Z 1));
                 ("target", VNum (of_Z 2))] in
  reachable ends_differ_in s /\
  In g (gates s) /\
  own g "control" = Some (VNum (of_Z 1)) /\
  own g "target" = Some (VNum (of_Z 2)) /\
  num_eq (of_Z 1) (of_Z 2) = false.
Proof.
  intros s g.
  assert (Hr : reachable ends_differ_in s).
  { apply (reach_step _ (loadExampleCircuit "ghz" initial) s (GateClicked 0)).
    - apply (reach_step _ initial _ (ExampleClicked "ghz")).
      + apply reach_initial.
      + simpl. tauto.
      + intros c H. discriminate H.
      + reflexivity.
    - exact I.
    - intros c H. discriminate H.
    - reflexivity. }
  assert (Hin : In g (gates s)) by (simpl; tauto).
  assert (Hc : own g "control" = Some (VNum (of_Z 1))) by reflexivity.
  assert (Ht : own g "target" = Some (VNum (of_Z 2))) by reflexivity.
  exact (conj Hr (conj Hin (conj Hc (conj Ht
           (no_gate_with_equal_ends s g _ _ Hr Hin Hc Ht))))).
Defined.




End BuilderInvariants.

(* ===================================================================== *)
(** * Properties of the example loader                                     *)
(* ===================================================================== *)

Section LoaderFacts.
Import JS App Aux Loader.

(** X: when the listing cannot be fetched or its body cannot be read,
    [loadExampleCircuit] records [Failed to load example: ] followed by
    the message and changes nothing else; only the listing was asked
    for. *)
Theorem loadExampleCircuit_listing_failure :
  forall (eng : engine) (cru : string -> string) (name : example)
         (listing net : reply) (st : state) (message : string),
    listing = NetworkFailure message \/
    (exists ok status, listing = Response ok status (Unreadable message)) ->
    let r := loadExampleCircuit eng cru name listing net st in
    after r =
      setError (VStr ("Failed to load example: " ++ message)%string) st /\
    currentCircuit (after r) = currentCircuit st /\
    quantumStates (after r) = quantumStates st /\
    sent r = [listing_request].
Proof.
  intros eng cru name listing net st message H r. subst r.
  destruct H as [-> | (ok & status & ->)]; repeat split.
Qed.

Lemma loadExampleCircuit_listing_failure_witness :
  let listing := Response false (of_Z 502) (Unreadable "Unexpected token <") in
  let net := NetworkFailure "offline" in
  let r := loadExampleCircuit sample_engine (fun k => k) ghz_state listing net
             initial in
  (listing = NetworkFailure "Unexpected token <" \/
   (exists ok status,
      listing = Response ok status (Unreadable "Unexpected token <"))) /\
  after r =
    setError (VStr "Failed to load example: Unexpected token <") initial /\
  currentCircuit (after r) = currentCircuit initial /\
  quantumStates (after r) = quantumStates initial /\
  sent r = [listing_request].
Proof.
  intros listing net r.
  assert (H : listing = NetworkFailure "Unexpected token <" \/
              (exists ok status,
                 listing = Response ok status (Unreadable "Unexpected token <")))
    by (right; eexists; eexists; reflexivity).
  exact (conj H (loadExampleCircuit_listing_failure sample_engine (fun k => k)
                   ghz_state listing net initial _ H)).
Defined.



(** The state and requests of a load that found its entry. *)
Lemma loadExampleCircuit_found eng cru name ok status doc entry circuit net st :
  get (parse doc) (example_key name) = Some entry ->
  truthy entry = true ->
  get entry "circuit" = Some circuit ->
  let called := circuit_argument (Some circuit) st in
  let p := processCircuit eng (Some called) net (setCurrentCircuit circuit st) in
  loadExampleCircuit eng cru name (Response ok status (Json doc)) net st =
    if rejected p
    then {| after := load_failed (gates_unreadable eng cru called) (after p);
            sent := [listing_request]; rejected := false |}
    else {| after := after p; sent := listing_request :: sent p;
            rejected := false |}.
Proof.
  intros Hg Ht Hc called p. unfold loadExampleCircuit.
  rewrite Hg, Ht, Hc. reflexivity.
Qed.

(** X: the load is not atomic.  When the listing has a truthy entry
    under the name, the entry's [circuit] becomes the current circuit
    whatever happens next: whether processing succeeds, fails, or cannot
    start because the value is [null]; in that last case the message is
    [Failed to load example: ...] and nothing but the listing was
    requested. *)
Theorem loadExampleCircuit_replaces_circuit_first :
  forall (eng : engine) (cru : string -> string) (name : example)
         (ok : bool) (status : number) (doc : json) (entry circuit : value)
         (net : reply) (st : state),
    get (parse doc) (example_key name) = Some entry ->
    truthy entry = true ->
    get entry "circuit" = Some circuit ->
    let r := loadExampleCircuit eng cru name
               (Response ok status (Json doc)) net st in
    currentCircuit (after r) = circuit /\
    (circuit = VNull ->
     after r =
       setError (VStr ("Failed to load example: " ++
                       cannotRead eng "gates")%string)
         (setCurrentCircuit VNull st) /\
     sent r = [listing_request]) /\
    (forall message,
       circuit <> VUndefined ->
       In (post circuit) (sent r) ->
       received eng net = inl message ->
       error (after r) =
         VStr ("Failed to process circuit: " ++ message)%string).
Proof.
  intros eng cru name ok status doc entry circuit net st Hg Ht Hc r. subst r.
  rewrite (loadExampleCircuit_found _ _ _ _ _ _ _ _ _ _ Hg Ht Hc).
  set (called := circuit_argument (Some circuit) st).
  set (p := processCircuit eng (Some called) net (setCurrentCircuit circuit st)).
  pose proof (processCircuit_untouched eng (Some called) net
                (setCurrentCircuit circuit st)) as (F & _).
  fold p in F.
  split; [| split].
  - destruct (rejected p); simpl; exact F.
  - intros ->. subst p called. simpl. split; reflexivity.
  - intros message Hu Hin Hm.
    assert (Hcalled : called = circuit)
      by (subst called; now destruct circuit).
    destruct (rejected p) eqn:Hr.
    + simpl in Hin. destruct Hin as [Hin | []]. discriminate Hin.
    + simpl in Hin |- *.
      destruct (processCircuit_paths eng (Some called) net
                  (setCurrentCircuit circuit st) Hr) as [E | E];
        fold p in E; rewrite E in Hin |- *; simpl in Hin |- *.
      * destruct Hin as [Hin | []]. discriminate Hin.
      * rewrite Hm. reflexivity.
Qed.

Lemma loadExampleCircuit_replaces_circuit_first_witness :
  let doc := JObject [("bell_state", JObject [("circuit", JNull)])] in
  let entry := VObj [("circuit", VNull)] in
  let net := NetworkFailure "offline" in
  let r := loadExampleCircuit sample_engine (fun k => k) bell_state
             (Response true (of_Z 200) (Json doc)) net initial in
  get (parse doc) (example_key bell_state) = Some entry /\
  truthy entry = true /\
  get entry "circuit" = Some VNull /\
  currentCircuit (after r) = VNull /\
  (VNull = VNull ->
   after r =
     setError (VStr ("Failed to load example: " ++
                     cannotRead sample_engine "gates")%string)
       (setCurrentCircuit VNull initial) /\
   sent r = [listing_request]) /\
  (forall message,
     VNull <> VUndefined ->
     In (post VNull) (sent r) ->
     received sample_engine net = inl message ->
     error (after r) = VStr ("Failed to process circuit: " ++ message)%string).
Proof.
  intros doc entry net r.
  assert (H1 : get (parse doc) (example_key bell_state) = Some entry)
    by reflexivity.
  assert (H2 : truthy entry = true) by reflexivity.
  assert (H3 : get entry "circuit" = Some VNull) by reflexivity.
  exact (conj H1 (conj H2 (conj H3
    (loadExampleCircuit_replaces_circuit_first sample_engine (fun k => k)
       bell_state true (of_Z 200) doc entry VNull net initial H1 H2 H3)))).
Defined.

(** X: an entry without a [circuit].  When the entry found has no
    [circuit] property, the current circuit becomes [undefined], while
    the processing call falls back on the circuit that was current when
    the button was clicked: a request, if one goes out, is for that
    earlier circuit.  The state left behind cannot be exported and read
    back: the file holds the text [undefined], which [importCircuit]
    refuses. *)
Theorem loadExampleCircuit_entry_without_circuit :
  forall (eng : engine) (cru : string -> string) (name : example)
         (ok : bool) (status : number) (doc : json) (entry : value)
         (net net' : reply) (st st2 : state),
    get (parse doc) (example_key name) = Some entry ->
    truthy entry = true ->
    get entry "circuit" = Some VUndefined ->
    let r := loadExampleCircuit eng cru name
               (Response ok status (Json doc)) net st in
    currentCircuit (after r) = VUndefined /\
    (forall req, In req (sent r) ->
                 req = listing_request \/ req = post (currentCircuit st)) /\
    exportCircuit (after r) = OtherText "undefined" /\
    importCircuit eng (Some (exportCircuit (after r))) net' st2 =
      quiet (setError (VStr "Invalid circuit file format") st2).
Proof.
  intros eng cru name ok status doc entry net net' st st2 Hg Ht Hc r.
  subst r.
  rewrite (loadExampleCircuit_found _ _ _ _ _ _ _ _ _ _ Hg Ht Hc).
  set (called := circuit_argument (Some VUndefined) st).
  set (p := processCircuit eng (Some called) net
              (setCurrentCircuit VUndefined st)).
  pose proof (processCircuit_untouched eng (Some called) net
                (setCurrentCircuit VUndefined st)) as (F & _).
  fold p in F.
  assert (Hcur : currentCircuit
                   (after (if rejected p
                           then {| after := load_failed
                                     (gates_unreadable eng cru called) (after p);
                                   sent := [listing_request];
                                   rejected := false |}
                           else {| after := after p;
                                   sent := listing_request :: sent p;
                                   rejected := false |})) = VUndefined).
  { destruct (rejected p); simpl; exact F. }
  split; [exact Hcur |]. split; [| split].
  - intros req Hin.
    destruct (rejected p) eqn:Hr; simpl in Hin.
    + destruct Hin as [<- | []]. now left.
    + destruct Hin as [<- | Hin]; [now left |]. right.
      destruct (processCircuit_request eng (Some called) net
                  (setCurrentCircuit VUndefined st)) as [(E & _) | (E & _)];
        fold p in E; rewrite E in Hin.
      * contradiction.
      * destruct Hin as [<- | []]. f_equal.
        subst called. simpl.
        destruct (currentCircuit st); reflexivity.
  - unfold exportCircuit. now rewrite Hcur.
  - unfold exportCircuit. now rewrite Hcur.
Qed.

Lemma loadExampleCircuit_entry_without_circuit_witness :
  let doc := JObject [("ghz_state", JObject [("name", JString "GHZ")])] in
  let entry := VObj [("name", VStr "GHZ")] in
  let net := Response true (of_Z 200) (Json (JObject [])) in
  let st := setCurrentCircuit bell_value initial in
  let r := loadExampleCircuit sample_engine (fun k => k) ghz_state
             (Response true (of_Z 200) (Json doc)) net st in
  get (parse doc) (example_key ghz_state) = Some entry /\
  truthy entry = true /\
  get entry "circuit" = Some VUndefined /\
  currentCircuit (after r) = VUndefined /\
  (forall req, In req (sent r) ->
               req = listing_request \/ req = post (currentCircuit st)) /\
  exportCircuit (after r) = OtherText "undefined" /\
  importCircuit sample_engine (Some (exportCircuit (after r))) net initial =
    quiet (setError (VStr "Invalid circuit file format") initial).
Proof.
  intros doc entry net st r.
  assert (H1 : get (parse doc) (example_key ghz_state) = Some entry)
    by reflexivity.
  assert (H2 : truthy entry = true) by reflexivity.
  assert (H3 : get entry "circuit" = Some VUndefined) by reflexivity.
  exact (conj H1 (conj H2 (conj H3
    (loadExampleCircuit_entry_without_circuit sample_engine (fun k => k)
       ghz_state true (of_Z 200) doc entry net net st initial H1 H2 H3)))).
Defined.

End LoaderFacts.

(* ===================================================================== *)
(** * Properties of what is displayed                                      *)
(* ===================================================================== *)

Section DisplayFacts.
Import JS App Aux Display.

(** The section throws when [qubits] is not an array. *)
Lemma visualization_needs_array toFixed (qs : value) :
  truthy qs = true ->
  (forall items, get qs "qubits" <> Some (VArr items)) ->
  visualization_section toFixed qs = Throws.
Proof.
  intros Ht Hq. unfold visualization_section. rewrite Ht.
  destruct (get qs "num_qubits"); [| reflexivity].
  destruct (get qs "qubits") as [[] |]; try reflexivity.
  now contradiction (Hq items).
Qed.

(** X: the guard of [BlochSphere] comes too late.  For a stored result
    without a [qubits] property, [BlochSphere] alone would show its
    "No quantum states to display" notice, but [App] maps over
    [quantumStates.qubits] itself, and the render of the section
    throws. *)
Theorem missing_qubits_guarded_only_in_BlochSphere :
  forall (toFixed : number -> nat -> string) (qs q : value),
    truthy qs = true ->
    get qs "qubits" = Some q ->
    truthy q = false ->
    BlochSphere toFixed qs = Shown NoStates /\
    visualization_section toFixed qs = Throws.
Proof.
  intros toFixed qs q Ht Hq Hf. split.
  - unfold BlochSphere. now rewrite Ht, Hq, Hf.
  - apply visualization_needs_array; [exact Ht |].
    intros items E. rewrite Hq in E. injection E as ->. discriminate.
Qed.

Lemma missing_qubits_guarded_only_in_BlochSphere_witness :
  let toFixed := fun (_ : number) (_ : nat) => "0" in
  let qs := VObj [("num_qubits", VNum (of_Z 2))] in
  truthy qs = true /\
  get qs "qubits" = Some VUndefined /\
  truthy VUndefined = false /\
  BlochSphere toFixed qs = Shown NoStates /\
  visualization_section toFixed qs = Throws.
Proof.
  intros toFixed qs.
  assert (H1 : truthy qs = true) by reflexivity.
  assert (H2 : get qs "qubits" = Some VUndefined) by reflexivity.
  assert (H3 : truthy VUndefined = false) by reflexivity.
  exact (conj H1 (conj H2 (conj H3
    (missing_qubits_guarded_only_in_BlochSphere toFixed qs VUndefined
       H1 H2 H3)))).
Defined.

(** X: a body without qubits brings the page down.  When a processing
    call gets a success response whose JSON body is truthy, has no truthy
    [error] and has no array under [qubits], the body is stored as
    [quantumStates] and the next render of the visualization section
    throws. *)
Theorem stored_body_without_qubits_breaks_render :
  forall (eng : engine) (toFixed : number -> nat -> string)
         (arg : option value) (status : number) (doc : json) (e : value)
         (st : state),
    let r := processCircuit eng arg (Response true status (Json doc)) st in
    sent r <> [] ->
    get (parse doc) "error" = Some e ->
    truthy e = false ->
    truthy (parse doc) = true ->
    (forall items, get (parse doc) "qubits" <> Some (VArr items)) ->
    quantumStates (after r) = parse doc /\
    error (after r) = VNull /\
    visualization_section toFixed (quantumStates (after r)) = Throws.
Proof.
  intros eng toFixed arg status doc e st r Hsent He Hf Ht Hq. subst r.
  assert (Hs : quantumStates
                 (after (processCircuit eng arg
                           (Response true status (Json doc)) st)) = parse doc
               /\ error (after (processCircuit eng arg
                                  (Response true status (Json doc)) st)) = VNull).
  { destruct (rejected (processCircuit eng arg
                          (Response true status (Json doc)) st)) eqn:Hr.
    - exfalso. apply Hsent. revert Hr. unfold App.processCircuit.
      destruct (get (circuit_argument arg st) "gates") as [g |];
        [| reflexivity].
      destruct (_ || _); discriminate.
    - destruct (processCircuit_paths _ _ _ _ Hr) as [E | E];
        rewrite E in Hsent |- *.
      + now contradiction Hsent.
      + simpl. rewrite He, Hf. split; reflexivity. }
  destruct Hs as [Hs1 Hs2]. split; [exact Hs1 |]. split; [exact Hs2 |].
  rewrite Hs1. now apply visualization_needs_array.
Qed.

Lemma stored_body_without_qubits_breaks_render_witness :
  let toFixed := fun (_ : number) (_ : nat) => "0" in
  let doc := JObject [("error", JString "")] in
  let r := processCircuit sample_engine (Some bell_value)
             (Response true (of_Z 200) (Json doc)) initial in
  sent r <> [] /\
  get (parse doc) "error" = Some (VStr "") /\
  truthy (VStr "") = false /\
  truthy (parse doc) = true /\
  (forall items, get (parse doc) "qubits" <> Some (VArr items)) /\
  quantumStates (after r) = parse doc /\
  error (after r) = VNull /\
  visualization_section toFixed (quantumStates (after r)) = Throws.
Proof.
  intros toFixed doc r.
  assert (H1 : sent r <> []) by discriminate.
  assert (H2 : get (parse doc) "error" = Some (VStr "")) by reflexivity.
  assert (H3 : truthy (VStr "") = false) by reflexivity.
  assert (H4 : truthy (parse doc) = true) by reflexivity.
  assert (H5 : forall items, get (parse doc) "qubits" <> Some (VArr items))
    by (intros items; discriminate).
  exact (conj H1 (conj H2 (conj H3 (conj H4 (conj H5
    (stored_body_without_qubits_breaks_render sample_engine toFixed
       (Some bell_value) (of_Z 200) doc (VStr "") initial
       H1 H2 H3 H4 H5)))))).
Defined.

Lemma coordinate_number (c : value) (k : string) (n : number) :
  get c k = Some (VNum n) -> coordinate c k = Shown n.
Proof. unfold coordinate. now intros ->. Qed.

Lemma state_info_plottable toFixed (q : value) (i x y z : number) :
  plottable q i x y z ->
  state_info toFixed q =
    Shown {| heading := VNum i;
             info_x := toFixed x 4; info_y := toFixed y 4; info_z := toFixed z 4;
             description := getStateDescription toFixed x y z |}.
Proof.
  intros [Hi [c [Hc [Hx [Hy Hz]]]]]. unfold state_info.
  rewrite Hi, Hc. cbn [child valid_child and_then].
  now rewrite (coordinate_number _ _ _ Hx), (coordinate_number _ _ _ Hy),
    (coordinate_number _ _ _ Hz).
Qed.

Lemma draw_row_plottable toFixed (q : value) (i x y z : number) :
  plottable q i x y z ->
  draw_row toFixed q =
    Shown {| panel_index := VNum i;
             panel_x := toFixed x 3; panel_y := toFixed y 3;
             panel_z := toFixed z 3 |}.
Proof.
  intros [Hi [c [Hc [Hx [Hy Hz]]]]]. unfold draw_row.
  rewrite Hi, Hc. cbn [child valid_child and_then].
  now rewrite (coordinate_number _ _ _ Hx), (coordinate_number _ _ _ Hy),
    (coordinate_number _ _ _ Hz).
Qed.

Lemma draw_sphere_plottable (n : number) (k : nat) (q : value)
      (i x y z : number) :
  plottable q i x y z ->
  draw_sphere n k q =
    Shown {| sphere_key := VNum i;
             position := (sphere_x (of_Z (Z.of_nat k)) n, of_Z 0, of_Z 0);
             tip := (VNum x, VNum z, VNum y);
             qubitIndex := VNum i |}.
Proof.
  intros [Hi [c [Hc [Hx [Hy Hz]]]]]. unfold draw_sphere.
  now rewrite Hi, Hc, Hx, Hy, Hz.
Qed.

Lemma all_shown_Forall2 {A B} (f : A -> shown B) (R : A -> B -> Prop)
      (xs : list A) :
  Forall (fun a => exists b, f a = Shown b /\ R a b) xs ->
  exists bs, all_shown (map f xs) = Shown bs /\ Forall2 R xs bs.
Proof.
  induction 1 as [| a xs [b [Hb Rb]] _ [bs [Hbs Rbs]]].
  - exists []. split; [reflexivity | constructor].
  - exists (b :: bs). simpl. rewrite Hb, Hbs.
    split; [reflexivity | now constructor].
Qed.

Lemma all_shown_map_index {A B} (f : nat -> A -> shown B)
      (R : A -> B -> Prop) (xs : list A) :
  forall from,
    Forall (fun a => forall k, exists b, f k a = Shown b /\ R a b) xs ->
    exists bs,
      all_shown (map_index f from xs) = Shown bs /\ Forall2 R xs bs.
Proof.
  induction xs as [| a xs IH]; intros from H.
  - exists []. split; [reflexivity | constructor].
  - inversion H as [| ? ? Ha Hxs]; subst.
    destruct (Ha from) as [b [Hb Rb]].
    destruct (IH (S from) Hxs) as [bs [Hbs Rbs]].
    exists (b :: bs). simpl. rewrite Hb, Hbs.
    split; [reflexivity | now constructor].
Qed.

(** X: a result of the documented shape is drawn completely.  When the
    stored result has a displayable [num_qubits] and an array [qubits]
    whose entries each carry a numeric index and numeric Bloch
    coordinates, the section renders: one sphere, one panel row and one
    information entry per qubit, in the order of the array; the tip of a
    sphere's arrow is at (x, z, y), the panel prints the coordinates with
    three decimals and the information entry with four, next to the
    description of the state. *)
Theorem documented_result_is_drawn :
  forall (toFixed : number -> nat -> string) (qs n : value)
         (items : list value),
    truthy qs = true ->
    get qs "num_qubits" = Some n ->
    valid_child n = true ->
    get qs "qubits" = Some (VArr items) ->
    Forall plotted items ->
    exists spheres rows infos,
      visualization_section toFixed qs =
        Shown (StateInfo
                 (Scene (VNum (of_Z (Z.of_nat (List.length items))))
                        spheres rows)
                 n infos) /\
      Forall2 (fun q s => exists i x y z,
                 plottable q i x y z /\
                 tip s = (VNum x, VNum z, VNum y) /\
                 qubitIndex s = VNum i) items spheres /\
      Forall2 (fun q r => exists i x y z,
                 plottable q i x y z /\
                 panel_index r = VNum i /\
                 panel_x r = toFixed x 3 /\
                 panel_y r = toFixed y 3 /\
                 panel_z r = toFixed z 3) items rows /\
      Forall2 (fun q info => exists i x y z,
                 plottable q i x y z /\
                 heading info = VNum i /\
                 info_x info = toFixed x 4 /\
                 info_y info = toFixed y 4 /\
                 info_z info = toFixed z 4 /\
                 description info = getStateDescription toFixed x y z)
              items infos.
Proof.
  intros toFixed qs n items Ht Hn Hc Hq Hall.
  destruct (all_shown_map_index
              (draw_sphere (of_Z (Z.of_nat (List.length items))))
              (fun q s => exists i x y z,
                 plottable q i x y z /\
                 tip s = (VNum x, VNum z, VNum y) /\
                 qubitIndex s = VNum i) items 0) as [spheres [Hs Rs]].
  { apply Forall_impl with (2 := Hall). intros q [i [x [y [z P]]]] k.
    eexists. split; [exact (draw_sphere_plottable _ k q i x y z P) |].
    exists i, x, y, z. split; [exact P | repeat split]. }
  destruct (all_shown_Forall2 (draw_row toFixed)
              (fun q r => exists i x y z,
                 plottable q i x y z /\
                 panel_index r = VNum i /\
                 panel_x r = toFixed x 3 /\
                 panel_y r = toFixed y 3 /\
                 panel_z r = toFixed z 3) items) as [rows [Hr Rr]].
  { apply Forall_impl with (2 := Hall). intros q [i [x [y [z P]]]].
    eexists. split; [exact (draw_row_plottable toFixed q i x y z P) |].
    exists i, x, y, z. split; [exact P | repeat split]. }
  destruct (all_shown_Forall2 (state_info toFixed)
              (fun q info => exists i x y z,
                 plottable q i x y z /\
                 heading info = VNum i /\
                 info_x info = toFixed x 4 /\
                 info_y info = toFixed y 4 /\
                 info_z info = toFixed z 4 /\
                 description info = getStateDescription toFixed x y z)
              items) as [infos [Hi Ri]].
  { apply Forall_impl with (2 := Hall). intros q [i [x [y [z P]]]].
    eexists. split; [exact (state_info_plottable toFixed q i x y z P) |].
    exists i, x, y, z. split; [exact P | repeat split]. }
  exists spheres, rows, infos. split; [| now repeat split].
  unfold visualization_section, BlochSphere.
  rewrite Ht, Hn, Hq. cbn [negb truthy].
  rewrite Hs, Hr, Hi. unfold child. rewrite Hc. reflexivity.
Qed.

Lemma documented_result_is_drawn_witness :
  let toFixed := fun (_ : number) (_ : nat) => "0.000" in
  let q0 := VObj [("index", VNum (of_Z 0));
                  ("bloch_coordinates",
                   VObj [("x", VNum (of_Z 0)); ("y", VNum (of_Z 0));
                         ("z", VNum (of_Z 1))])] in
  let qs := VObj [("num_qubits", VNum (of_Z 1)); ("qubits", VArr [q0])] in
  truthy qs = true /\
  get qs "num_qubits" = Some (VNum (of_Z 1)) /\
  valid_child (VNum (of_Z 1)) = true /\
  get qs "qubits" = Some (VArr [q0]) /\
  Forall plotted [q0] /\
  exists spheres rows infos,
    visualization_section toFixed qs =
      Shown (StateInfo
               (Scene (VNum (of_Z (Z.of_nat (List.length [q0]))))
                      spheres rows)
               (VNum (of_Z 1)) infos) /\
    map description infos = ["Pure |0⟩ state"].
Proof.
  intros toFixed q0 qs.
  assert (H1 : truthy qs = true) by reflexivity.
  assert (H2 : get qs "num_qubits" = Some (VNum (of_Z 1))) by reflexivity.
  assert (H3 : valid_child (VNum (of_Z 1)) = true) by reflexivity.
  assert (H4 : get qs "qubits" = Some (VArr [q0])) by reflexivity.
  assert (H5 : Forall plotted [q0]).
  { constructor; [| constructor].
    exists (of_Z 0), (of_Z 0), (of_Z 0), (of_Z 1).
    split; [reflexivity |]. eexists. repeat split. }
  split; [exact H1 |]. split; [exact H2 |]. split; [exact H3 |].
  split; [exact H4 |]. split; [exact H5 |].
  destruct (documented_result_is_drawn toFixed qs (VNum (of_Z 1)) [q0]
              H1 H2 H3 H4 H5) as (spheres & rows & infos & E & _).
  exists spheres, rows, infos. split; [exact E |].
  vm_compute in E. now injection E as _ _ <-.
Defined.

End DisplayFacts.

(* ===================================================================== *)
(** * Properties of the circuit diagram                                    *)
(* ===================================================================== *)

Section DiagramFacts.
Import JS CircuitBuilder Display Diagram.

Variable numberToString : number -> string.
Variable toFixed : number -> nat -> string.

Lemma catalog_entry_known (key : string) (info : GateInfo) :
  lookup key availableGates = Some info ->
  catalog_entry numberToString (VStr key) = Shown info.
Proof. unfold catalog_entry. simpl. now intros ->. Qed.











(** A tag that throws ends the render. *)
Lemma render_throws_of_tag (s : state) (g : value) :
  In g (gates s) ->
  tag numberToString g = Throws ->
  render numberToString toFixed s = Throws.
Proof.
  intros Hin Ht.
  assert (Hl : all_shown (map (tag numberToString) (gates s)) = Throws).
  { induction (gates s) as [| g' gs IH]; [contradiction |].
    destruct Hin as [-> | Hin]; simpl.
    - now rewrite Ht.
    - rewrite (IH Hin). now destruct (tag numberToString g'). }
  unfold render. rewrite Hl.
  destruct (controls _ _ s), (renderCircuitDiagram _ _ s); reflexivity.
Qed.

Lemma tag_unknown (g : value) :
  unknown numberToString g -> tag numberToString g = Throws.
Proof.
  unfold tag, catalog_entry.
  intros [-> | (ty & -> & -> & ->)]; reflexivity.
Qed.

(** X: one gate the catalog does not know brings the builder down.
    When the gates of the component contain an entry that is [undefined]
    or [null], or whose [type] names neither a catalog entry nor a
    built-in property, the gate list under the diagram reads a property
    of [undefined] and the render throws, whatever else is in the
    circuit. *)
Theorem unknown_gate_breaks_render :
  forall (s : state) (g : value),
    In g (gates s) ->
    unknown numberToString g ->
    render numberToString toFixed s = Throws.
Proof.
  intros s g Hin Hu.
  apply (render_throws_of_tag s g Hin).
  now apply tag_unknown.
Qed.

(** X: an imported file reaches the builder unchecked.  [importCircuit]
    stores what the file denotes as the current circuit, [App] hands the
    current circuit to the builder as [initialCircuit], and the builder
    copies its gates: when the file has a numeric [num_qubits] and its
    [gates] array contains a gate the catalog does not know, the builder
    takes over exactly these gates and its next render throws. *)
Theorem imported_unknown_gate_breaks_builder :
  forall (eng : App.engine) (doc : json) (net : App.reply)
         (st : App.state) (s : state) (n : number) (items : list value)
         (g : value),
    let c := App.currentCircuit
               (App.after (App.importCircuit eng (Some (App.JsonText doc))
                                             net st)) in
    get c "num_qubits" = Some (VNum n) ->
    get c "gates" = Some (VArr items) ->
    In g items ->
    unknown numberToString g ->
    c = parse doc /\
    exists s',
      handle (InitialCircuitChanged c) s = Some s' /\
      gates s' = items /\
      render numberToString toFixed s' = Throws.
Proof.
  intros eng doc net st s n items g c Hn Hg Hin Hu.
  assert (Hc : c = parse doc).
  { subst c. unfold App.importCircuit. simpl.
    now rewrite processCircuit_currentCircuit. }
  split; [exact Hc |].
  assert (Ht : truthy c = true).
  { destruct c; try discriminate; reflexivity. }
  exists (setGates items (setNumQubits n s)).
  split; [| split; [reflexivity |]].
  - simpl. unfold syncInitialCircuit. now rewrite Ht, Hn, Hg.
  - now apply (render_throws_of_tag _ g); [| apply tag_unknown].
Qed.

Lemma small_index (z : Z) :
  (0 <= z < 5)%Z -> z = 0%Z \/ z = 1%Z \/ z = 2%Z \/ z = 3%Z \/ z = 4%Z.
Proof. lia. Qed.

(** X: how a two-qubit gate is laid out.  For a CNOT or controlled-Z
    between lines [c] and [t] (lines 0 to 4, the most the builder
    offers), the position on line [q] holds the control dot when q = c,
    otherwise the gate symbol when q = t, otherwise a connection line
    when q lies strictly between the two, and nothing on the lines
    outside; dot and symbol remove the gate of their own step when
    clicked. *)
Theorem two_qubit_gate_layout :
  forall (key : string) (info : GateInfo) (c t q : Z) (step : nat),
    lookup key availableGates = Some info ->
    type info = "two" ->
    (0 <= c < 5)%Z -> (0 <= t < 5)%Z -> (0 <= q < 5)%Z ->
    renderGateAtPosition numberToString toFixed
      (VObj [("type", VStr key); ("control", VNum (of_Z c));
             ("target", VNum (of_Z t))])
      (of_Z q) step =
    Shown (if (q =? c)%Z then
             ControlGate ("Control qubit for " ++ name info)%string step
           else if (q =? t)%Z then
             TargetGate ("Target qubit for " ++ name info)%string
                        (symbol info) step
           else if ((Z.min c t <? q) && (q <? Z.max c t))%Z then
             ConnectionLine
           else Nothing).
Proof.
  intros key info c t q step Hk Ht Hc Htg Hq.
  unfold renderGateAtPosition.
  change (get (VObj [("type", VStr key); ("control", VNum (of_Z c));
                     ("target", VNum (of_Z t))]) "type")
    with (Some (VStr key)).
  cbv beta iota. rewrite (catalog_entry_known _ _ Hk). cbn [and_then]. rewrite Ht.
  change (String.eqb "two" "single") with false.
  change (String.eqb "two" "two") with true.
  cbn [andb].
  change (field (VObj [("type", VStr key); ("control", VNum (of_Z c));
                       ("target", VNum (of_Z t))]) "control")
    with (VNum (of_Z c)).
  change (field (VObj [("type", VStr key); ("control", VNum (of_Z c));
                       ("target", VNum (of_Z t))]) "target")
    with (VNum (of_Z t)).
  destruct (small_index c Hc) as [-> | [-> | [-> | [-> | ->]]]];
    destruct (small_index t Htg) as [-> | [-> | [-> | [-> | ->]]]];
    destruct (small_index q Hq) as [-> | [-> | [-> | [-> | ->]]]];
    reflexivity.
Qed.

(** X: the angle label of a rotation gate.  On its own line a one-qubit
    gate is drawn with its name and line in the title and its symbol;
    with an [angle] that is a number other than zero and NaN the symbol
    is followed by the angle in units of pi with two decimals, but for
    the angle 0 (the lowest position of the slider) the expression
    [gate.angle && ...] yields the number itself, and the bare 0 is
    handed to React in place of the label. *)
Theorem rotation_angle_label :
  forall (key : string) (info : GateInfo) (q a : number) (step : nat),
    lookup key availableGates = Some info ->
    type info = "single" ->
    isNaN q = false ->
    renderGateAtPosition numberToString toFixed
      (VObj [("type", VStr key); ("qubit", VNum q); ("angle", VNum a)])
      q step =
    Shown (SingleGate
             (name info ++ " on qubit " ++ numberToString q)%string
             (symbol info)
             (if isZero a || isNaN a then Bare (VNum a)
              else AngleLabel (toFixed (div a Math_PI) 2))
             step).
Proof.
  intros key info q a step Hk Hs Hq.
  unfold renderGateAtPosition.
  change (get (VObj [("type", VStr key); ("qubit", VNum q);
                     ("angle", VNum a)]) "type")
    with (Some (VStr key)).
  cbv beta iota. rewrite (catalog_entry_known _ _ Hk). cbn [and_then]. rewrite Hs.
  change (String.eqb "single" "single") with true.
  change (field (VObj [("type", VStr key); ("qubit", VNum q);
                       ("angle", VNum a)]) "qubit")
    with (VNum q).
  change (field (VObj [("type", VStr key); ("qubit", VNum q);
                       ("angle", VNum a)]) "angle")
    with (VNum a).
  cbn [strict_eq_num andb ToString].
  change (SFeqb q q) with (num_eq q q). rewrite (num_eq_refl q Hq).
  unfold angle_of. cbn [truthy ToNumber].
  now destruct (isZero a || isNaN a).
Qed.

End DiagramFacts.

Section DiagramScenarios.
Import JS CircuitBuilder Display Diagram.


Lemma unknown_gate_breaks_render_witness :
  let numberToString := App.numberToString App.sample_engine in
  let toFixed := fun (_ : number) (_ : nat) => "0.50" in
  let g := VObj [("type", VStr "swap"); ("qubit", VNum (of_Z 0))] in
  let s := setGates [g] initial in
  In g (gates s) /\
  unknown numberToString g /\
  render numberToString toFixed s = Throws.
Proof.
  intros numberToString toFixed g s.
  assert (H1 : In g (gates s)) by (left; reflexivity).
  assert (H2 : unknown numberToString g).
  { right. exists (VStr "swap"). repeat split. }
  exact (conj H1 (conj H2
    (unknown_gate_breaks_render numberToString toFixed s g H1 H2))).
Defined.

Lemma imported_unknown_gate_breaks_builder_witness :
  let numberToString := App.numberToString App.sample_engine in
  let toFixed := fun (_ : number) (_ : nat) => "0.50" in
  let g := VObj [("type", VStr "swap"); ("qubit", VNum (of_Z 0))] in
  let doc := JObject [("num_qubits", JNumber (of_Z 2));
                      ("gates",
                       JArray [JObject [("type", JString "swap");
                                        ("qubit", JNumber (of_Z 0))]])] in
  let c := App.currentCircuit
             (App.after (App.importCircuit App.sample_engine
                           (Some (App.JsonText doc))
                           (App.NetworkFailure "offline") App.initial)) in
  get c "num_qubits" = Some (VNum (of_Z 2)) /\
  get c "gates" = Some (VArr [g]) /\
  In g [g] /\
  unknown numberToString g /\
  c = parse doc /\
  exists s',
    handle (InitialCircuitChanged c) initial = Some s' /\
    gates s' = [g] /\
    render numberToString toFixed s' = Throws.
Proof.
  intros numberToString toFixed g doc c.
  assert (H1 : get c "num_qubits" = Some (VNum (of_Z 2))) by reflexivity.
  assert (H2 : get c "gates" = Some (VArr [g])) by reflexivity.
  assert (H3 : In g [g]) by (left; reflexivity).
  assert (H4 : unknown numberToString g).
  { right. exists (VStr "swap"). repeat split. }
  exact (conj H1 (conj H2 (conj H3 (conj H4
    (imported_unknown_gate_breaks_builder numberToString toFixed
       App.sample_engine doc (App.NetworkFailure "offline") App.initial
       initial (of_Z 2) [g] g H1 H2 H3 H4))))).
Defined.

Lemma two_qubit_gate_layout_witness :
  let numberToString := App.numberToString App.sample_engine in
  let toFixed := fun (_ : number) (_ : nat) => "0.50" in
  let info := {| name := "CNOT"; symbol := "⊕"; type := "two";
                 hasAngle := false |} in
  lookup "cx" availableGates = Some info /\
  type info = "two" /\
  (0 <= 0 < 5)%Z /\ (0 <= 2 < 5)%Z /\ (0 <= 1 < 5)%Z /\
  renderGateAtPosition numberToString toFixed
    (VObj [("type", VStr "cx"); ("control", VNum (of_Z 0));
           ("target", VNum (of_Z 2))])
    (of_Z 1) 7 =
  Shown (if (1 =? 0)%Z then
           ControlGate ("Control qubit for " ++ name info)%string 7
         else if (1 =? 2)%Z then
           TargetGate ("Target qubit for " ++ name info)%string
                      (symbol info) 7
         else if ((Z.min 0 2 <? 1) && (1 <? Z.max 0 2))%Z then
           ConnectionLine
         else Nothing).
Proof.
  intros numberToString toFixed info.
  assert (H1 : lookup "cx" availableGates = Some info) by reflexivity.
  assert (H2 : type info = "two") by reflexivity.
  assert (H3 : (0 <= 0 < 5)%Z) by lia.
  assert (H4 : (0 <= 2 < 5)%Z) by lia.
  assert (H5 : (0 <= 1 < 5)%Z) by lia.
  exact (conj H1 (conj H2 (conj H3 (conj H4 (conj H5
    (two_qubit_gate_layout numberToString toFixed "cx" info 0 2 1 7
       H1 H2 H3 H4 H5)))))).
Defined.

Lemma rotation_angle_label_witness :
  let numberToString := App.numberToString App.sample_engine in
  let toFixed := fun (_ : number) (_ : nat) => "0.50" in
  let info := {| name := "Rotation-X"; symbol := "Rx"; type := "single";
                 hasAngle := true |} in
  lookup "rx" availableGates = Some info /\
  type info = "single" /\
  isNaN (of_Z 1) = false /\
  renderGateAtPosition numberToString toFixed
    (VObj [("type", VStr "rx"); ("qubit", VNum (of_Z 1));
           ("angle", VNum (of_Z 0))])
    (of_Z 1) 0 =
  Shown (SingleGate
           (name info ++ " on qubit " ++ numberToString (of_Z 1))%string
           (symbol info)
           (if isZero (of_Z 0) || isNaN (of_Z 0) then Bare (VNum (of_Z 0))
            else AngleLabel (toFixed (div (of_Z 0) Math_PI) 2))
           0).
Proof.
  intros numberToString toFixed info.
  assert (H1 : lookup "rx" availableGates = Some info) by reflexivity.
  assert (H2 : type info = "single") by reflexivity.
  assert (H3 : isNaN (of_Z 1) = false) by reflexivity.
  exact (conj H1 (conj H2 (conj H3
    (rotation_angle_label numberToString toFixed "rx" info (of_Z 1)
       (of_Z 0) 0 H1 H2 H3)))).
Defined.

End DiagramScenarios.
